(** * chrome-helper: launch options, instance lifecycle and session listing

    A shallow embedding of [src/chrome-helper.ts].  JavaScript strings are
    [string], [undefined]/[null] are [None], objects used as dictionaries
    are [gmap string _], the module-level [runningBrowsers] array and the
    browser objects it refers to live in an explicit [World]. *)

From Stdlib Require Import ZArith Ascii String List Bool Lia.
From stdpp Require Import base option list gmap strings pretty.

Local Open Scope string_scope.
Local Open Scope list_scope.

(** ** JavaScript strings *)

Module Js.

(** [s.startsWith(p)] *)
Definition startsWith (s p : string) : bool := String.prefix p s.

(** [s.includes(sub)] *)
Fixpoint includes (s sub : string) : bool :=
  String.prefix sub s ||
  match s with
  | EmptyString => false
  | String _ s' => includes s' sub
  end.

(** [s.split(sep)] for a one-character separator. *)
Fixpoint split (sep : ascii) (s : string) : list string :=
  match s with
  | EmptyString => [EmptyString]
  | String c s' =>
      if Ascii.eqb c sep then EmptyString :: split sep s'
      else match split sep s' with
           | [] => [String c EmptyString]
           | tok :: toks => String c tok :: toks
           end
  end.

(** [arr.join(sep)] *)
Fixpoint join (sep : string) (l : list string) : string :=
  match l with
  | [] => ""
  | [x] => x
  | x :: l' => x +:+ sep +:+ join sep l'
  end.

(** [arr.pop()] on a fresh array: the last element, [undefined] if empty. *)
Definition pop (l : list string) : option string := last l.

(** Truthiness of a string. *)
Definition truthy (s : string) : bool := negb (String.eqb s "").

(** Truthiness of [string | undefined | null]. *)
Definition truthy_opt (o : option string) : bool :=
  match o with
  | Some s => truthy s
  | None => false
  end.

(** [a || b] on [string | undefined]. *)
Definition or_else (a b : option string) : option string :=
  if truthy_opt a then a else b.

End Js.

(** ** Query values

    A value of Node's [ParsedUrlQuery]: a string, or an array of strings
    when the key is repeated.  A missing key is [undefined]. *)

Inductive QVal :=
| QStr (s : string)
| QArr (l : list string).

(** The query object keeps its keys in insertion order; [_.map] visits
    them in that order. *)
Definition ParsedUrlQuery := list (string * QVal).

Fixpoint qlookup (q : ParsedUrlQuery) (k : string) : option QVal :=
  match q with
  | [] => None
  | (k', v) :: q' => if String.eqb k' k then Some v else qlookup q' k
  end.

(** String coercion, as in a template literal. *)
Definition qToString (v : QVal) : string :=
  match v with
  | QStr s => s
  | QArr l => Js.join "," l
  end.

Definition qTruthy (v : QVal) : bool :=
  match v with
  | QStr s => Js.truthy s
  | QArr _ => true
  end.

(** [v !== 'false'] *)
Definition qNotFalse (v : QVal) : bool :=
  match v with
  | QStr s => negb (String.eqb s "false")
  | QArr _ => true
  end.

Definition isUndefined {A} (o : option A) : bool :=
  match o with
  | None => true
  | Some _ => false
  end.

(** [string[] | boolean] *)
Inductive IgnoreDefaultArgs :=
| IgnoreBool (b : bool)
| IgnoreList (l : list string).

(** ** Options and configuration *)

Record ILaunchOptions := {
  args : option (list string);
  blockAds : bool;
  dumpio : bool;
  headless : option bool;
  ignoreDefaultArgs : IgnoreDefaultArgs;
  ignoreHTTPSErrors : bool;
  keepalive : option Z;
  pauseOnConnect : bool;
  playwright : bool;
  slowMo : option Z;
  trackingId : option string;
  userDataDir : option string;
}.

Record IHTTPRequest := {
  req_pathname : option string;
  req_query : ParsedUrlQuery;
}.

(** The values imported from [./config], [./constants] and [../env];
    those modules are not part of this file, so they are parameters. *)
Record Config := {
  DEFAULT_BLOCK_ADS : bool;
  DEFAULT_DUMPIO : bool;
  DEFAULT_HEADLESS : bool;
  DEFAULT_IGNORE_DEFAULT_ARGS : IgnoreDefaultArgs;
  DEFAULT_IGNORE_HTTPS_ERRORS : bool;
  DEFAULT_LAUNCH_ARGS : list string;
  DEFAULT_USER_DATA_DIR : option string;
  DISABLE_AUTO_SET_DOWNLOAD_BEHAVIOR : bool;
  DISABLED_FEATURES : list string;
  Features_DEBUG_VIEWER : string;
  USE_CHROME_STABLE : bool;
  PUPPETEER_CHROMIUM_REVISION : Z;
  HOST : option string;
  PORT : string;
  PROXY_HOST : option string;
  PROXY_PORT : option string;
  PROXY_SSL : bool;
  WORKSPACE_DIR : string;
  PLAYWRIGHT_ROUTE : string;
  CHROME_BINARY_LOCATION : option string;
}.

Definition BROWSERLESS_ARGS : list string :=
  ["--no-sandbox"; "--enable-logging"; "--v1=1"; "--disable-dev-shm-usage"].

(** ** parseIgnoreDefaultArgs *)

Definition parseIgnoreDefaultArgs (query : ParsedUrlQuery) : IgnoreDefaultArgs :=
  match qlookup query "ignoreDefaultArgs" with
  | None => IgnoreBool false
  | Some (QStr s) =>
      if String.eqb s "false" then IgnoreBool false
      else if String.eqb s "" || String.eqb s "true" then IgnoreBool true
      else IgnoreList (Js.split "," s)
  | Some (QArr l) => IgnoreList l
  end.

Section WithConfig.

Variable cfg : Config.

(** ECMAScript [parseInt(s, 10)] and lodash's [_.parseInt(s)] (which also
    reads a [0x] prefix); [None] is [NaN]. *)
Variable js_parseInt : string -> option Z.
Variable lodash_parseInt : string -> option Z.

Definition defaultLaunchArgs : ILaunchOptions := {|
  args := Some (DEFAULT_LAUNCH_ARGS cfg);
  blockAds := DEFAULT_BLOCK_ADS cfg;
  dumpio := DEFAULT_DUMPIO cfg;
  headless := Some (DEFAULT_HEADLESS cfg);
  ignoreDefaultArgs := DEFAULT_IGNORE_DEFAULT_ARGS cfg;
  ignoreHTTPSErrors := DEFAULT_IGNORE_HTTPS_ERRORS cfg;
  keepalive := None;
  pauseOnConnect := false;
  playwright := false;
  slowMo := None;
  trackingId := None;
  userDataDir := DEFAULT_USER_DATA_DIR cfg;
|}.

(** ** canUsePrebootedChrome *)

Definition canUsePrebootedChrome (launchArgs : ILaunchOptions) : bool :=
  if negb (isUndefined (headless launchArgs)) &&
     negb (bool_decide (headless launchArgs = Some (DEFAULT_HEADLESS cfg)))
  then false
  else
    match args launchArgs with
    | Some a =>
        if negb (length a =? length (DEFAULT_LAUNCH_ARGS cfg))%nat
        then false else true
    | None => true
    end.

(** ** convertUrlParamsToLaunchOpts *)

(** [_.chain(query).pickBy(startsWith '--').map(...)] *)
Definition queryArgs (query : ParsedUrlQuery) : list string :=
  map (fun kv : string * QVal =>
         let (key, value) := kv in
         key +:+ (if qTruthy value then "=" +:+ qToString value else ""))
      (filter (fun kv : string * QVal => Js.startsWith (fst kv) "--" = true) query).

Definition zTruthy (o : option Z) : option Z :=
  match o with
  | Some 0%Z => None
  | other => other
  end.

Definition convertUrlParamsToLaunchOpts (req : IHTTPRequest) : ILaunchOptions :=
  let query := req_query req in
  let args_ := queryArgs query in
  let blockAds_ := qlookup query "blockAds" in
  let headless_ := qlookup query "headless" in
  let ignoreHTTPSErrors_ := qlookup query "ignoreHTTPSErrors" in
  let slowMo_ := qlookup query "slowMo" in
  let userDataDir_ := qlookup query "userDataDir" in
  let pause := qlookup query "pause" in
  let trackingId_ := qlookup query "trackingId" in
  let keepaliveQuery := qlookup query "keepalive" in
  let dumpioQuery := qlookup query "dumpio" in
  let playwright_ :=
    bool_decide (req_pathname req = Some (PLAYWRIGHT_ROUTE cfg)) in
  let isHeadless :=
    match headless_ with
    | Some v => qNotFalse v
    | None => DEFAULT_HEADLESS cfg
    end in
  let dumpio_ :=
    match dumpioQuery with
    | Some v => qNotFalse v
    | None => DEFAULT_DUMPIO cfg
    end in
  let parsedKeepalive :=
    keepaliveQuery ≫= (fun v => lodash_parseInt (qToString v)) in
  let parsedIgnoreDefaultArgs := parseIgnoreDefaultArgs query in
  {|
    args := Some (match args_ with
                  | [] => DEFAULT_LAUNCH_ARGS cfg
                  | _ :: _ => args_
                  end);
    blockAds := negb (isUndefined blockAds_) || DEFAULT_BLOCK_ADS cfg;
    dumpio := dumpio_;
    headless := Some isHeadless;
    ignoreDefaultArgs := parsedIgnoreDefaultArgs;
    ignoreHTTPSErrors :=
      negb (isUndefined ignoreHTTPSErrors_) || DEFAULT_IGNORE_HTTPS_ERRORS cfg;
    keepalive := parsedKeepalive;
    pauseOnConnect := negb (isUndefined pause);
    playwright := playwright_;
    slowMo := zTruthy (slowMo_ ≫= (fun v => js_parseInt (qToString v)));
    trackingId :=
      match trackingId_ with
      | Some (QArr l) => head l
      | Some (QStr s) => Some s
      | None => None
      end;
    (* [userDataDir as string]: a repeated key is outside the declared
       type; it is carried as its string coercion. *)
    userDataDir :=
      Js.or_else (qToString <$> userDataDir_) (DEFAULT_USER_DATA_DIR cfg);
  |}.

End WithConfig.

(** ** URL objects

    The object returned by Node's [url.parse]; every component is a string
    or [null]. *)

Record UrlObject := {
  protocol : option string;
  slashes : option bool;
  auth : option string;
  host : option string;
  port : option string;
  hostname : option string;
  hash : option string;
  search : option string;
  query : option string;
  pathname : option string;
  path : option string;
  href : option string;
}.

Definition emptyUrl : UrlObject := {|
  protocol := None; slashes := None; auth := None; host := None;
  port := None; hostname := None; hash := None; search := None;
  query := None; pathname := None; path := None; href := None;
|}.

(** [{ ...u, host, protocol, slashes: true }] *)
Definition withProxyParams (u : UrlObject) (host_ protocol_ : string) : UrlObject := {|
  protocol := Some protocol_;
  slashes := Some true;
  auth := auth u;
  host := Some host_;
  port := port u;
  hostname := hostname u;
  hash := hash u;
  search := search u;
  query := query u;
  pathname := pathname u;
  path := path u;
  href := href u;
|}.

(** ** JSON values and objects *)

Inductive JSValue :=
| JString (s : string)
| JNumber (n : Z)
| JBool (b : bool)
| JNull.

(** One entry of [/json/list], and one rewritten session: plain objects. *)
Abbreviation IJSONList := (gmap string JSValue).
Abbreviation ISession := (gmap string JSValue).

Definition jsOfOption (o : option string) : JSValue :=
  match o with
  | Some s => JString s
  | None => JNull
  end.

(** ** Instances, effects and the world *)

Definition BrowserRef := nat.
Definition PageRef := nat.
Definition ProcessId := nat.
Definition TimerId := nat.

Record IWindowSize := { width : Z; height : Z }.

(** What [puppeteer.launch] / [chromium.launchServer] hands back. *)
Inductive BrowserServer :=
| PuppeteerBrowser (b : BrowserRef)
| PlaywrightServer (s : nat).

Definition isPuppeteer (browserServer : BrowserServer) : bool :=
  match browserServer with
  | PuppeteerBrowser _ => true
  | PlaywrightServer _ => false
  end.

Record IBrowser := {
  _isOpen : bool;
  _keepalive : option Z;
  _browserProcess : ProcessId;
  _isUsingTempDataDir : bool;
  _browserlessDataDir : option string;
  _trackingId : option string;
  _keepaliveTimeout : option TimerId;
  _startTime : Z;
  _prebooted : bool;
  _blockAds : bool;
  _pauseOnConnect : bool;
  _browserServer : BrowserServer;
  _parsed : UrlObject;
  _wsEndpoint : string;
  _id : string;
}.

Definition set_isOpen (v : bool) (b : IBrowser) : IBrowser := {|
  _isOpen := v;
  _keepalive := _keepalive b;
  _browserProcess := _browserProcess b;
  _isUsingTempDataDir := _isUsingTempDataDir b;
  _browserlessDataDir := _browserlessDataDir b;
  _trackingId := _trackingId b;
  _keepaliveTimeout := _keepaliveTimeout b;
  _startTime := _startTime b;
  _prebooted := _prebooted b;
  _blockAds := _blockAds b;
  _pauseOnConnect := _pauseOnConnect b;
  _browserServer := _browserServer b;
  _parsed := _parsed b;
  _wsEndpoint := _wsEndpoint b;
  _id := _id b;
|}.

(** The launch configuration handed to the engine:
    [{ ...opts, args, executablePath, handleSIGINT: false, ... }]. *)
Record LaunchArgs := {
  la_opts : ILaunchOptions;
  la_args : list string;
  la_headless : option bool;
  la_executablePath : option string;
  la_handleSIGINT : bool;
  la_devtools : bool;
  la_handleSIGTERM : bool;
  la_handleSIGHUP : bool;
}.

Inductive Engine := Puppeteer | Playwright.

(** Calls that leave this module.  [BrowserDisconnect] is the engine's
    soft detach; it is part of the engine's interface.  [Rejection e] is no
    call and never enters the history: it is the question, put to the
    outside world, whether the promise that the call [e] returned is
    rejected after the caller, who did not await it, has gone on. *)
Inductive Effect :=
| Debug (msg : string)
| GetPort
| GetUserDataDir
| Launch (engine : Engine) (la : LaunchArgs)
| FetchJson (url : string)
| Connect (browserWSEndpoint : string)
| ServerClose (s : BrowserServer)
| BrowserHook (b : BrowserRef)
| BrowserPages (b : BrowserRef)
| TargetPage (p : option PageRef)
| PageHook (p : PageRef)
| ClientSend (p : PageRef) (method : string) (arg : string)
| SetRequestInterception (p : PageRef)
| OnRequest (p : PageRef)
| SetViewport (p : PageRef) (size : IWindowSize)
| OnceClose (p : PageRef)
| ClearTimeout (t : TimerId)
| Rimraf (dir : string)
| BrowserClose (b : BrowserRef)
| BrowserDisconnect (b : BrowserRef)
| RemoveAllListeners (event : string)
| Rejection (e : Effect).

Inductive Exn :=
| ThrownBy (e : Effect)
| TypeError (msg : string)
| Error (msg : string).

(** The mutable state: the heap of browser objects, the module variable
    [runningBrowsers] (an array of references into it), the installed
    listeners, and the history of outside calls, oldest first. *)
Record World := {
  browsers : gmap BrowserRef IBrowser;
  runningBrowsers : list BrowserRef;
  childExitListeners : gmap ProcessId (list BrowserRef);
  hostExitListeners : list string;
  targetListeners : list (BrowserRef * option IWindowSize);
  unhandledRejections : list Exn;
  nextRef : nat;
  history : list Effect;
}.

Definition set_browsers (f : gmap BrowserRef IBrowser -> gmap BrowserRef IBrowser)
    (w : World) : World := {|
  browsers := f (browsers w);
  runningBrowsers := runningBrowsers w;
  childExitListeners := childExitListeners w;
  hostExitListeners := hostExitListeners w;
  targetListeners := targetListeners w;
  unhandledRejections := unhandledRejections w;
  nextRef := nextRef w;
  history := history w;
|}.

Definition set_runningBrowsers (f : list BrowserRef -> list BrowserRef)
    (w : World) : World := {|
  browsers := browsers w;
  runningBrowsers := f (runningBrowsers w);
  childExitListeners := childExitListeners w;
  hostExitListeners := hostExitListeners w;
  targetListeners := targetListeners w;
  unhandledRejections := unhandledRejections w;
  nextRef := nextRef w;
  history := history w;
|}.

Definition set_childExitListeners
    (f : gmap ProcessId (list BrowserRef) -> gmap ProcessId (list BrowserRef))
    (w : World) : World := {|
  browsers := browsers w;
  runningBrowsers := runningBrowsers w;
  childExitListeners := f (childExitListeners w);
  hostExitListeners := hostExitListeners w;
  targetListeners := targetListeners w;
  unhandledRejections := unhandledRejections w;
  nextRef := nextRef w;
  history := history w;
|}.

Definition set_hostExitListeners (f : list string -> list string)
    (w : World) : World := {|
  browsers := browsers w;
  runningBrowsers := runningBrowsers w;
  childExitListeners := childExitListeners w;
  hostExitListeners := f (hostExitListeners w);
  targetListeners := targetListeners w;
  unhandledRejections := unhandledRejections w;
  nextRef := nextRef w;
  history := history w;
|}.

Definition set_targetListeners
    (f : list (BrowserRef * option IWindowSize) -> list (BrowserRef * option IWindowSize))
    (w : World) : World := {|
  browsers := browsers w;
  runningBrowsers := runningBrowsers w;
  childExitListeners := childExitListeners w;
  hostExitListeners := hostExitListeners w;
  targetListeners := f (targetListeners w);
  unhandledRejections := unhandledRejections w;
  nextRef := nextRef w;
  history := history w;
|}.

Definition set_unhandledRejections (f : list Exn -> list Exn)
    (w : World) : World := {|
  browsers := browsers w;
  runningBrowsers := runningBrowsers w;
  childExitListeners := childExitListeners w;
  hostExitListeners := hostExitListeners w;
  targetListeners := targetListeners w;
  unhandledRejections := f (unhandledRejections w);
  nextRef := nextRef w;
  history := history w;
|}.

Definition set_nextRef (f : nat -> nat) (w : World) : World := {|
  browsers := browsers w;
  runningBrowsers := runningBrowsers w;
  childExitListeners := childExitListeners w;
  hostExitListeners := hostExitListeners w;
  targetListeners := targetListeners w;
  unhandledRejections := unhandledRejections w;
  nextRef := f (nextRef w);
  history := history w;
|}.

Definition set_history (f : list Effect -> list Effect) (w : World) : World := {|
  browsers := browsers w;
  runningBrowsers := runningBrowsers w;
  childExitListeners := childExitListeners w;
  hostExitListeners := hostExitListeners w;
  targetListeners := targetListeners w;
  unhandledRejections := unhandledRejections w;
  nextRef := nextRef w;
  history := f (history w);
|}.

(** The outside world: what the collaborators answer, given the calls made
    so far.  [env_throws h e] tells whether the call [e], made after the
    history [h], fails: for an awaited call, whether it throws or its
    promise is rejected; for a call that is not awaited, whether it throws
    before it returns its promise ([env_throws h (Rejection e)] then tells
    whether that promise is rejected later).  [env_settlesFirst h] tells
    which of the failing answers to the requests under way after [h]
    arrives first: its position among them, in the order of the requests. *)
Record Env := {
  env_throws : list Effect -> Effect -> bool;
  env_settlesFirst : list Effect -> nat;
  env_getPort : list Effect -> N;
  env_getUserDataDir : list Effect -> string;
  env_process : list Effect -> ProcessId;
  env_fetchVersion : list Effect -> string -> option string;
  env_fetchList : list Effect -> string -> option (list IJSONList);
  env_pages : list Effect -> BrowserRef -> list PageRef;
  env_browserHook : list Effect -> IBrowser -> IBrowser;
  env_now : list Effect -> Z;
  url_parse : string -> UrlObject;
  url_format : UrlObject -> string;
  path_join : string -> string -> string;
}.

(** ** A state and exception monad for the asynchronous functions *)

Inductive Completion (A : Type) :=
| Normal (a : A)
| Abrupt (x : Exn).
Arguments Normal {A} a.
Arguments Abrupt {A} x.

Definition M (A : Type) : Type := World -> Completion A * World.

Definition ret {A} (a : A) : M A := fun w => (Normal a, w).

Definition bind {A B} (m : M A) (k : A -> M B) : M B :=
  fun w =>
    match m w with
    | (Normal a, w') => k a w'
    | (Abrupt x, w') => (Abrupt x, w')
    end.

Notation "'let*' x ':=' m 'in' k" := (bind m (fun x => k))
  (at level 10, x name, m at level 100, k at level 200).
Notation "m ';;' k" := (bind m (fun _ => k))
  (at level 100, k at level 200, right associativity).

Definition throw {A} (x : Exn) : M A := fun w => (Abrupt x, w).

(** [try { m } catch (error) { handler(error) }] *)
Definition try_catch {A} (m : M A) (handler : Exn -> M A) : M A :=
  fun w =>
    match m w with
    | (Normal a, w') => (Normal a, w')
    | (Abrupt x, w') => handler x w'
    end.

Definition get : M World := fun w => (Normal w, w).
Definition modify (f : World -> World) : M unit := fun w => (Normal tt, f w).

Definition when (c : bool) (m : M unit) : M unit := if c then m else ret tt.

(** Calling an [async] function without awaiting it: a rejection is left
    unhandled and the caller goes on.  The calls it makes are recorded at
    the point where it is started; they touch the page only, so their
    position relative to the caller's later steps does not matter here. *)
Definition detached {A} (m : M A) : M unit :=
  fun w =>
    match m w with
    | (Normal _, w') => (Normal tt, w')
    | (Abrupt x, w') => (Normal tt, set_unhandledRejections (fun l => l ++ [x]) w')
    end.

Fixpoint forEach {A} (l : list A) (f : A -> M unit) : M unit :=
  match l with
  | [] => ret tt
  | a :: l' => f a ;; forEach l' f
  end.

(** The calls made so far. *)
Definition seen : M (list Effect) := fun w => (Normal (history w), w).

(** A reference to a new object. *)
Definition fresh : M nat := fun w => (Normal (nextRef w), set_nextRef S w).

Section Lifecycle.

Variable cfg : Config.
Variable env : Env.

(** An outside call that cannot raise. *)
Definition emit (e : Effect) : M unit :=
  modify (set_history (fun h => h ++ [e])).

(** An outside call that may fail and whose failure is raised where the
    call is made: an awaited call, or the synchronous part of any call. *)
Definition perform (e : Effect) : M unit :=
  fun w =>
    let w' := set_history (fun h => h ++ [e]) w in
    if env_throws env (history w) e then (Abrupt (ThrownBy e), w')
    else (Normal tt, w').

(** An outside call that returns a promise, made without [await] and
    without a handler: if it throws before returning, that is raised here;
    if the promise is rejected later, nothing handles the rejection and the
    caller has gone on. *)
Definition unawaited (e : Effect) : M unit :=
  let* h := seen in
  perform e ;;
  when (env_throws env h (Rejection e))
    (modify (set_unhandledRejections (fun l => l ++ [ThrownBy e]))).

(** [promise.catch(_.noop)] *)
Definition swallow (m : M unit) : M unit := try_catch m (fun _ => ret tt).

Definition debug (msg : string) : M unit := emit (Debug msg).

Definition readBrowser (browser : BrowserRef) : M IBrowser :=
  fun w =>
    match browsers w !! browser with
    | Some b => (Normal b, w)
    | None => (Abrupt (TypeError "not a browser object"), w)
    end.

(** ** closeBrowser *)

Definition sameEndpoint (w : World) (ws : string) (r : BrowserRef) : bool :=
  match browsers w !! r with
  | Some b => String.eqb (_wsEndpoint b) ws
  | None => false
  end.

(** [rimraf(dir)] and [browser.close()] return promises; the teardown
    awaits neither, so the [catch] sees them only if they throw before
    returning. *)
Definition closeBrowser (browser : BrowserRef) : M unit :=
  fun w =>
    match browsers w !! browser with
    | None => (Normal tt, w)
    | Some b =>
        if negb (_isOpen b) then (Normal tt, w)
        else
          (modify (set_browsers (insert browser (set_isOpen false b))) ;;
           debug "Shutting down browser with close command" ;;
           try_catch
             (match _keepaliveTimeout b with
              | Some t => emit (ClearTimeout t)
              | None => ret tt
              end ;;
              when (Js.truthy_opt (_browserlessDataDir b))
                (debug ("Removing temp data-dir " +:+ default "" (_browserlessDataDir b)) ;;
                 unawaited (Rimraf (default "" (_browserlessDataDir b)))) ;;
              modify (fun w1 =>
                set_runningBrowsers
                  (List.filter (fun r => negb (sameEndpoint w1 (_wsEndpoint b) r))) w1) ;;
              unawaited (BrowserClose browser) ;;
              emit (RemoveAllListeners "exit") ;;
              modify (set_hostExitListeners (fun _ => [])))
             (fun error => debug "Browser close emitted an error")) w
    end.

(** The owned process exits: Node runs the one-shot ['exit'] listeners
    installed on it, each of which calls [closeBrowser]. *)
Definition processExit (pid : ProcessId) : M unit :=
  let* w := get in
  modify (set_childExitListeners (delete pid)) ;;
  forEach (default [] (childExitListeners w !! pid))
    (fun browser =>
       debug "Browser process exited, cleaning up" ;;
       detached (closeBrowser browser)).

(** ** kill, killAll, getBrowsersRunning *)

Definition getBrowsersRunning (w : World) : nat := length (runningBrowsers w).

Definition hasId (w : World) (id : string) (r : BrowserRef) : bool :=
  match browsers w !! r with
  | Some b => String.eqb (_id b) id
  | None => false
  end.

(** Returns [false] for the [null] result. *)
Definition kill (id : string) : M bool :=
  let* w := get in
  match List.find (hasId w id) (runningBrowsers w) with
  | Some browser => closeBrowser browser ;; ret true
  | None => ret false
  end.

Definition killAll : M unit :=
  let* w := get in
  forEach (runningBrowsers w) closeBrowser ;;
  modify (set_runningBrowsers (fun _ => [])).

(** ** setupPage *)

Definition setupPage (page : PageRef) (pauseOnConnect_ blockAds_ : bool)
    (trackingId_ : option string) (windowSize : option IWindowSize) : M unit :=
  perform (PageHook page) ;;
  when (USE_CHROME_STABLE cfg || (PUPPETEER_CHROMIUM_REVISION cfg <=? 706915)%Z)
    (debug "Patching file-chooser dialog" ;;
     swallow (perform (ClientSend page "Page.setInterceptFileChooserDialog" ""))) ;;
  when (negb (DISABLE_AUTO_SET_DOWNLOAD_BEHAVIOR cfg))
    (let workspaceDir :=
       if Js.truthy_opt trackingId_
       then path_join env (WORKSPACE_DIR cfg) (default "" trackingId_)
       else WORKSPACE_DIR cfg in
     swallow (perform (ClientSend page "Page.setDownloadBehavior" workspaceDir))) ;;
  when (pauseOnConnect_ &&
        negb (bool_decide (Features_DEBUG_VIEWER cfg ∈ DISABLED_FEATURES cfg)))
    (perform (ClientSend page "Debugger.enable" "") ;;
     perform (ClientSend page "Debugger.pause" "")) ;;
  when blockAds_
    (perform (SetRequestInterception page) ;;
     emit (OnRequest page)) ;;
  match windowSize with
  | Some size => perform (SetViewport page size)
  | None => ret tt
  end ;;
  emit (OnceClose page).

(** The ['targetcreated'] listener installed by [setupBrowser].  [page] is
    what [target.page()] resolves to, [closed] what [page.isClosed()]
    answers. *)
Definition targetcreated (browser : BrowserRef) (windowSize : option IWindowSize)
    (page : option PageRef) (closed : bool) : M unit :=
  try_catch
    (perform (TargetPage page) ;;
     match page with
     | Some p =>
         when (negb closed)
           (let* b := readBrowser browser in
            detached (setupPage p (_pauseOnConnect b) (_blockAds b)
                        (_trackingId b) windowSize))
     | None => ret tt
     end)
    (fun error => debug "Error setting up new browser").

(** ** setupBrowser *)

Record SetupBrowserArgs := {
  sb_browser : BrowserRef;
  sb_browserWSEndpoint : string;
  sb_isUsingTempDataDir : bool;
  sb_browserlessDataDir : option string;
  sb_blockAds : bool;
  sb_pauseOnConnect : bool;
  sb_process : ProcessId;
  sb_trackingId : option string;
  sb_keepalive : option Z;
  sb_windowSize : option IWindowSize;
  sb_prebooted : bool;
  sb_browserServer : BrowserServer;
}.

Definition setupBrowser (a : SetupBrowserArgs) : M BrowserRef :=
  debug "Chrome PID" ;;
  let browser := sb_browser a in
  let* w := get in
  let parsed := url_parse env (sb_browserWSEndpoint a) in
  let fields (id : string) := {|
    _isOpen := true;
    _keepalive := sb_keepalive a;
    _browserProcess := sb_process a;
    _isUsingTempDataDir := sb_isUsingTempDataDir a;
    _browserlessDataDir := sb_browserlessDataDir a;
    _trackingId := sb_trackingId a;
    _keepaliveTimeout := None;
    _startTime := env_now env (history w);
    _prebooted := sb_prebooted a;
    _blockAds := sb_blockAds a;
    _pauseOnConnect := sb_pauseOnConnect a;
    _browserServer := sb_browserServer a;
    _parsed := parsed;
    _wsEndpoint := sb_browserWSEndpoint a;
    _id := id;
  |} in
  match pathname parsed with
  | None =>
      (* [null.split] raises after the other fields were assigned; [_id]
         stays undefined, rendered here as the empty string. *)
      modify (set_browsers (insert browser (fields ""))) ;;
      throw (TypeError "Cannot read property 'split' of null")
  | Some pathname_ =>
      modify (set_browsers
                (insert browser
                   (fields (default "" (Js.pop (Js.split "/" pathname_)))))) ;;
      let* h := seen in
      perform (BrowserHook browser) ;;
      modify (set_browsers (alter (env_browserHook env h) browser)) ;;
      let* hooked := readBrowser browser in
      modify (set_childExitListeners (fun m =>
        <[_browserProcess hooked :=
            default [] (m !! _browserProcess hooked) ++ [browser]]> m)) ;;
      modify (set_targetListeners (fun l => l ++ [(browser, sb_windowSize a)])) ;;
      let* h' := seen in
      perform (BrowserPages browser) ;;
      forEach (env_pages env h' browser)
        (fun page =>
           detached (setupPage page (sb_pauseOnConnect a) (sb_blockAds a)
                       (sb_trackingId a) (sb_windowSize a))) ;;
      modify (set_runningBrowsers (fun l => l ++ [browser])) ;;
      ret browser
  end.

(** ** launchChrome *)

Definition initialArgs (opts : ILaunchOptions) (port_ : N) : list string :=
  BROWSERLESS_ARGS ++ default [] (args opts) ++
  ["--remote-debugging-port=" +:+ pretty port_].

Definition hasUserDataDir (a : list string) : bool :=
  existsb (fun arg => Js.includes arg "--user-data-dir=") a.

Definition isHeadless (opts : ILaunchOptions) (a : list string) : bool :=
  existsb (fun arg => Js.startsWith arg "--headless") a ||
  match headless opts with
  | None => true
  | Some b => b
  end.

Definition isUsingTempDataDir (opts : ILaunchOptions) (a : list string) : bool :=
  negb (hasUserDataDir a || Js.truthy_opt (userDataDir opts)).

(** [generated] is what [getUserDataDir()] answers; it is only asked when
    neither the arguments nor the options name a directory. *)
Definition browserlessDataDir (opts : ILaunchOptions) (a : list string)
    (generated : string) : option string :=
  if hasUserDataDir a then None
  else if Js.truthy_opt (userDataDir opts) then userDataDir opts
  else Some generated.

Definition isPlaywrightKept (arg : string) : bool :=
  negb (Js.startsWith arg "--user-data-dir") &&
  negb (String.eqb arg "--remote-debugging-pipe").

(** The [launchArgs] object as it stands when the engine is started. *)
Definition buildLaunchArgs (opts : ILaunchOptions) (port_ : N)
    (generated : string) : LaunchArgs :=
  let a0 := initialArgs opts port_ in
  let a1 :=
    match browserlessDataDir opts a0 generated with
    | Some dir => a0 ++ ["--user-data-dir=" +:+ dir]
    | None => a0
    end in
  let a2 := if isHeadless opts a0 then a1 ++ ["--remote-debugging-pipe"] else a1 in
  {|
    la_opts := opts;
    la_args := if playwright opts then List.filter isPlaywrightKept a2 else a2;
    la_headless := if playwright opts then Some true else headless opts;
    la_executablePath := CHROME_BINARY_LOCATION cfg;
    la_handleSIGINT := false;
    la_devtools := false;
    la_handleSIGTERM := false;
    la_handleSIGHUP := false;
  |}.

(** [{ ...launchArgs, headless: true }] *)
Definition forceHeadless (la : LaunchArgs) : LaunchArgs := {|
  la_opts := la_opts la;
  la_args := la_args la;
  la_headless := Some true;
  la_executablePath := la_executablePath la;
  la_handleSIGINT := la_handleSIGINT la;
  la_devtools := la_devtools la;
  la_handleSIGTERM := la_handleSIGTERM la;
  la_handleSIGHUP := la_handleSIGHUP la;
|}.

(** What the engine is started with. *)
Definition engineLaunchArgs (opts : ILaunchOptions) (port_ : N)
    (generated : string) : LaunchArgs :=
  let la := buildLaunchArgs opts port_ generated in
  if playwright opts then forceHeadless la else la.

Definition launchChrome (opts : ILaunchOptions) (isPreboot : bool) : M BrowserRef :=
  let* h0 := seen in
  perform GetPort ;;
  let port_ := env_getPort env h0 in
  let a0 := initialArgs opts port_ in
  let* generated :=
    (if hasUserDataDir a0 || Js.truthy_opt (userDataDir opts) then ret ""
     else
       let* h := seen in
       perform GetUserDataDir ;;
       ret (env_getUserDataDir env h)) in
  debug "Launching Chrome with args" ;;
  let* h1 := seen in
  perform (Launch (if playwright opts then Playwright else Puppeteer)
             (engineLaunchArgs opts port_ generated)) ;;
  let* ref := fresh in
  let browserServer :=
    if playwright opts then PlaywrightServer ref else PuppeteerBrowser ref in
  let* h2 := seen in
  let versionUrl := "http://127.0.0.1:" +:+ pretty port_ +:+ "/json/version" in
  emit (FetchJson versionUrl) ;;
  match env_fetchVersion env h2 versionUrl with
  | None =>
      unawaited (ServerClose browserServer) ;;
      throw (ThrownBy (FetchJson versionUrl))
  | Some browserWSEndpoint =>
      let* browser :=
        (if isPuppeteer browserServer then ret ref
         else perform (Connect browserWSEndpoint) ;; fresh) in
      setupBrowser {|
        sb_browser := browser;
        sb_browserWSEndpoint := browserWSEndpoint;
        sb_isUsingTempDataDir := isUsingTempDataDir opts a0;
        sb_browserlessDataDir := browserlessDataDir opts a0 generated;
        sb_blockAds := blockAds opts;
        sb_pauseOnConnect := pauseOnConnect opts;
        sb_process := env_process env h1;
        sb_trackingId := Js.or_else (trackingId opts) None;
        sb_keepalive := zTruthy (keepalive opts);
        sb_windowSize := None;
        sb_prebooted := isPreboot;
        sb_browserServer := browserServer;
      |}
  end.

(** ** getDebuggingPages *)

Definition externalHost : string :=
  if Js.truthy_opt (PROXY_HOST cfg)
  then default "" (PROXY_HOST cfg) +:+
       (if Js.truthy_opt (PROXY_PORT cfg)
        then ":" +:+ default "" (PROXY_PORT cfg) else "")
  else default "127.0.0.1" (Js.or_else (HOST cfg) None) +:+ ":" +:+ PORT cfg.

Definition externalProtocol : string := if PROXY_SSL cfg then "wss" else "ws".

(** [url.parse(v)] raises a [TypeError] unless [v] is a string. *)
Definition parseField (o : IJSONList) (k : string) : Completion UrlObject :=
  match o !! k with
  | Some (JString s) => Normal (url_parse env s)
  | _ => Abrupt (TypeError "The 'url' argument must be of type string")
  end.

(** The callback of [sessions.map] for one target of one instance. *)
Definition rewriteSession (browser : IBrowser) (port_ : string)
    (session : IJSONList) : Completion ISession :=
  match parseField session "webSocketDebuggerUrl" with
  | Abrupt x => Abrupt x
  | Normal parsedWs =>
      let parsedWebSocketDebuggerUrl :=
        withProxyParams parsedWs externalHost externalProtocol in
      let parsedWsEndpoint :=
        withProxyParams (url_parse env (_wsEndpoint browser))
          externalHost externalProtocol in
      let browserWSEndpoint := url_format env parsedWsEndpoint in
      let webSocketDebuggerUrl := url_format env parsedWebSocketDebuggerUrl in
      match parseField session "devtoolsFrontendUrl" with
      | Abrupt x => Abrupt x
      | Normal parsedFrontend =>
          let devtoolsFrontendUrl := url_format env {|
            protocol := None; slashes := None; auth := None; host := None;
            port := None; hostname := None; hash := None;
            search := Some ("?" +:+ externalProtocol +:+ "=" +:+ externalHost +:+
                            default "null" (path parsedWebSocketDebuggerUrl));
            query := None;
            pathname := pathname parsedFrontend;
            path := None; href := None;
          |} in
          Normal
            (<["browserId" := JString (_id browser)]>
             (<["browserWSEndpoint" := JString browserWSEndpoint]>
              (<["devtoolsFrontendUrl" := JString devtoolsFrontendUrl]>
               (<["port" := JString port_]>
                (<["trackingId" := jsOfOption (_trackingId browser)]>
                 (<["webSocketDebuggerUrl" := JString webSocketDebuggerUrl]>
                  session))))))
      end
  end.

(** The outcomes of a callback applied along an array, as [array.map]
    gathers them: every value in order, or the first throw, which ends the
    loop. *)
Fixpoint collect {A} (l : list (Completion A)) : Completion (list A) :=
  match l with
  | [] => Normal []
  | Abrupt x :: _ => Abrupt x
  | Normal a :: l' =>
      match collect l' with
      | Normal r => Normal (a :: r)
      | Abrupt x => Abrupt x
      end
  end.

(** The rejections among settled promises, in array order. *)
Definition rejections {A} (l : list (Completion A)) : list Exn :=
  omap (fun c => match c with Abrupt x => Some x | Normal _ => None end) l.

(** [Promise.all]: every value in array order when all promises are
    fulfilled, otherwise the rejection that comes first in time.  Each
    promise is tagged with whether it settles at once, before any outside
    answer can arrive; the reactions of those run in array order, so the
    first of them that is a rejection decides.  The others settle as the
    answers they await arrive: [first] is the position, among their
    rejections in array order, of the one that arrives first (a position
    past the end stands for the first). *)
Definition promiseAll {A} (first : nat) (l : list (bool * Completion A))
    : Completion (list A) :=
  match rejections (map snd (List.filter fst l)) with
  | x :: _ => Abrupt x
  | [] =>
      match rejections (map snd l) with
      | [] => collect (map snd l)
      | x :: later => Abrupt (nth first (x :: later) x)
      end
  end.

Definition targetsUrl (port_ : string) : string :=
  "http://127.0.0.1:" +:+ port_ +:+ "/json/list".

(** The [async] callback of [runningBrowsers.map] for one instance; [h] is
    the history when the targets are fetched. *)
Definition browserSessions (h : list Effect) (browser : IBrowser)
    : Completion (list ISession) :=
  if negb (Js.truthy_opt (port (_parsed browser)))
  then Abrupt (Error ("Error finding port in browser endpoint: " +:+
                      default "null" (port (_parsed browser))))
  else
    let port_ := default "" (port (_parsed browser)) in
    match env_fetchList env h (targetsUrl port_) with
    | None => Abrupt (ThrownBy (FetchJson (targetsUrl port_)))
    | Some sessions => collect (map (rewriteSession browser port_) sessions)
    end.

(** An instance without a port makes its callback throw before the first
    [await]: its promise is rejected at once. *)
Definition settlesAtOnce (browser : IBrowser) : bool :=
  negb (Js.truthy_opt (port (_parsed browser))).

Definition registered (w : World) : list IBrowser :=
  omap (fun r => browsers w !! r) (runningBrowsers w).

Definition getDebuggingPages : M (list ISession) :=
  let* w := get in
  forEach (registered w)
    (fun browser =>
       when (Js.truthy_opt (port (_parsed browser)))
         (emit (FetchJson (targetsUrl (default "" (port (_parsed browser))))))) ;;
  match promiseAll (env_settlesFirst env (history w))
          (map (fun browser =>
                  (settlesAtOnce browser, browserSessions (history w) browser))
             (registered w)) with
  | Normal results => ret (concat results)
  | Abrupt x => throw x
  end.

(** [haystack.includes(needle)] on a string field of a session. *)
Definition fieldIncludes (k pathname_ : string) (session : ISession) : bool :=
  match session !! k with
  | Some (JString s) => Js.includes s pathname_
  | _ => false
  end.

Definition findSessionForPageUrl (pathname_ : string) : M (option ISession) :=
  let* pages := getDebuggingPages in
  ret (List.find (fieldIncludes "devtoolsFrontendUrl" pathname_) pages).

Definition findSessionForBrowserUrl (pathname_ : string) : M (option ISession) :=
  let* pages := getDebuggingPages in
  ret (List.find (fieldIncludes "browserWSEndpoint" pathname_) pages).

End Lifecycle.

(** ** Node's [url] module on plain URLs

    [url.parse] and [url.format] belong to Node, not to this repository.
    The general results below take them as part of [Env]; the concrete
    runs use this model of their behaviour on the URLs met here: ASCII,
    in lower case, with nothing to escape, either
    [scheme://auth@host:port/path?query#hash] for one of the slashed
    protocols ([auth], [port], path, query and hash optional) or a path
    with an optional query and hash. *)

Module NodeUrl.

(** Cut [s] before the first occurrence of [c]. *)
Fixpoint cut (c : ascii) (s : string) : string * option string :=
  match s with
  | EmptyString => (EmptyString, None)
  | String a s' =>
      if Ascii.eqb a c then (EmptyString, Some s)
      else let (before, rest) := cut c s' in (String a before, rest)
  end.

Definition isSchemeChar (a : ascii) : bool :=
  let n := nat_of_ascii a in
  ((97 <=? n) && (n <=? 122) || (48 <=? n) && (n <=? 57) ||
   (n =? 43) || (n =? 45) || (n =? 46))%nat.

(** A leading [scheme:], if any, and what follows it. *)
Definition scheme (s : string) : option string * string :=
  match cut ":" s with
  | (String a name, Some (String _ rest)) =>
      if forallb isSchemeChar (list_ascii_of_string (String a name))
      then (Some (String a name +:+ ":"), rest)
      else (None, s)
  | _ => (None, s)
  end.

Definition nonEmpty (s : string) : option string :=
  if String.eqb s "" then None else Some s.

(** Cut at the last occurrence of [c]: what precedes it and what follows. *)
Definition cutLast (c : ascii) (s : string) : option (string * string) :=
  match reverse (Js.split c s) with
  | [] | [_] => None
  | after :: before => Some (Js.join (String c "") (reverse before), after)
  end.

Definition endsWithColon (s : string) : bool :=
  match reverse (list_ascii_of_string s) with
  | a :: _ => Ascii.eqb a ":"
  | [] => false
  end.

Definition lead (c : ascii) (s : string) : string :=
  match s with
  | EmptyString => EmptyString
  | String a _ => if Ascii.eqb a c then s else String c s
  end.

Definition isSlashedProtocol (p : string) : bool :=
  bool_decide (p ∈ ["http:"; "https:"; "ftp:"; "gopher:"; "file:"; "ws:"; "wss:"]).

Definition format (u : UrlObject) : string :=
  let protocol_ :=
    match protocol u with
    | Some p => if endsWithColon p || String.eqb p "" then p else p +:+ ":"
    | None => ""
    end in
  let auth_ := match auth u with Some a => a +:+ "@" | None => "" end in
  let host_ :=
    match host u, hostname u with
    | Some h, _ => Some (auth_ +:+ h)
    | None, Some name =>
        Some (auth_ +:+ name +:+
              match port u with Some p => ":" +:+ p | None => "" end)
    | None, None => None
    end in
  let pathname_ := default "" (pathname u) in
  let slashed :=
    bool_decide (slashes u = Some true) ||
    ((String.eqb protocol_ "" || isSlashedProtocol protocol_) &&
     negb (isUndefined host_)) in
  (protocol_ +:+
   (if slashed then "//" +:+ default "" host_ +:+ lead "/" pathname_
    else default "" host_ +:+ pathname_) +:+
   lead "?" (default "" (search u)) +:+
   lead "#" (default "" (hash u))).

(** [url.parse]: after the parts are cut, a URL of a slashed protocol
    that has a host and no path gets the path [/], and [href] is the
    parsed URL formatted again. *)
Definition parse (s : string) : UrlObject :=
  let (s1, hash_) := cut "#" s in
  let (s2, search_) := cut "?" s1 in
  let (protocol_, s3) := scheme s2 in
  let slashed := String.prefix "//" s3 in
  let (authority, pathname_) :=
    if slashed
    then match cut "/" (String.substring 2 (String.length s3) s3) with
         | (a, Some p) => (Some a, p)
         | (a, None) => (Some a, "")
         end
    else (None, s3) in
  let (auth_, host_) :=
    match authority with
    | None => (None, None)
    | Some a =>
        match cutLast "@" a with
        | Some (user, h) => (Some user, Some h)
        | None => (None, Some a)
        end
    end in
  let (hostname_, port_) :=
    match host_ with
    | None => (None, None)
    | Some h =>
        match cutLast ":" h with
        | Some (name, p) => (Some name, nonEmpty p)
        | None => (Some h, None)
        end
    end in
  let pathname_ :=
    if isSlashedProtocol (default "" protocol_) &&
       Js.truthy_opt hostname_ && String.eqb pathname_ ""
    then "/" else pathname_ in
  let parts := {|
    protocol := protocol_;
    slashes := if slashed then Some true else None;
    auth := auth_;
    host := host_;
    port := port_;
    hostname := hostname_;
    hash := hash_;
    search := search_;
    query := (fun q => String.substring 1 (String.length q) q) <$> search_;
    pathname := nonEmpty pathname_;
    path := nonEmpty (pathname_ +:+ default "" search_);
    href := None;
  |} in
  {|
    protocol := protocol parts;
    slashes := slashes parts;
    auth := auth parts;
    host := host parts;
    port := port parts;
    hostname := hostname parts;
    hash := hash parts;
    search := search parts;
    query := query parts;
    pathname := pathname parts;
    path := path parts;
    href := Some (format parts);
  |}.

End NodeUrl.

(** ** A concrete configuration and outside world for running the code *)

Module Sample.

Definition cfg : Config := {|
  DEFAULT_BLOCK_ADS := false;
  DEFAULT_DUMPIO := false;
  DEFAULT_HEADLESS := true;
  DEFAULT_IGNORE_DEFAULT_ARGS := IgnoreBool false;
  DEFAULT_IGNORE_HTTPS_ERRORS := false;
  DEFAULT_LAUNCH_ARGS := ["--disable-gpu"];
  DEFAULT_USER_DATA_DIR := None;
  DISABLE_AUTO_SET_DOWNLOAD_BEHAVIOR := false;
  DISABLED_FEATURES := [];
  Features_DEBUG_VIEWER := "debugViewer";
  USE_CHROME_STABLE := false;
  PUPPETEER_CHROMIUM_REVISION := 706915;
  HOST := None;
  PORT := "3000";
  PROXY_HOST := Some "chrome.example.com";
  PROXY_PORT := None;
  PROXY_SSL := true;
  WORKSPACE_DIR := "/workspace";
  PLAYWRIGHT_ROUTE := "/playwright";
  CHROME_BINARY_LOCATION := Some "/usr/bin/chromium";
|}.

(** No number is ever parsed in the runs below. *)
Definition parseInt (s : string) : option Z := None.

Definition target (id extra : string) : IJSONList :=
  <["id" := JString id]>
  (<["title" := JString "about:blank"]>
   (<["type" := JString "page"]>
    (<["url" := JString "about:blank"]>
     (<["webSocketDebuggerUrl" :=
          JString ("ws://127.0.0.1:9222/devtools/page/" +:+ id)]>
      (<["devtoolsFrontendUrl" :=
           JString ("/devtools/inspector.html?ws=127.0.0.1:9222/devtools/page/"
                    +:+ id +:+ extra)]> ∅))))).

(** An outside world in which the calls selected by [failing] raise, the
    free port is 9222, the generated profile directory is
    [/tmp/browserless-data-dir-1], the browser on port 9222 has one open
    target and the one on port 9333 does not answer. *)
Definition env (failing : Effect -> bool) : Env := {|
  env_throws := fun _ e => failing e;
  env_settlesFirst := fun _ => 0;
  env_getPort := fun _ => 9222%N;
  env_getUserDataDir := fun _ => "/tmp/browserless-data-dir-1";
  env_process := fun _ => 4242;
  env_fetchVersion := fun _ _ => Some "ws://127.0.0.1:9222/devtools/browser/b1";
  env_fetchList := fun _ url =>
    if String.eqb url "http://127.0.0.1:9222/json/list"
    then Some [target "A" ""] else None;
  env_pages := fun _ _ => [7];
  env_browserHook := fun _ b => b;
  env_now := fun _ => 0%Z;
  url_parse := NodeUrl.parse;
  url_format := NodeUrl.format;
  path_join := fun a b => a +:+ "/" +:+ b;
|}.

Definition nothingFails (e : Effect) : bool := false.



Definition world0 : World := {|
  browsers := ∅;
  runningBrowsers := [];
  childExitListeners := ∅;
  hostExitListeners := ["puppeteer:killChrome"];
  targetListeners := [];
  unhandledRejections := [];
  nextRef := 0;
  history := [];
|}.

Definition opts0 : ILaunchOptions := {|
  args := None;
  blockAds := false;
  dumpio := false;
  headless := None;
  ignoreDefaultArgs := IgnoreBool false;
  ignoreHTTPSErrors := false;
  keepalive := None;
  pauseOnConnect := false;
  playwright := false;
  slowMo := None;
  trackingId := None;
  userDataDir := None;
|}.

(** [{ userDataDir: '/data/profile' }] *)
Definition optsUserDir : ILaunchOptions := {|
  args := None;
  blockAds := false;
  dumpio := false;
  headless := None;
  ignoreDefaultArgs := IgnoreBool false;
  ignoreHTTPSErrors := false;
  keepalive := None;
  pauseOnConnect := false;
  playwright := false;
  slowMo := None;
  trackingId := None;
  userDataDir := Some "/data/profile";
|}.

(** Arguments that share nothing with the defaults but their number. *)
Definition differentArgs : ILaunchOptions := {|
  args := Some ["--proxy-server=10.0.0.1:8080"];
  blockAds := false;
  dumpio := false;
  headless := None;
  ignoreDefaultArgs := IgnoreBool false;
  ignoreHTTPSErrors := false;
  keepalive := None;
  pauseOnConnect := false;
  playwright := false;
  slowMo := None;
  trackingId := None;
  userDataDir := None;
|}.

(** [?blockAds=false&headless=false&dumpio=] *)
Definition reqFlags : IHTTPRequest := {|
  req_pathname := Some "/";
  req_query := [("blockAds", QStr "false"); ("headless", QStr "false");
                ("dumpio", QStr "")];
|}.

(** A playwright request that asks for a window, a profile directory and
    the debugging pipe. *)
Definition optsPlaywright : ILaunchOptions := {|
  args := Some ["--user-data-dir=/data/profile"; "--remote-debugging-pipe";
                "--window-size=800,600"];
  blockAds := false;
  dumpio := false;
  headless := Some false;
  ignoreDefaultArgs := IgnoreBool false;
  ignoreHTTPSErrors := false;
  keepalive := None;
  pauseOnConnect := false;
  playwright := true;
  slowMo := None;
  trackingId := None;
  userDataDir := Some "/data/other";
|}.

(** The instance that [launchChrome] sets up in [world0]. *)
Definition instance (temp : bool) (dir : string) : IBrowser := {|
  _isOpen := true;
  _keepalive := None;
  _browserProcess := 4242;
  _isUsingTempDataDir := temp;
  _browserlessDataDir := Some dir;
  _trackingId := None;
  _keepaliveTimeout := None;
  _startTime := 0;
  _prebooted := false;
  _blockAds := false;
  _pauseOnConnect := false;
  _browserServer := PuppeteerBrowser 0;
  _parsed := NodeUrl.parse "ws://127.0.0.1:9222/devtools/browser/b1";
  _wsEndpoint := "ws://127.0.0.1:9222/devtools/browser/b1";
  _id := "b1";
|}.

(** The world after [launchChrome({}, false)]. *)
Definition launched : World :=
  (launchChrome cfg (env nothingFails) opts0 false world0).2.

(** The world after [launchChrome({ userDataDir: '/data/profile' }, false)]. *)
Definition launchedUserDir : World :=
  (launchChrome cfg (env nothingFails) optsUserDir false world0).2.

(** What [launchChrome({}, false)] passes to [setupBrowser]. *)
Definition setupArgs : SetupBrowserArgs := {|
  sb_browser := 0;
  sb_browserWSEndpoint := "ws://127.0.0.1:9222/devtools/browser/b1";
  sb_isUsingTempDataDir := true;
  sb_browserlessDataDir := Some "/tmp/browserless-data-dir-1";
  sb_blockAds := false;
  sb_pauseOnConnect := false;
  sb_process := 4242;
  sb_trackingId := None;
  sb_keepalive := None;
  sb_windowSize := None;
  sb_prebooted := false;
  sb_browserServer := PuppeteerBrowser 0;
|}.

(** An open instance whose debugging interface listens on [port_]. *)
Definition browserAt (port_ id : string) : IBrowser := {|
  _isOpen := true;
  _keepalive := None;
  _browserProcess := 4242;
  _isUsingTempDataDir := true;
  _browserlessDataDir := Some "/tmp/browserless-data-dir-1";
  _trackingId := None;
  _keepaliveTimeout := None;
  _startTime := 0;
  _prebooted := false;
  _blockAds := false;
  _pauseOnConnect := false;
  _browserServer := PuppeteerBrowser 0;
  _parsed := NodeUrl.parse ("ws://127.0.0.1:" +:+ port_ +:+ "/devtools/browser/" +:+ id);
  _wsEndpoint := "ws://127.0.0.1:" +:+ port_ +:+ "/devtools/browser/" +:+ id;
  _id := id;
|}.

(** Two registered instances; only the first one's target list can be
    fetched. *)
Definition world2 : World := {|
  browsers := <[0 := browserAt "9222" "b1"]> (<[1 := browserAt "9333" "b2"]> ∅);
  runningBrowsers := [0; 1];
  childExitListeners := ∅;
  hostExitListeners := [];
  targetListeners := [];
  unhandledRejections := [];
  nextRef := 2;
  history := [];
|}.

(** The session expected for the target ["A"] of the instance on port
    9222, behind the proxy [wss://chrome.example.com]. *)
Definition rewritten : ISession :=
  <["browserId" := JString "b1"]>
  (<["browserWSEndpoint" := JString "wss://chrome.example.com/devtools/browser/b1"]>
   (<["devtoolsFrontendUrl" :=
        JString "/devtools/inspector.html?wss=chrome.example.com/devtools/page/A"]>
    (<["port" := JString "9222"]>
     (<["trackingId" := JNull]>
      (<["webSocketDebuggerUrl" := JString "wss://chrome.example.com/devtools/page/A"]>
       (target "A" "")))))).

End Sample.

(** ** What a launch may hand to the engine *)

(** The arguments that the playwright engine is not to get: one that
    begins with [--user-data-dir], and the bare [--remote-debugging-pipe]. *)
Definition unfitForPlaywright (arg : string) : bool :=
  Js.startsWith arg "--user-data-dir" || String.eqb arg "--remote-debugging-pipe".

(** No user-data-directory argument, no debugging-pipe argument. *)
Definition strippedArgs (l : list string) : Prop :=
  forall arg, In arg l ->
    Js.startsWith arg "--user-data-dir" = false /\ arg <> "--remote-debugging-pipe".

Definition playwrightLaunch (e : Effect) : Prop :=
  match e with
  | Launch engine la =>
      engine = Playwright /\ strippedArgs (la_args la) /\ la_headless la = Some true
  | _ => True
  end.

(** From [w] to [w'] only calls satisfying [P] were added to the history. *)
Definition grows (P : Effect -> Prop) (w w' : World) : Prop :=
  exists l, history w' = history w ++ l /\ Forall P l.

(** From [w] to [w'] the heap, the registry, the listeners and the
    reference counter are as they were. *)
Definition untouched (w w' : World) : Prop :=
  browsers w' = browsers w /\
  runningBrowsers w' = runningBrowsers w /\
  childExitListeners w' = childExitListeners w /\
  hostExitListeners w' = hostExitListeners w /\
  targetListeners w' = targetListeners w /\
  nextRef w' = nextRef w.

(** Every run of [m] relates its initial world to its final one by [R]. *)
Definition preserves {A} (R : World -> World -> Prop) (m : M A) : Prop :=
  forall w, R w (m w).2.

(** Relations that compose along a sequence of steps. *)
Class Stepwise (R : World -> World -> Prop) := {
  step_refl : forall w, R w w;
  step_trans : forall w1 w2 w3, R w1 w2 -> R w2 w3 -> R w1 w3;
}.

(** The field [k] of the outcome of a rewrite, if there is one. *)
Definition rewrittenField (k : string) (c : Completion ISession) : option JSValue :=
  match c with
  | Normal out => out !! k
  | Abrupt _ => None
  end.

(** ** The keys a rewritten session sets *)

Definition rewrittenKeys : list string :=
  ["browserId"; "browserWSEndpoint"; "devtoolsFrontendUrl"; "port";
   "trackingId"; "webSocketDebuggerUrl"].

(** [u'] is [u] but for host, protocol and the slashes flag. *)
Definition sameButHostProtocol (u u' : UrlObject) : Prop :=
  auth u' = auth u /\ port u' = port u /\ hostname u' = hostname u /\
  hash u' = hash u /\ search u' = search u /\ query u' = query u /\
  pathname u' = pathname u /\ path u' = path u /\ href u' = href u.

(** [f] has a path and a query string and nothing else. *)
Definition pathAndSearchOnly (f : UrlObject) : Prop :=
  protocol f = None /\ slashes f = None /\ auth f = None /\ host f = None /\
  port f = None /\ hostname f = None /\ hash f = None /\ query f = None /\
  path f = None /\ href f = None.

(** ** What one teardown does outside *)

Definition timerEffects (b : IBrowser) : list Effect :=
  match _keepaliveTimeout b with
  | Some t => [ClearTimeout t]
  | None => []
  end.

Definition dirEffects (b : IBrowser) : list Effect :=
  if Js.truthy_opt (_browserlessDataDir b)
  then [Debug ("Removing temp data-dir " +:+ default "" (_browserlessDataDir b));
        Rimraf (default "" (_browserlessDataDir b))]
  else [].

(** The calls of a teardown up to and including the directory removal. *)
Definition teardownStart (b : IBrowser) : list Effect :=
  [Debug "Shutting down browser with close command"] ++
  timerEffects b ++ dirEffects b.

Definition isCleanup (e : Effect) : bool :=
  match e with
  | ClearTimeout _ | Rimraf _ | BrowserClose _ | BrowserDisconnect _
  | RemoveAllListeners _ => true
  | _ => false
  end.

(** The cleanup calls of a teardown in which nothing raises. *)
Definition cleanupPlan (browser : BrowserRef) (b : IBrowser) : list Effect :=
  List.filter isCleanup (timerEffects b ++ dirEffects b) ++
  [BrowserClose browser; RemoveAllListeners "exit"].

(** The registry once the instances at the endpoint of [b] are dropped. *)
Definition withoutEndpoint (w : World) (b : IBrowser) : list BrowserRef :=
  List.filter (fun r => negb (sameEndpoint w (_wsEndpoint b) r)) (runningBrowsers w).

(** Nothing raises. *)
Definition quiet (env : Env) : Prop := forall h e, env_throws env h e = false.

(** No cleanup call throws where it is made (the promises of those that
    return one may still be rejected). *)
Definition cleanupNeverThrows (env : Env) : Prop :=
  forall h e, isCleanup e = true -> env_throws env h e = false.

(** How far a teardown got. *)
Inductive TeardownOutcome (env : Env) (browser : BrowserRef) (b : IBrowser)
    (w w1 : World) : Prop :=
| RemovalRaised :
    Js.truthy_opt (_browserlessDataDir b) = true ->
    history w1 = history w ++ teardownStart b ++
                 [Debug "Browser close emitted an error"] ->
    runningBrowsers w1 = runningBrowsers w ->
    hostExitListeners w1 = hostExitListeners w ->
    TeardownOutcome env browser b w w1
| CloseRaised :
    history w1 = history w ++ teardownStart b ++
                 [BrowserClose browser; Debug "Browser close emitted an error"] ->
    runningBrowsers w1 =
      withoutEndpoint (set_browsers (insert browser (set_isOpen false b)) w) b ->
    hostExitListeners w1 = hostExitListeners w ->
    TeardownOutcome env browser b w w1
| Completed :
    history w1 = history w ++ teardownStart b ++
                 [BrowserClose browser; RemoveAllListeners "exit"] ->
    runningBrowsers w1 =
      withoutEndpoint (set_browsers (insert browser (set_isOpen false b)) w) b ->
    hostExitListeners w1 = [] ->
    TeardownOutcome env browser b w w1.

(** ** networkBlock *)

(** What the request filter tells the engine to do with a request. *)
Inductive RequestDecision :=
| RequestAbort
| RequestContinue.

(** [fragments.length > 2 ? fragments[2] : null] *)
Definition requestDomain (url : string) : option string :=
  let fragments := Js.split "/" url in
  if (2 <? length fragments)%nat then fragments !! 2%nat else None.

(** [blacklist] is the array read from [hosts.json]; it holds strings, so
    it never includes [null]. *)
Definition networkBlock (blacklist : list string) (url : string) : RequestDecision :=
  match requestDomain url with
  | Some domain =>
      if bool_decide (domain ∈ blacklist) then RequestAbort else RequestContinue
  | None => RequestContinue
  end.

(** ** Reading the state *)

Definition isOpenAt (w : World) (r : BrowserRef) : bool :=
  match browsers w !! r with
  | Some b => _isOpen b
  | None => false
  end.

(** Calls that page setup makes for ad blocking. *)
Definition isInterception (e : Effect) : bool :=
  match e with
  | SetRequestInterception _ | OnRequest _ => true
  | _ => false
  end.

(** Debugger commands sent to a page. *)
Definition isDebuggerCommand (e : Effect) : bool :=
  match e with
  | ClientSend _ method _ =>
      String.eqb method "Debugger.enable" || String.eqb method "Debugger.pause"
  | _ => false
  end.


(** The outside calls that instance and page setup can make. *)
Definition isSetupEffect (e : Effect) : bool :=
  match e with
  | Debug _ | BrowserHook _ | BrowserPages _ | PageHook _ | ClientSend _ _ _
  | SetRequestInterception _ | OnRequest _ | SetViewport _ _ | OnceClose _ => true
  | _ => false
  end.

(** The object [setupBrowser] stores for its arguments, before the hook
    sees it; [h] is the history at that point and [id] the identifier. *)
Definition storedInstance (env : Env) (a : SetupBrowserArgs) (h : list Effect)
    (id : string) : IBrowser := {|
  _isOpen := true;
  _keepalive := sb_keepalive a;
  _browserProcess := sb_process a;
  _isUsingTempDataDir := sb_isUsingTempDataDir a;
  _browserlessDataDir := sb_browserlessDataDir a;
  _trackingId := sb_trackingId a;
  _keepaliveTimeout := None;
  _startTime := env_now env h;
  _prebooted := sb_prebooted a;
  _blockAds := sb_blockAds a;
  _pauseOnConnect := sb_pauseOnConnect a;
  _browserServer := sb_browserServer a;
  _parsed := url_parse env (sb_browserWSEndpoint a);
  _wsEndpoint := sb_browserWSEndpoint a;
  _id := id;
|}.

(** ** Further outside worlds for running the code *)

Module Scenario.

(** The call that removes a directory throws. *)
Definition rimrafFails (e : Effect) : bool :=
  match e with
  | Rimraf _ => true
  | _ => false
  end.

(** The call that removes a directory returns its promise, which is
    rejected later. *)
Definition rimrafRejected (e : Effect) : bool :=
  match e with
  | Rejection (Rimraf _) => true
  | _ => false
  end.



(** [?--window-size=800,600&--hide-scrollbars=&blockAds=] *)
Definition reqArgs : IHTTPRequest := {|
  req_pathname := Some "/";
  req_query := [("--window-size", QStr "800,600"); ("--hide-scrollbars", QStr "");
                ("blockAds", QStr "")];
|}.

(** [?blockAds=&trackingId=abc&userDataDir=/data/profile] *)
Definition reqNoArgs : IHTTPRequest := {|
  req_pathname := Some "/";
  req_query := [("blockAds", QStr ""); ("trackingId", QStr "abc");
                ("userDataDir", QStr "/data/profile")];
|}.

(** A playwright request whose explicit argument gives the debugging pipe
    a value. *)
Definition optsPipeValue : ILaunchOptions := {|
  args := Some ["--remote-debugging-pipe=CBOR"];
  blockAds := false;
  dumpio := false;
  headless := None;
  ignoreDefaultArgs := IgnoreBool false;
  ignoreHTTPSErrors := false;
  keepalive := None;
  pauseOnConnect := false;
  playwright := true;
  slowMo := None;
  trackingId := None;
  userDataDir := None;
|}.

(** An explicit argument that only mentions the data-directory switch. *)
Definition optsMention : ILaunchOptions := {|
  args := Some ["--proxy-bypass-list=--user-data-dir=/x"];
  blockAds := false;
  dumpio := false;
  headless := Some false;
  ignoreDefaultArgs := IgnoreBool false;
  ignoreHTTPSErrors := false;
  keepalive := None;
  pauseOnConnect := false;
  playwright := false;
  slowMo := None;
  trackingId := None;
  userDataDir := Some "/data/profile";
|}.

(** Two open instances that share one endpoint and a third one elsewhere. *)
Definition world3 : World := {|
  browsers :=
    <[0 := Sample.browserAt "9222" "b1"]>
    (<[1 := Sample.browserAt "9222" "b1"]>
     (<[2 := Sample.browserAt "9333" "b2"]> ∅));
  runningBrowsers := [0; 1; 2];
  childExitListeners := <[4242 := [0]]> ∅;
  hostExitListeners := [];
  targetListeners := [];
  unhandledRejections := [];
  nextRef := 3;
  history := [];
|}.

End Scenario.

(** * Properties *)

(** ** Splitting and joining *)

Lemma split_not_nil (c : ascii) (s : string) : Js.split c s <> [].
Proof.
  destruct s as [|a s]; simpl; [discriminate|].
  destruct (Ascii.eqb a c); [discriminate|].
  destruct (Js.split c s); discriminate.
Qed.

Lemma join_split (c : ascii) (s : string) :
  Js.join (String c "") (Js.split c s) = s.
Proof.
  induction s as [|a s IH]; simpl; [reflexivity|].
  destruct (Ascii.eqb_spec a c) as [->|Hne].
  - pose proof (split_not_nil c s) as Hnil.
    destruct (Js.split c s) as [|tok toks]; [congruence|].
    simpl. simpl in IH. now rewrite IH.
  - destruct (Js.split c s) as [|tok toks] eqn:E.
    + now destruct (split_not_nil c s).
    + rewrite <- IH. destruct toks as [|tok' toks]; reflexivity.
Qed.

Lemma split_tokens_free (c : ascii) (s tok : string) :
  In tok (Js.split c s) -> ~ In c (list_ascii_of_string tok).
Proof.
  revert tok. induction s as [|a s IH]; simpl; intros tok Hin.
  - destruct Hin as [<-|[]]. simpl. tauto.
  - destruct (Ascii.eqb_spec a c) as [->|Hne].
    + destruct Hin as [<-|Hin]; [simpl; tauto|]. now apply IH.
    + destruct (Js.split c s) as [|t ts] eqn:E.
      * destruct Hin as [<-|[]]. simpl. intros [?|[]]. congruence.
      * destruct Hin as [<-|Hin].
        -- simpl. intros [?|Hc]; [congruence|].
           apply (IH t); [now left|exact Hc].
        -- apply IH. now right.
Qed.

(** ** parseIgnoreDefaultArgs *)

(** C8: [parseIgnoreDefaultArgs] maps an undefined [ignoreDefaultArgs] and
    the string "false" to [false], the empty string and "true" to [true],
    any other string to its comma-split tokens (joining them with commas
    gives the string back and no token holds a comma), and an array to
    itself. *)
Theorem parseIgnoreDefaultArgs_encodings (query : ParsedUrlQuery) :
  let v := qlookup query "ignoreDefaultArgs" in
  (v = None -> parseIgnoreDefaultArgs query = IgnoreBool false) /\
  (v = Some (QStr "false") -> parseIgnoreDefaultArgs query = IgnoreBool false) /\
  (v = Some (QStr "") -> parseIgnoreDefaultArgs query = IgnoreBool true) /\
  (v = Some (QStr "true") -> parseIgnoreDefaultArgs query = IgnoreBool true) /\
  (forall s, v = Some (QStr s) -> s <> "false" -> s <> "" -> s <> "true" ->
     exists toks,
       parseIgnoreDefaultArgs query = IgnoreList toks /\
       toks = Js.split "," s /\
       Js.join "," toks = s /\
       forall tok, In tok toks -> ~ In ","%char (list_ascii_of_string tok)) /\
  (forall l, v = Some (QArr l) -> parseIgnoreDefaultArgs query = IgnoreList l).
Proof.
  unfold parseIgnoreDefaultArgs. cbv zeta.
  split; [intros ->; reflexivity|].
  split; [intros ->; reflexivity|].
  split; [intros ->; reflexivity|].
  split; [intros ->; reflexivity|].
  split.
  - intros s -> Hf He Ht.
    destruct (String.eqb_spec s "false"); [contradiction|].
    destruct (String.eqb_spec s ""); [contradiction|].
    destruct (String.eqb_spec s "true"); [contradiction|].
    exists (Js.split "," s). simpl.
    split; [reflexivity|]. split; [reflexivity|].
    split; [apply join_split|apply split_tokens_free].
  - intros l ->. reflexivity.
Qed.

Lemma parseIgnoreDefaultArgs_encodings_witness :
  parseIgnoreDefaultArgs [("ignoreDefaultArgs", QStr "a,b")] = IgnoreList ["a"; "b"] /\
  parseIgnoreDefaultArgs [("ignoreDefaultArgs", QArr ["a"; "b"])] = IgnoreList ["a"; "b"] /\
  parseIgnoreDefaultArgs [("ignoreDefaultArgs", QStr "")] = IgnoreBool true /\
  parseIgnoreDefaultArgs [("ignoreDefaultArgs", QStr "false")] = IgnoreBool false /\
  parseIgnoreDefaultArgs [] = IgnoreBool false.
Proof.
  split; [|split; [|split; [|split]]].
  - destruct (parseIgnoreDefaultArgs_encodings [("ignoreDefaultArgs", QStr "a,b")])
      as (_ & _ & _ & _ & H & _).
    destruct (H "a,b" eq_refl) as (toks & -> & -> & _); [discriminate..|].
    reflexivity.
  - destruct (parseIgnoreDefaultArgs_encodings [("ignoreDefaultArgs", QArr ["a"; "b"])])
      as (_ & _ & _ & _ & _ & H).
    apply H. reflexivity.
  - destruct (parseIgnoreDefaultArgs_encodings [("ignoreDefaultArgs", QStr "")])
      as (_ & _ & H & _).
    apply H. reflexivity.
  - destruct (parseIgnoreDefaultArgs_encodings [("ignoreDefaultArgs", QStr "false")])
      as (_ & H & _).
    apply H. reflexivity.
  - destruct (parseIgnoreDefaultArgs_encodings []) as (H & _).
    apply H. reflexivity.
Defined.

(** ** canUsePrebootedChrome *)

(** The check reads the arguments only through their number. *)
Lemma canUsePrebootedChrome_by_length (cfg : Config) (o1 o2 : ILaunchOptions) :
  headless o1 = headless o2 ->
  (length <$> args o1) = (length <$> args o2) ->
  canUsePrebootedChrome cfg o1 = canUsePrebootedChrome cfg o2.
Proof.
  unfold canUsePrebootedChrome. intros -> Hlen.
  destruct (args o1), (args o2); simpl in Hlen; try discriminate; [|reflexivity].
  injection Hlen as ->. reflexivity.
Qed.

(** C10: when the headless field is unset or equal to the default and the
    argument array is as long as the default one, [canUsePrebootedChrome]
    answers [true], whatever the arguments are. *)
Theorem canUsePrebootedChrome_length_only (cfg : Config)
    (launchArgs : ILaunchOptions) (a : list string) :
  headless launchArgs = None \/ headless launchArgs = Some (DEFAULT_HEADLESS cfg) ->
  args launchArgs = Some a ->
  length a = length (DEFAULT_LAUNCH_ARGS cfg) ->
  canUsePrebootedChrome cfg launchArgs = true.
Proof.
  intros Hh Ha Hlen. unfold canUsePrebootedChrome.
  rewrite Ha, Hlen, Nat.eqb_refl. simpl.
  destruct Hh as [->| ->]; simpl; [reflexivity|].
  rewrite bool_decide_eq_true_2 by reflexivity. reflexivity.
Qed.


Lemma canUsePrebootedChrome_length_only_witness :
  (forall arg, In arg ["--proxy-server=10.0.0.1:8080"] ->
               ~ In arg (DEFAULT_LAUNCH_ARGS Sample.cfg)) /\
  canUsePrebootedChrome Sample.cfg Sample.differentArgs = true.
Proof.
  split.
  - intros arg [<-|[]] [H|[]]. discriminate H.
  - apply (canUsePrebootedChrome_length_only Sample.cfg Sample.differentArgs
             ["--proxy-server=10.0.0.1:8080"]).
    + left. reflexivity.
    + reflexivity.
    + reflexivity.
Defined.

(** ** convertUrlParamsToLaunchOpts *)

(** C7, as stated, fails: [?blockAds=false] turns ad blocking on although
    the default is off. *)
Lemma blockAds_false_string_is_true :
  qlookup (req_query Sample.reqFlags) "blockAds" = Some (QStr "false") /\
  DEFAULT_BLOCK_ADS Sample.cfg = false /\
  blockAds (convertUrlParamsToLaunchOpts Sample.cfg Sample.parseInt Sample.parseInt Sample.reqFlags)
    <> false.
Proof. repeat split. discriminate. Qed.

(** C7 (amended): [headless] and [dumpio] read the string "false" as false,
    any other defined value as true and fall back to their defaults when
    undefined; [blockAds], [ignoreHTTPSErrors] and [pause] are presence
    flags: any defined value, the string "false" included, gives true, and
    an undefined one gives the default ([false] for [pause]). *)
Theorem boolean_like_fields (cfg : Config)
    (parseInt lodashParseInt : string -> option Z) (req : IHTTPRequest) :
  let q := req_query req in
  let o := convertUrlParamsToLaunchOpts cfg parseInt lodashParseInt req in
  ((qlookup q "headless" = Some (QStr "false") -> headless o = Some false) /\
   (forall v, qlookup q "headless" = Some v -> v <> QStr "false" ->
              headless o = Some true) /\
   (qlookup q "headless" = None -> headless o = Some (DEFAULT_HEADLESS cfg))) /\
  ((qlookup q "dumpio" = Some (QStr "false") -> dumpio o = false) /\
   (forall v, qlookup q "dumpio" = Some v -> v <> QStr "false" -> dumpio o = true) /\
   (qlookup q "dumpio" = None -> dumpio o = DEFAULT_DUMPIO cfg)) /\
  ((forall v, qlookup q "blockAds" = Some v -> blockAds o = true) /\
   (qlookup q "blockAds" = None -> blockAds o = DEFAULT_BLOCK_ADS cfg)) /\
  ((forall v, qlookup q "ignoreHTTPSErrors" = Some v -> ignoreHTTPSErrors o = true) /\
   (qlookup q "ignoreHTTPSErrors" = None ->
    ignoreHTTPSErrors o = DEFAULT_IGNORE_HTTPS_ERRORS cfg)) /\
  ((forall v, qlookup q "pause" = Some v -> pauseOnConnect o = true) /\
   (qlookup q "pause" = None -> pauseOnConnect o = false)).
Proof.
  assert (Hnf : forall v, v <> QStr "false" -> qNotFalse v = true).
  { intros [s|l] Hv; simpl; [|reflexivity].
    destruct (String.eqb_spec s "false"); [congruence|reflexivity]. }
  cbv zeta. unfold convertUrlParamsToLaunchOpts. simpl.
  split; [|split; [|split; [|split]]].
  - split; [intros ->; reflexivity|].
    split; [intros v -> Hv; now rewrite Hnf|intros ->; reflexivity].
  - split; [intros ->; reflexivity|].
    split; [intros v -> Hv; now rewrite Hnf|intros ->; reflexivity].
  - split; [intros v ->; reflexivity|intros ->; reflexivity].
  - split; [intros v ->; reflexivity|intros ->; reflexivity].
  - split; [intros v ->; reflexivity|intros ->; reflexivity].
Qed.

Lemma boolean_like_fields_witness :
  let o := convertUrlParamsToLaunchOpts Sample.cfg Sample.parseInt Sample.parseInt Sample.reqFlags in
  headless o = Some false /\ dumpio o = true /\ blockAds o = true /\
  ignoreHTTPSErrors o = false /\ pauseOnConnect o = false.
Proof.
  destruct (boolean_like_fields Sample.cfg Sample.parseInt Sample.parseInt
              Sample.reqFlags)
    as ((Hh & _ & _) & (_ & Hd & _) & (Hb & _) & (_ & Hi) & (_ & Hp)).
  cbv zeta.
  split; [apply Hh; reflexivity|].
  split; [apply (Hd (QStr "")); [reflexivity|discriminate]|].
  split; [apply (Hb (QStr "false")); reflexivity|].
  split; [apply Hi; reflexivity|apply Hp; reflexivity].
Defined.

(** ** Launch arguments *)

Lemma isPlaywrightKept_stripped (l : list string) :
  strippedArgs (List.filter isPlaywrightKept l).
Proof.
  intros arg Hin. apply List.filter_In in Hin as [_ Hk].
  unfold isPlaywrightKept in Hk.
  apply andb_true_iff in Hk as [H1 H2].
  apply negb_true_iff in H1. apply negb_true_iff in H2.
  split; [exact H1|]. intros ->. discriminate H2.
Qed.

Lemma playwright_engineLaunchArgs (cfg : Config) (opts : ILaunchOptions)
    (port_ : N) (generated : string) :
  playwright opts = true ->
  strippedArgs (la_args (engineLaunchArgs cfg opts port_ generated)) /\
  la_headless (engineLaunchArgs cfg opts port_ generated) = Some true /\
  la_headless (buildLaunchArgs cfg opts port_ generated) = Some true.
Proof.
  intros Hp. unfold engineLaunchArgs, buildLaunchArgs. rewrite Hp. simpl.
  split; [apply isPlaywrightKept_stripped|split; reflexivity].
Qed.

(** ** Stepwise relations *)

Lemma grows_refl (P : Effect -> Prop) (w : World) : grows P w w.
Proof. exists []. split; [now rewrite app_nil_r|constructor]. Qed.

Lemma grows_trans (P : Effect -> Prop) (w1 w2 w3 : World) :
  grows P w1 w2 -> grows P w2 w3 -> grows P w1 w3.
Proof.
  intros (l1 & H1 & F1) (l2 & H2 & F2). exists (l1 ++ l2). split.
  - now rewrite H2, H1, <- app_assoc.
  - apply Forall_app. now split.
Qed.

#[export] Instance grows_stepwise (P : Effect -> Prop) : Stepwise (grows P).
Proof. split; [apply grows_refl|apply grows_trans]. Qed.

Lemma grows_same (P : Effect -> Prop) (w w' : World) :
  history w' = history w -> grows P w w'.
Proof. intros H. exists []. split; [now rewrite app_nil_r|constructor]. Qed.

Lemma grows_one (P : Effect -> Prop) (e : Effect) (w : World) :
  P e -> grows P w (set_history (fun h => h ++ [e]) w).
Proof. intros He. exists [e]. split; [reflexivity|]. now constructor. Qed.

#[export] Instance untouched_stepwise : Stepwise untouched.
Proof.
  split.
  - intros w. repeat split.
  - intros w1 w2 w3 (A1 & A2 & A3 & A4 & A5 & A6) (B1 & B2 & B3 & B4 & B5 & B6).
    repeat split; congruence.
Qed.

Section Preserves.

Context (R : World -> World -> Prop) `{!Stepwise R}.

Lemma preserves_ret {A} (a : A) : preserves R (ret a).
Proof. intros w. apply step_refl. Qed.

Lemma preserves_throw {A} (x : Exn) : preserves R (@throw A x).
Proof. intros w. apply step_refl. Qed.

Lemma preserves_get : preserves R get.
Proof. intros w. apply step_refl. Qed.

Lemma preserves_seen : preserves R seen.
Proof. intros w. apply step_refl. Qed.

Lemma preserves_readBrowser (browser : BrowserRef) :
  preserves R (readBrowser browser).
Proof.
  intros w. unfold readBrowser. destruct (browsers w !! browser); apply step_refl.
Qed.

Lemma preserves_bind {A B} (m : M A) (k : A -> M B) :
  preserves R m -> (forall a, preserves R (k a)) -> preserves R (bind m k).
Proof.
  intros Hm Hk w. unfold bind. specialize (Hm w).
  destruct (m w) as [[a|x] w']; simpl in *; [|exact Hm].
  eapply step_trans; [exact Hm|apply Hk].
Qed.

Lemma preserves_try_catch {A} (m : M A) (handler : Exn -> M A) :
  preserves R m -> (forall x, preserves R (handler x)) ->
  preserves R (try_catch m handler).
Proof.
  intros Hm Hk w. unfold try_catch. specialize (Hm w).
  destruct (m w) as [[a|x] w']; simpl in *; [exact Hm|].
  eapply step_trans; [exact Hm|apply Hk].
Qed.

Lemma preserves_when (c : bool) (m : M unit) :
  preserves R m -> preserves R (when c m).
Proof. intros Hm. destruct c; [exact Hm|apply preserves_ret]. Qed.

Lemma preserves_forEach {A} (l : list A) (f : A -> M unit) :
  (forall a, preserves R (f a)) -> preserves R (forEach l f).
Proof.
  intros Hf. induction l as [|a l IH]; simpl.
  - apply preserves_ret.
  - apply preserves_bind; [apply Hf|intros _; exact IH].
Qed.

Lemma preserves_modify (f : World -> World) :
  (forall w, R w (f w)) -> preserves R (modify f).
Proof. intros Hf w. apply Hf. Qed.

Lemma preserves_fresh :
  (forall w, R w (set_nextRef S w)) -> preserves R fresh.
Proof. intros Hf w. apply Hf. Qed.

Lemma preserves_emit (e : Effect) :
  (forall w, R w (set_history (fun h => h ++ [e]) w)) -> preserves R (emit e).
Proof. intros He w. apply He. Qed.

Lemma preserves_perform (env : Env) (e : Effect) :
  (forall w, R w (set_history (fun h => h ++ [e]) w)) ->
  preserves R (perform env e).
Proof.
  intros He w. unfold perform.
  destruct (env_throws env (history w) e); apply He.
Qed.

Lemma preserves_unawaited (env : Env) (e : Effect) :
  (forall w, R w (set_history (fun h => h ++ [e]) w)) ->
  (forall w f, R w (set_unhandledRejections f w)) ->
  preserves R (unawaited env e).
Proof.
  intros He Hu. unfold unawaited.
  apply preserves_bind; [apply preserves_seen|intros h].
  apply preserves_bind; [now apply preserves_perform|intros _].
  apply preserves_when. intros w. apply Hu.
Qed.

Lemma preserves_detached {A} (m : M A) :
  (forall w f, R w (set_unhandledRejections f w)) ->
  preserves R m -> preserves R (detached m).
Proof.
  intros Hu Hm w. unfold detached. specialize (Hm w).
  destruct (m w) as [[a|x] w']; simpl in *; [exact Hm|].
  eapply step_trans; [exact Hm|apply Hu].
Qed.

End Preserves.

(** Walk through a sequence of steps, leaving the conditions on the single
    calls and state changes. *)
Ltac steps :=
  repeat lazymatch goal with
    | |- preserves _ (bind _ _) => apply preserves_bind; [exact _| |intros ?]
    | |- preserves _ (when _ _) => apply preserves_when; [exact _|]
    | |- preserves _ (try_catch _ _) =>
        apply preserves_try_catch; [exact _| |intros ?]
    | |- preserves _ (swallow _) =>
        apply preserves_try_catch; [exact _| |intros ?]
    | |- preserves _ (detached _) => apply preserves_detached; [exact _| |]
    | |- preserves _ (forEach _ _) =>
        apply preserves_forEach; [exact _|intros ?]
    | |- preserves _ (modify _) => apply preserves_modify; intros ?
    | |- preserves _ (emit _) => apply preserves_emit; intros ?
    | |- preserves _ (debug _) => apply preserves_emit; intros ?
    | |- preserves _ (perform _ _) => apply preserves_perform; intros ?
    | |- preserves _ (unawaited _ _) =>
        apply preserves_unawaited; [exact _|intros ?|intros ? ?]
    | |- preserves _ (ret _) => apply preserves_ret; exact _
    | |- preserves _ (throw _) => apply preserves_throw; exact _
    | |- preserves _ get => apply preserves_get; exact _
    | |- preserves _ seen => apply preserves_seen; exact _
    | |- preserves _ fresh => apply preserves_fresh; intros ?
    | |- preserves _ (readBrowser _) => apply preserves_readBrowser; exact _
    end.

(** The conditions left by [steps] for [grows P]. *)
Ltac grows_side HP :=
  lazymatch goal with
  | |- forall _ _, grows _ _ _ => intros ? ?; apply grows_same; reflexivity
  | |- grows _ ?w (set_history _ ?w) => apply grows_one; apply HP; discriminate
  | |- grows _ _ _ => apply grows_same; reflexivity
  end.

Lemma setupPage_grows (cfg : Config) (env : Env) (P : Effect -> Prop)
    (page : PageRef) (pause block : bool) (tid : option string)
    (size : option IWindowSize) :
  (forall e, (forall engine la, e <> Launch engine la) -> P e) ->
  preserves (grows P) (setupPage cfg env page pause block tid size).
Proof.
  intros HP. unfold setupPage.
  steps; try grows_side HP.
  destruct size; steps; grows_side HP.
Qed.

Lemma setupBrowser_grows (cfg : Config) (env : Env) (P : Effect -> Prop)
    (a : SetupBrowserArgs) :
  (forall e, (forall engine la, e <> Launch engine la) -> P e) ->
  preserves (grows P) (setupBrowser cfg env a).
Proof.
  intros HP. unfold setupBrowser.
  steps; try grows_side HP.
  destruct (pathname _); steps; try grows_side HP.
  now apply setupPage_grows.
Qed.

(** What the playwright engine is started with: the baseline arguments,
    the caller's arguments that are fit for it, and the port. *)
Lemma playwright_args (cfg : Config) (opts : ILaunchOptions)
    (port_ : N) (generated : string) :
  playwright opts = true ->
  la_args (engineLaunchArgs cfg opts port_ generated) =
    BROWSERLESS_ARGS ++
    List.filter (fun arg => negb (unfitForPlaywright arg)) (default [] (args opts)) ++
    ["--remote-debugging-port=" +:+ pretty port_].
Proof.
  intros Hp.
  assert (Hkept : forall l,
            List.filter isPlaywrightKept l =
            List.filter (fun arg => negb (unfitForPlaywright arg)) l).
  { intros l. apply List.filter_ext. intros arg.
    unfold isPlaywrightKept, unfitForPlaywright. now rewrite negb_orb. }
  assert (Hinit : forall extra,
            List.filter isPlaywrightKept (initialArgs opts port_ ++ extra) =
            (BROWSERLESS_ARGS ++
             List.filter isPlaywrightKept (default [] (args opts)) ++
             ["--remote-debugging-port=" +:+ pretty port_]) ++
            List.filter isPlaywrightKept extra).
  { intros extra. unfold initialArgs. now rewrite !List.filter_app. }
  assert (Hdir : forall dir,
            List.filter isPlaywrightKept ["--user-data-dir=" +:+ dir] = [])
    by reflexivity.
  unfold engineLaunchArgs, buildLaunchArgs. rewrite Hp. cbv zeta.
  cbn [la_args forceHeadless].
  destruct (browserlessDataDir opts (initialArgs opts port_) generated) as [dir|],
    (isHeadless opts (initialArgs opts port_)).
  all: rewrite <- ?app_assoc, ?Hinit, ?List.filter_app, ?Hdir.
  all: try rewrite <- (app_nil_r (initialArgs opts port_)), Hinit.
  all: simpl List.filter; rewrite ?app_nil_r, Hkept; reflexivity.
Qed.

(** C6, as stated, fails: a playwright request with the explicit argument
    [--remote-debugging-pipe=CBOR] starts the engine with that
    debugging-pipe argument among its arguments. *)
Lemma playwright_keeps_pipe_with_value :
  let la := engineLaunchArgs Sample.cfg Scenario.optsPipeValue 9222
              "/tmp/browserless-data-dir-1" in
  playwright Scenario.optsPipeValue = true /\
  la_args la =
    ["--no-sandbox"; "--enable-logging"; "--v1=1"; "--disable-dev-shm-usage";
     "--remote-debugging-pipe=CBOR"; "--remote-debugging-port=9222"] /\
  Js.startsWith "--remote-debugging-pipe=CBOR" "--remote-debugging-pipe" = true /\
  In (Launch Playwright la)
     (history (launchChrome Sample.cfg (Sample.env Sample.nothingFails)
                 Scenario.optsPipeValue false Sample.world0).2).
Proof.
  cbv zeta. split; [reflexivity|]. split; [vm_compute; reflexivity|].
  split; [reflexivity|]. vm_compute. tauto.
Qed.

(** C6 (amended): with the playwright engine selected, the engine is
    started with the baseline arguments, the caller's explicit arguments
    except those that begin with [--user-data-dir] and the bare
    [--remote-debugging-pipe], in their order, and the debugging-port
    argument, and with nothing else: neither the data-directory argument
    nor the pipe argument that [launchChrome] appends gets through.  So the
    final list holds no argument beginning with [--user-data-dir] and none
    equal to [--remote-debugging-pipe]; every other explicit argument is
    passed on, also one that merely begins with [--remote-debugging-pipe].
    [headless] is [true] in the [launchArgs] object and in every engine
    start, whatever the [headless] option and the explicit arguments
    are. *)
Theorem playwright_launch_stripped_headless (cfg : Config) (env : Env)
    (opts : ILaunchOptions) (isPreboot : bool) :
  playwright opts = true ->
  preserves (grows playwrightLaunch) (launchChrome cfg env opts isPreboot) /\
  forall port_ generated,
    let la := engineLaunchArgs cfg opts port_ generated in
    la_args la =
      BROWSERLESS_ARGS ++
      List.filter (fun arg => negb (unfitForPlaywright arg)) (default [] (args opts)) ++
      ["--remote-debugging-port=" +:+ pretty port_] /\
    (forall arg, In arg (la_args la) -> unfitForPlaywright arg = false) /\
    (forall arg, In arg (default [] (args opts)) ->
       unfitForPlaywright arg = false -> In arg (la_args la)) /\
    la_headless la = Some true /\
    la_headless (buildLaunchArgs cfg opts port_ generated) = Some true /\
    la = buildLaunchArgs cfg opts port_ generated.
Proof.
  intros Hp. split.
  - assert (HP : forall e, (forall engine la, e <> Launch engine la) ->
                           playwrightLaunch e).
    { intros [] H; simpl; try exact I. now destruct (H engine la). }
    unfold launchChrome. rewrite Hp.
    steps; try grows_side HP.
    + destruct (_ || _); steps; grows_side HP.
    + apply grows_one. simpl. split; [reflexivity|].
      match goal with
      | |- context [engineLaunchArgs cfg opts ?p ?g] =>
          destruct (playwright_engineLaunchArgs cfg opts p g Hp) as (Hs & Hh & _)
      end.
      split; assumption.
    + destruct (env_fetchVersion _ _ _); steps; try grows_side HP.
      * simpl. steps; grows_side HP.
      * now apply setupBrowser_grows.
  - intros port_ generated. cbv zeta.
    pose proof (playwright_args cfg opts port_ generated Hp) as Hargs.
    split; [exact Hargs|]. rewrite Hargs.
    split; [|split].
    + intros arg Hin. apply in_app_or in Hin as [Hin|Hin].
      * simpl in Hin.
        repeat (destruct Hin as [<-|Hin]; [reflexivity|]). destruct Hin.
      * apply in_app_or in Hin as [Hin|[<-|[]]]; [|reflexivity].
        apply List.filter_In in Hin as [_ Hfit]. now apply negb_true_iff.
    + intros arg Hin Hfit. apply in_or_app. right. apply in_or_app. left.
      apply List.filter_In. split; [exact Hin|]. now rewrite Hfit.
    + destruct (playwright_engineLaunchArgs cfg opts port_ generated Hp)
        as (_ & Hh & Hb).
      split; [exact Hh|]. split; [exact Hb|].
      unfold engineLaunchArgs, buildLaunchArgs. now rewrite Hp.
Qed.

(** ** closeBrowser *)

Lemma closeBrowser_closed (env : Env) (browser : BrowserRef) (w : World)
    (b : IBrowser) :
  browsers w !! browser = Some b -> _isOpen b = false ->
  closeBrowser env browser w = (Normal tt, w).
Proof. intros Hb Ho. unfold closeBrowser. now rewrite Hb, Ho. Qed.

Ltac finish_teardown :=
  try assumption;
  unfold teardownStart, timerEffects, dirEffects;
  repeat match goal with
         | H : _keepaliveTimeout _ = _ |- _ => rewrite H
         | H : Js.truthy_opt _ = _ |- _ => rewrite H
         end;
  simpl; rewrite <- ?app_assoc; reflexivity.

Lemma quiet_cleanupNeverThrows (env : Env) : quiet env -> cleanupNeverThrows env.
Proof. intros Hq h e _. apply Hq. Qed.

Lemma closeBrowser_open (env : Env) (browser : BrowserRef) (w : World)
    (b : IBrowser) :
  browsers w !! browser = Some b -> _isOpen b = true ->
  exists w1,
    closeBrowser env browser w = (Normal tt, w1) /\
    browsers w1 = <[browser := set_isOpen false b]> (browsers w) /\
    childExitListeners w1 = childExitListeners w /\
    targetListeners w1 = targetListeners w /\
    (quiet env -> unhandledRejections w1 = unhandledRejections w) /\
    TeardownOutcome env browser b w w1 /\
    (cleanupNeverThrows env ->
     history w1 = history w ++ teardownStart b ++
                  [BrowserClose browser; RemoveAllListeners "exit"]).
Proof.
  intros Hb Ho. unfold closeBrowser. rewrite Hb, Ho. simpl.
  unfold unawaited, bind, try_catch, when, debug, emit, perform, modify, ret, seen.
  simpl.
  destruct (_keepaliveTimeout b) as [t|] eqn:Ht;
    destruct (Js.truthy_opt (_browserlessDataDir b)) eqn:Hd; simpl.
  all: repeat match goal with
       | |- context [env_throws ?v ?h ?e] =>
           let E := fresh "E" in destruct (env_throws v h e) eqn:E; simpl
       end.
  all: eexists; split; [reflexivity|]; simpl.
  all: do 3 (split; [reflexivity|]).
  all: split;
    [ intros Hq;
      repeat match goal with
             | E : env_throws _ _ _ = true |- _ => rewrite Hq in E; discriminate E
             end;
      reflexivity | ].
  all: split;
    [ first
        [ apply Completed; solve [finish_teardown]
        | apply CloseRaised; solve [finish_teardown]
        | apply RemovalRaised; solve [finish_teardown] ]
    | intros Hc;
      try match goal with
          | E : env_throws _ _ (Rimraf _) = true |- _ =>
              rewrite Hc in E by reflexivity; discriminate E
          | E : env_throws _ _ (BrowserClose _) = true |- _ =>
              rewrite Hc in E by reflexivity; discriminate E
          end;
      finish_teardown ].
Qed.

Lemma cleanupPlan_NoDup (browser : BrowserRef) (b : IBrowser) :
  NoDup (cleanupPlan browser b).
Proof.
  unfold cleanupPlan, timerEffects, dirEffects.
  destruct (_keepaliveTimeout b), (Js.truthy_opt (_browserlessDataDir b)); simpl.
  all: repeat (apply NoDup_cons; split;
               [rewrite ?not_elem_of_cons; repeat split;
                  try discriminate; apply not_elem_of_nil|]).
  all: apply NoDup_nil; exact I.
Qed.

Lemma cleanup_of_teardown (b : IBrowser) (rest : list Effect) :
  List.filter isCleanup (teardownStart b ++ rest) =
  List.filter isCleanup (timerEffects b ++ dirEffects b) ++
  List.filter isCleanup rest.
Proof.
  unfold teardownStart. rewrite <- app_assoc. simpl.
  now rewrite List.filter_app.
Qed.

Lemma closed_instance_left_registry (w : World) (browser : BrowserRef)
    (b : IBrowser) :
  ~ In browser
      (withoutEndpoint (set_browsers (insert browser (set_isOpen false b)) w) b).
Proof.
  unfold withoutEndpoint. intros Hin.
  apply List.filter_In in Hin as [_ Hk].
  unfold sameEndpoint in Hk. simpl in Hk.
  rewrite lookup_insert_eq in Hk. simpl in Hk.
  now rewrite String.eqb_refl in Hk.
Qed.

(** C1, as stated, fails.  When the removal of the data directory throws,
    the first teardown ends there and the second returns at once: the
    instance is marked closed but neither call removes it from the registry
    or ends its connection.  And when nothing fails, the connection is ended
    by the engine's [close], once; [disconnect] is called by neither
    teardown. *)
Lemma teardown_cut_short_is_not_resumed :
  let failing := Sample.env Scenario.rimrafFails in
  let first := closeBrowser failing 0 Sample.launched in
  let second := closeBrowser failing 0 first.2 in
  let calm := Sample.env Sample.nothingFails in
  let both := (closeBrowser calm 0 (closeBrowser calm 0 Sample.launched).2).2 in
  (isOpenAt Sample.launched 0 = true /\
   first.1 = Normal tt /\
   isOpenAt first.2 0 = false /\
   second = (Normal tt, first.2) /\
   In 0 (runningBrowsers second.2) /\
   List.filter isCleanup (history second.2) =
     [Rimraf "/tmp/browserless-data-dir-1"]) /\
  (List.filter isCleanup (history both) =
     [Rimraf "/tmp/browserless-data-dir-1"; BrowserClose 0;
      RemoveAllListeners "exit"] /\
   ~ In (BrowserDisconnect 0) (history both)).
Proof.
  vm_compute. repeat split; try tauto.
  intros H. repeat (destruct H as [H|H]; [discriminate H|]). exact H.
Qed.

(** C1 (amended): teardown is idempotent.  The first [closeBrowser] on an
    open instance completes normally and marks the instance closed; a
    second call returns at once, normally, leaving the whole state and the
    history as they are.  So over both calls each cleanup call (cancelling
    the timer, removing the stored directory, ending the connection,
    removing the host's exit listeners) is made at most once, in that
    order; and when none of them throws, each is made exactly once and the
    instance is removed from the registry. *)
Theorem closeBrowser_idempotent (env env' : Env) (browser : BrowserRef)
    (w : World) (b : IBrowser) :
  browsers w !! browser = Some b ->
  _isOpen b = true ->
  let first := closeBrowser env browser w in
  let second := closeBrowser env' browser first.2 in
  first.1 = Normal tt /\
  (exists b1, browsers first.2 !! browser = Some b1 /\ _isOpen b1 = false) /\
  second = (Normal tt, first.2) /\
  exists log,
    history second.2 = history w ++ log /\
    List.filter isCleanup log `prefix_of` cleanupPlan browser b /\
    NoDup (cleanupPlan browser b) /\
    (cleanupNeverThrows env ->
       List.filter isCleanup log = cleanupPlan browser b /\
       runningBrowsers second.2 =
         withoutEndpoint (set_browsers (insert browser (set_isOpen false b)) w) b /\
       ~ In browser (runningBrowsers second.2)).
Proof.
  intros Hb Ho.
  destruct (closeBrowser_open env browser w b Hb Ho)
    as (w1 & Hrun & Hbs & _ & _ & _ & Hout & Hcalm).
  cbv zeta. rewrite Hrun. simpl.
  assert (Hb1 : browsers w1 !! browser = Some (set_isOpen false b))
    by (rewrite Hbs; apply lookup_insert_eq).
  rewrite (closeBrowser_closed env' browser w1 _ Hb1 eq_refl). simpl.
  split; [reflexivity|].
  split; [exists (set_isOpen false b); split; [exact Hb1|reflexivity]|].
  split; [reflexivity|].
  destruct Hout as [Hd Hh Hr Hl|Hh Hr Hl|Hh Hr Hl].
  - eexists. split; [exact Hh|]. rewrite cleanup_of_teardown. simpl.
    rewrite app_nil_r. split; [|split; [apply cleanupPlan_NoDup|]].
    + unfold cleanupPlan. now eexists.
    + intros Hc. specialize (Hcalm Hc). rewrite Hh in Hcalm.
      apply app_inv_head in Hcalm. apply app_inv_head in Hcalm.
      discriminate Hcalm.
  - eexists. split; [exact Hh|]. rewrite cleanup_of_teardown. simpl.
    split; [|split; [apply cleanupPlan_NoDup|]].
    + unfold cleanupPlan. exists [RemoveAllListeners "exit"].
      now rewrite <- app_assoc.
    + intros Hc. specialize (Hcalm Hc). rewrite Hh in Hcalm.
      apply app_inv_head in Hcalm. apply app_inv_head in Hcalm.
      discriminate Hcalm.
  - eexists. split; [exact Hh|]. rewrite cleanup_of_teardown. simpl.
    split; [|split; [apply cleanupPlan_NoDup|]].
    + unfold cleanupPlan. exists []. now rewrite app_nil_r.
    + intros _. split; [reflexivity|]. split; [exact Hr|].
      rewrite Hr. apply closed_instance_left_registry.
Qed.

Lemma closeBrowser_idempotent_witness :
  let first := closeBrowser (Sample.env Sample.nothingFails) 0 Sample.launched in
  let second := closeBrowser (Sample.env Sample.nothingFails) 0 first.2 in
  second = (Normal tt, first.2) /\ ~ In 0 (runningBrowsers second.2).
Proof.
  assert (Hb : browsers Sample.launched !! 0 =
               Some (Sample.instance true "/tmp/browserless-data-dir-1"))
    by (vm_compute; reflexivity).
  assert (Hc : cleanupNeverThrows (Sample.env Sample.nothingFails))
    by (intros h e _; reflexivity).
  destruct (closeBrowser_idempotent (Sample.env Sample.nothingFails)
              (Sample.env Sample.nothingFails) 0 Sample.launched _ Hb eq_refl)
    as (_ & _ & Hsecond & log & _ & _ & _ & Hexact).
  destruct (Hexact Hc) as (_ & _ & Hgone).
  split; [exact Hsecond|exact Hgone].
Defined.

Lemma playwright_launch_stripped_headless_witness :
  let la := engineLaunchArgs Sample.cfg Sample.optsPlaywright 9222 "" in
  la_args la =
    ["--no-sandbox"; "--enable-logging"; "--v1=1"; "--disable-dev-shm-usage";
     "--window-size=800,600"; "--remote-debugging-port=9222"] /\
  (forall arg, In arg (la_args la) -> unfitForPlaywright arg = false) /\
  la_headless la = Some true /\
  grows playwrightLaunch Sample.world0
    (launchChrome Sample.cfg (Sample.env Sample.nothingFails)
       Sample.optsPlaywright false Sample.world0).2 /\
  In (Launch Playwright la)
     (history (launchChrome Sample.cfg (Sample.env Sample.nothingFails)
                 Sample.optsPlaywright false Sample.world0).2).
Proof.
  destruct (playwright_launch_stripped_headless Sample.cfg
              (Sample.env Sample.nothingFails) Sample.optsPlaywright false eq_refl)
    as (Hrun & Hargs).
  destruct (Hargs 9222%N "") as (Heq & Hfit & _ & Hh & _).
  split; [rewrite Heq; vm_compute; reflexivity|].
  split; [exact Hfit|]. split; [exact Hh|]. split; [apply Hrun|].
  vm_compute. tauto.
Defined.

(** The directory named by [_browserlessDataDir] is removed whenever it is
    a non-empty string; [_isUsingTempDataDir] is not consulted. *)
Lemma closeBrowser_removes_dataDir (env : Env) (browser : BrowserRef)
    (w : World) (b : IBrowser) (dir : string) :
  browsers w !! browser = Some b ->
  _isOpen b = true ->
  _browserlessDataDir b = Some dir ->
  dir <> "" ->
  In (Rimraf dir) (history (closeBrowser env browser w).2).
Proof.
  intros Hb Ho Hd Hne.
  destruct (closeBrowser_open env browser w b Hb Ho)
    as (w1 & Hrun & _ & _ & _ & _ & Hout & _).
  rewrite Hrun. simpl.
  assert (Hin : In (Rimraf dir) (teardownStart b)).
  { unfold teardownStart, dirEffects. rewrite Hd.
    apply in_or_app. right. apply in_or_app. right.
    unfold Js.truthy_opt, Js.truthy.
    destruct (String.eqb_spec dir ""); [contradiction|]. simpl. tauto. }
  destruct Hout as [_ Hh _ _|Hh _ _|Hh _ _]; rewrite Hh;
    apply in_or_app; right; apply in_or_app; left; exact Hin.
Qed.

(** Where the directory comes from.  A directory named by an explicit
    [--user-data-dir=] argument is not stored on the instance; one named by
    the [userDataDir] option is stored although the instance is marked as
    not using a temporary directory; a generated one is stored and marked
    as temporary. *)
Lemma launch_dataDir_cases (opts : ILaunchOptions) (port_ : N) (generated : string) :
  let a := initialArgs opts port_ in
  (hasUserDataDir a = true ->
   browserlessDataDir opts a generated = None /\
   isUsingTempDataDir opts a = false) /\
  (hasUserDataDir a = false -> Js.truthy_opt (userDataDir opts) = true ->
   browserlessDataDir opts a generated = userDataDir opts /\
   isUsingTempDataDir opts a = false) /\
  (hasUserDataDir a = false -> Js.truthy_opt (userDataDir opts) = false ->
   browserlessDataDir opts a generated = Some generated /\
   isUsingTempDataDir opts a = true).
Proof.
  cbv zeta. unfold browserlessDataDir, isUsingTempDataDir.
  split; [|split].
  - intros ->. split; reflexivity.
  - intros -> ->. split; reflexivity.
  - intros -> ->. split; reflexivity.
Qed.

(** Without a stored directory a teardown removes nothing. *)
Lemma closeBrowser_without_dataDir (env : Env) (browser : BrowserRef)
    (w : World) (b : IBrowser) :
  browsers w !! browser = Some b ->
  _isOpen b = true ->
  _browserlessDataDir b = None ->
  grows (fun e => forall dir, e <> Rimraf dir) w (closeBrowser env browser w).2.
Proof.
  intros Hb Ho Hd.
  destruct (closeBrowser_open env browser w b Hb Ho)
    as (w1 & Hrun & _ & _ & _ & _ & Hout & _).
  rewrite Hrun. simpl.
  assert (Hstart : Forall (fun e => forall dir, e <> Rimraf dir) (teardownStart b)).
  { unfold teardownStart, timerEffects, dirEffects. rewrite Hd. simpl.
    destruct (_keepaliveTimeout b); repeat constructor; discriminate. }
  destruct Hout as [Ht _ _ _|Hh _ _|Hh _ _].
  - rewrite Hd in Ht. discriminate Ht.
  - eexists. split; [exact Hh|]. apply Forall_app. split; [exact Hstart|].
    repeat constructor; discriminate.
  - eexists. split; [exact Hh|]. apply Forall_app. split; [exact Hstart|].
    repeat constructor; discriminate.
Qed.

(** C3 (the code at the failing input): an instance launched with
    [{ userDataDir: '/data/profile' }] does not own a temporary directory
    ([_isUsingTempDataDir] is [false]), yet its teardown removes
    [/data/profile], the directory the caller supplied. *)
Theorem teardown_removes_caller_userDataDir :
  let env := Sample.env Sample.nothingFails in
  (exists b, browsers Sample.launchedUserDir !! 0 = Some b /\
             _isOpen b = true /\
             _isUsingTempDataDir b = false /\
             _browserlessDataDir b = Some "/data/profile") /\
  In (Rimraf "/data/profile")
     (history (closeBrowser env 0 Sample.launchedUserDir).2).
Proof.
  assert (Hb : browsers Sample.launchedUserDir !! 0 =
               Some (Sample.instance false "/data/profile"))
    by (vm_compute; reflexivity).
  split.
  - exists (Sample.instance false "/data/profile").
    split; [exact Hb|]. repeat split.
  - apply (closeBrowser_removes_dataDir _ 0 _ _ "/data/profile" Hb);
      [reflexivity|reflexivity|discriminate].
Qed.

(** ** Listeners *)




(** ** Hooks *)

Lemma untouched_history (f : list Effect -> list Effect) (w : World) :
  untouched w (set_history f w).
Proof. repeat split. Qed.

Lemma untouched_unhandled (w : World) (f : list Exn -> list Exn) :
  untouched w (set_unhandledRejections f w).
Proof. repeat split. Qed.

Lemma setupPage_untouched (cfg : Config) (env : Env) (page : PageRef)
    (pause block : bool) (tid : option string) (size : option IWindowSize) :
  preserves untouched (setupPage cfg env page pause block tid size).
Proof.
  unfold setupPage.
  steps; try apply untouched_history.
  destruct size; steps; apply untouched_history.
Qed.

Lemma detached_normal {A} (m : M A) (w : World) : (detached m w).1 = Normal tt.
Proof. unfold detached. now destruct (m w) as [[a|x] w']. Qed.

Lemma forEach_detached {A B} (l : list A) (f : A -> M B) (w : World) :
  (forall a, preserves untouched (detached (f a))) ->
  exists w',
    forEach l (fun a => detached (f a)) w = (Normal tt, w') /\ untouched w w'.
Proof.
  intros Hp. revert w.
  induction l as [|a l IH]; intros w; simpl.
  - exists w. split; [reflexivity|apply step_refl].
  - unfold bind.
    pose proof (detached_normal (f a) w) as Hn.
    pose proof (Hp a w) as Hu.
    destruct (detached (f a) w) as [r w1]. simpl in Hn, Hu. subst r.
    destruct (IH w1) as (w2 & -> & Hu2).
    exists w2. split; [reflexivity|].
    eapply step_trans; [exact Hu|exact Hu2].
Qed.




(** ** getDebuggingPages *)

Lemma collect_Normal {A} (l : list (Completion A)) (r : list A) :
  collect l = Normal r <-> Forall2 (fun c a => c = Normal a) l r.
Proof.
  revert r. induction l as [|[a|x] l IH]; intros r; simpl.
  - split.
    + intros [= <-]. constructor.
    + intros H. inversion H. reflexivity.
  - destruct (collect l) as [r'|y].
    + split.
      * intros [= <-]. constructor; [reflexivity|]. now apply IH.
      * intros H. inversion H as [|? b ? r'' Hb Hl]; subst.
        injection Hb as <-. apply IH in Hl. now injection Hl as ->.
    + split; [discriminate|].
      intros H. inversion H as [|? b ? r'' Hb Hl]; subst.
      apply IH in Hl. discriminate Hl.
  - split; [discriminate|]. intros H. inversion H; discriminate.
Qed.

Lemma rejections_In {A} (l : list (Completion A)) (x : Exn) :
  In x (rejections l) <-> In (Abrupt x) l.
Proof.
  unfold rejections. induction l as [|[a|y] l IH]; simpl.
  - tauto.
  - rewrite IH. split; [tauto|]. intros [H|H]; [discriminate H|exact H].
  - rewrite IH. split.
    + intros [->|H]; [now left|now right].
    + intros [[= ->]|H]; [now left|now right].
Qed.

Lemma rejections_nil {A} (l : list (Completion A)) :
  rejections l = [] <-> exists r, collect l = Normal r.
Proof.
  unfold rejections. induction l as [|[a|y] l IH]; simpl.
  - split; [now exists []|reflexivity].
  - rewrite IH. split.
    + intros (r & ->). now eexists.
    + intros (r & Hr). destruct (collect l) as [r'|]; [now exists r'|discriminate Hr].
  - split; [discriminate|]. intros (r & Hr). discriminate Hr.
Qed.

Lemma rejections_filtered {A} (l : list (bool * Completion A)) (x : Exn) :
  In x (rejections (map snd (List.filter fst l))) -> In x (rejections (map snd l)).
Proof.
  rewrite !rejections_In, !in_map_iff.
  intros (c & Hc & Hin). apply List.filter_In in Hin as [Hin _]. now exists c.
Qed.

(** What [Promise.all] settles with: the values gathered in order, or one
    of the rejections. *)
Lemma promiseAll_settles {A} (first : nat) (l : list (bool * Completion A)) :
  match promiseAll first l with
  | Normal r => collect (map snd l) = Normal r
  | Abrupt x => In (Abrupt x) (map snd l)
  end.
Proof.
  unfold promiseAll.
  destruct (rejections (map snd (List.filter fst l))) as [|x now_] eqn:Hnow.
  - destruct (rejections (map snd l)) as [|x later] eqn:Hall.
    + apply rejections_nil in Hall as (r & Hr). now rewrite Hr.
    + apply rejections_In. rewrite Hall.
      destruct (nth_in_or_default first (x :: later) x) as [Hin| ->];
        [exact Hin|now left].
  - apply rejections_In, rejections_filtered. rewrite Hnow. now left.
Qed.

Lemma promiseAll_Normal {A} (first : nat) (l : list (bool * Completion A))
    (r : list A) :
  promiseAll first l = Normal r <-> collect (map snd l) = Normal r.
Proof.
  split.
  - intros H. pose proof (promiseAll_settles first l) as Hs. now rewrite H in Hs.
  - intros H.
    assert (Hall : rejections (map snd l) = [])
      by (apply rejections_nil; now exists r).
    unfold promiseAll.
    destruct (rejections (map snd (List.filter fst l))) as [|x now_] eqn:Hnow.
    + now rewrite Hall.
    + assert (Hin : In x (rejections (map snd l)))
        by (apply rejections_filtered; rewrite Hnow; now left).
      rewrite Hall in Hin. destruct Hin.
Qed.

Lemma promiseAll_Abrupt {A} (first : nat) (l : list (bool * Completion A))
    (x : Exn) :
  In (Abrupt x) (map snd l) ->
  exists y, promiseAll first l = Abrupt y /\ In (Abrupt y) (map snd l).
Proof.
  intros Hin. pose proof (promiseAll_settles first l) as Hs.
  destruct (promiseAll first l) as [r|y]; [|now exists y].
  apply rejections_In in Hin.
  assert (Hnil : rejections (map snd l) = [])
    by (apply rejections_nil; now exists r).
  rewrite Hnil in Hin. destruct Hin.
Qed.

(** The promise that settles at once with a rejection, and comes first in
    the array among those that do, decides. *)
Lemma promiseAll_atOnce {A B} (first : nat) (now_ : A -> bool)
    (f : A -> Completion B) (l : list A) (a : A) (x : Exn) :
  List.find now_ l = Some a ->
  f a = Abrupt x ->
  promiseAll first (map (fun a => (now_ a, f a)) l) = Abrupt x.
Proof.
  intros Hfind Hx. unfold promiseAll.
  assert (Hhead : exists rest,
            rejections (map snd (List.filter fst (map (fun a => (now_ a, f a)) l)))
            = x :: rest).
  { unfold rejections. induction l as [|a' l IH]; simpl in *; [discriminate|].
    destruct (now_ a') eqn:Hn; simpl.
    - injection Hfind as ->. rewrite Hx. now eexists.
    - now apply IH. }
  destruct Hhead as (rest & ->). reflexivity.
Qed.

Lemma map_snd_tagged {A B C} (g : A -> B) (f : A -> C) (l : list A) :
  map snd (map (fun a => (g a, f a)) l) = map f l.
Proof. rewrite map_map. now apply map_ext. Qed.

Lemma getDebuggingPages_result (cfg : Config) (env : Env) (w : World) :
  (getDebuggingPages cfg env w).1 =
  match promiseAll (env_settlesFirst env (history w))
          (map (fun b => (settlesAtOnce b, browserSessions cfg env (history w) b))
             (registered w)) with
  | Normal results => Normal (concat results)
  | Abrupt x => Abrupt x
  end.
Proof.
  unfold getDebuggingPages. unfold bind at 1. unfold get. simpl.
  unfold bind.
  assert (Hloop : forall (l : list IBrowser) w0,
            (forEach l (fun browser =>
               when (Js.truthy_opt (port (_parsed browser)))
                 (emit (FetchJson
                    (targetsUrl (default "" (port (_parsed browser))))))) w0).1
            = Normal tt).
  { induction l as [|b l IH]; intros w0; simpl; [reflexivity|].
    unfold bind.
    destruct (Js.truthy_opt (port (_parsed b))); simpl; apply IH. }
  specialize (Hloop (registered w) w).
  destruct (forEach _ _ w) as [r w1]. simpl in Hloop. subst r.
  now destruct (promiseAll _ _).
Qed.

(** A listing resolves exactly when every lookup does. *)
Lemma getDebuggingPages_resolved (cfg : Config) (env : Env) (w : World)
    (pages : list ISession) :
  (getDebuggingPages cfg env w).1 = Normal pages <->
  exists results,
    collect (map (browserSessions cfg env (history w)) (registered w))
      = Normal results /\
    pages = concat results.
Proof.
  rewrite getDebuggingPages_result. split.
  - destruct (promiseAll _ _) as [results|x] eqn:E; [|discriminate].
    intros [= <-]. exists results. split; [|reflexivity].
    apply promiseAll_Normal in E. now rewrite map_snd_tagged in E.
  - intros (results & Hc & ->).
    rewrite <- (map_snd_tagged settlesAtOnce) in Hc.
    apply (promiseAll_Normal (env_settlesFirst env (history w))) in Hc.
    now rewrite Hc.
Qed.

(** A listing is rejected as soon as one lookup fails, with the failure of
    one of the lookups. *)
Lemma getDebuggingPages_rejected (cfg : Config) (env : Env) (w : World)
    (b : IBrowser) (x : Exn) :
  In b (registered w) ->
  browserSessions cfg env (history w) b = Abrupt x ->
  exists b' y,
    In b' (registered w) /\
    browserSessions cfg env (history w) b' = Abrupt y /\
    (getDebuggingPages cfg env w).1 = Abrupt y.
Proof.
  intros Hin Hx. rewrite getDebuggingPages_result.
  destruct (promiseAll_Abrupt (env_settlesFirst env (history w))
              (map (fun b => (settlesAtOnce b, browserSessions cfg env (history w) b))
                 (registered w)) x) as (y & -> & Hy).
  { rewrite map_snd_tagged, <- Hx. now apply in_map. }
  rewrite map_snd_tagged in Hy. apply in_map_iff in Hy as (b' & Hb' & Hin').
  now exists b', y.
Qed.

(** C2, as stated, fails: with two registered instances of which only the
    second one's fetch fails, the sessions of the first are not returned;
    the whole listing is rejected with the fetch failure. *)
Lemma one_failed_fetch_rejects_listing :
  let env := Sample.env Sample.nothingFails in
  length (registered Sample.world2) = 2 /\
  match browserSessions Sample.cfg env [] (Sample.browserAt "9222" "b1") with
  | Normal sessions => length sessions = 1
  | Abrupt _ => False
  end /\
  browserSessions Sample.cfg env [] (Sample.browserAt "9333" "b2")
    = Abrupt (ThrownBy (FetchJson "http://127.0.0.1:9333/json/list")) /\
  (getDebuggingPages Sample.cfg env Sample.world2).1
    = Abrupt (ThrownBy (FetchJson "http://127.0.0.1:9333/json/list")).
Proof.
  cbv zeta. split; [vm_compute; reflexivity|]. split; [|split].
  - vm_compute. reflexivity.
  - vm_compute. reflexivity.
  - vm_compute. reflexivity.
Qed.

(** C2 (amended): the listing is all or nothing.  When the lookup of any
    registered instance fails (its fetch fails, or it has no port in its
    parsed endpoint), the whole call is rejected and no session of any other
    instance is returned.  The rejection is the failure of one of the failed
    lookups: the port error of the first instance without a port in
    registry order when there is one, and the one failure there is when
    exactly one lookup fails.  When the call resolves, every instance
    contributed and the result is the concatenation of their rewritten
    sessions in registry order. *)
Theorem getDebuggingPages_all_or_nothing (cfg : Config) (env : Env) (w : World) :
  let run := getDebuggingPages cfg env w in
  let lookup := browserSessions cfg env (history w) in
  (forall b, In b (registered w) ->
     Js.truthy_opt (port (_parsed b)) = true ->
     env_fetchList env (history w)
       (targetsUrl (default "" (port (_parsed b)))) = None ->
     lookup b =
       Abrupt (ThrownBy (FetchJson (targetsUrl (default "" (port (_parsed b))))))) /\
  (forall b, In b (registered w) ->
     Js.truthy_opt (port (_parsed b)) = false ->
     exists msg, lookup b = Abrupt (Error msg)) /\
  (forall b x, In b (registered w) -> lookup b = Abrupt x ->
     exists b' y, In b' (registered w) /\ lookup b' = Abrupt y /\ run.1 = Abrupt y) /\
  (forall b x, In b (registered w) -> lookup b = Abrupt x ->
     (forall b' y, In b' (registered w) -> lookup b' = Abrupt y -> y = x) ->
     run.1 = Abrupt x) /\
  (forall b,
     List.find (fun b => negb (Js.truthy_opt (port (_parsed b)))) (registered w)
       = Some b ->
     run.1 = lookup b /\ exists msg, lookup b = Abrupt (Error msg)) /\
  (forall pages, run.1 = Normal pages ->
     exists per,
       Forall2 (fun b l => lookup b = Normal l) (registered w) per /\
       pages = concat per) /\
  ((forall b, In b (registered w) -> exists l, lookup b = Normal l) ->
   exists pages, run.1 = Normal pages).
Proof.
  cbv zeta.
  assert (Hport : forall b,
            Js.truthy_opt (port (_parsed b)) = false ->
            exists msg, browserSessions cfg env (history w) b = Abrupt (Error msg)).
  { intros b Hp. unfold browserSessions. rewrite Hp. simpl. now eexists. }
  split; [|split; [|split; [|split; [|split; [|split]]]]].
  - intros b _ Hp Hfetch. unfold browserSessions. now rewrite Hp, Hfetch.
  - intros b _ Hp. now apply Hport.
  - intros b x Hin Hx. now apply (getDebuggingPages_rejected cfg env w b x).
  - intros b x Hin Hx Hone.
    destruct (getDebuggingPages_rejected cfg env w b x Hin Hx)
      as (b' & y & Hin' & Hy & ->).
    f_equal. now apply (Hone b' y).
  - intros b Hfind.
    pose proof (List.find_some _ _ Hfind) as [_ Hp].
    apply negb_true_iff in Hp. destruct (Hport b Hp) as (msg & Hmsg).
    split; [|now exists msg].
    rewrite getDebuggingPages_result, Hmsg.
    now rewrite (promiseAll_atOnce _ settlesAtOnce
                   (browserSessions cfg env (history w)) (registered w) b
                   (Error msg) Hfind Hmsg).
  - intros pages Hrun.
    apply getDebuggingPages_resolved in Hrun as (results & Hc & ->).
    exists results. split; [|reflexivity].
    apply collect_Normal in Hc.
    clear -Hc. revert results Hc.
    induction (registered w) as [|b l IH]; intros results E;
      inversion E; subst; constructor; auto.
  - intros Hall.
    assert (E : exists results,
              collect (map (browserSessions cfg env (history w)) (registered w))
              = Normal results).
    { induction (registered w) as [|b l IH]; simpl.
      - now exists [].
      - destruct (Hall b) as (r & ->); [now left|].
        destruct IH as (rs & ->); [intros b' Hb'; apply Hall; now right|].
        now eexists. }
    destruct E as (results & Hc). exists (concat results).
    apply getDebuggingPages_resolved. now exists results.
Qed.

Lemma getDebuggingPages_all_or_nothing_witness :
  In (Sample.browserAt "9333" "b2") (registered Sample.world2) /\
  (getDebuggingPages Sample.cfg (Sample.env Sample.nothingFails)
     Sample.world2).1
  = Abrupt (ThrownBy (FetchJson "http://127.0.0.1:9333/json/list")).
Proof.
  assert (Hreg : registered Sample.world2 =
                 [Sample.browserAt "9222" "b1"; Sample.browserAt "9333" "b2"])
    by (vm_compute; reflexivity).
  assert (Hin : In (Sample.browserAt "9333" "b2") (registered Sample.world2))
    by (rewrite Hreg; right; left; reflexivity).
  assert (Hok : exists l,
            browserSessions Sample.cfg (Sample.env Sample.nothingFails) []
              (Sample.browserAt "9222" "b1") = Normal l)
    by (vm_compute; now eexists).
  destruct (getDebuggingPages_all_or_nothing Sample.cfg
              (Sample.env Sample.nothingFails) Sample.world2)
    as (Hfetch & _ & _ & Hone & _).
  split; [exact Hin|].
  apply (Hone (Sample.browserAt "9333" "b2") _ Hin).
  - apply (Hfetch _ Hin); vm_compute; reflexivity.
  - intros b' y Hin' Hy. rewrite Hreg in Hin'.
    destruct Hin' as [<-|[<-|[]]].
    + destruct Hok as (l & Hl).
      change (history Sample.world2) with (@nil Effect) in Hy.
      rewrite Hl in Hy. discriminate Hy.
    + change (history Sample.world2) with (@nil Effect) in Hy.
      vm_compute in Hy. now injection Hy as <-.
Defined.

(** ** Rewritten sessions *)

(** An endpoint that names a host and no path is parsed with the path [/],
    so its last segment, the identifier of the instance, is empty. *)
Lemma endpoint_without_path :
  pathname (NodeUrl.parse "ws://127.0.0.1:9222") = Some "/" /\
  Js.pop (Js.split "/" "/") = Some "".
Proof. split; reflexivity. Qed.

(** C9, as stated, fails: a target whose devtools-frontend URL carries a
    further query parameter and a fragment is rewritten to the same session
    as the target without them; the rewritten URL holds the path and the
    WebSocket-location parameter only. *)
Lemma frontend_query_replaced_whole :
  let env := Sample.env Sample.nothingFails in
  let b := Sample.browserAt "9222" "b1" in
  let extra := Sample.target "A" "&remoteFrontend=true#elements" in
  extra !! "devtoolsFrontendUrl" =
    Some (JString "/devtools/inspector.html?ws=127.0.0.1:9222/devtools/page/A&remoteFrontend=true#elements") /\
  rewrittenField "devtoolsFrontendUrl" (rewriteSession Sample.cfg env b "9222" extra) =
    Some (JString "/devtools/inspector.html?wss=chrome.example.com/devtools/page/A") /\
  rewrittenField "webSocketDebuggerUrl" (rewriteSession Sample.cfg env b "9222" extra) =
    Some (JString "wss://chrome.example.com/devtools/page/A").
Proof.
  cbv zeta. split; [vm_compute; reflexivity|].
  split; vm_compute; reflexivity.
Qed.

(** C9 (amended): a rewritten session keeps every field of the source
    descriptor except [webSocketDebuggerUrl] and [devtoolsFrontendUrl]
    (and sets [browserId], [browserWSEndpoint], [port] and [trackingId]
    from the owning instance).  [webSocketDebuggerUrl] is formatted from
    the source URL with only host and protocol (and the slashes flag)
    replaced.  [devtoolsFrontendUrl] is formatted from the source URL's
    path and a query string that consists of the WebSocket-location
    parameter alone: any other query parameter and any fragment of the
    source are not carried over. *)
Theorem rewriteSession_frame (cfg : Config) (env : Env) (browser : IBrowser)
    (port_ : string) (session out : IJSONList) :
  rewriteSession cfg env browser port_ session = Normal out ->
  (forall k, ~ In k rewrittenKeys -> out !! k = session !! k) /\
  (exists ws front,
     session !! "webSocketDebuggerUrl" = Some (JString ws) /\
     session !! "devtoolsFrontendUrl" = Some (JString front) /\
     (exists u',
        out !! "webSocketDebuggerUrl" = Some (JString (url_format env u')) /\
        host u' = Some (externalHost cfg) /\
        protocol u' = Some (externalProtocol cfg) /\
        sameButHostProtocol (url_parse env ws) u') /\
     (exists f,
        out !! "devtoolsFrontendUrl" = Some (JString (url_format env f)) /\
        pathname f = pathname (url_parse env front) /\
        search f = Some ("?" +:+ externalProtocol cfg +:+ "=" +:+ externalHost cfg +:+
                         default "null" (path (url_parse env ws))) /\
        pathAndSearchOnly f)) /\
  out !! "browserId" = Some (JString (_id browser)) /\
  out !! "port" = Some (JString port_) /\
  out !! "trackingId" = Some (jsOfOption (_trackingId browser)) /\
  (exists e',
     out !! "browserWSEndpoint" = Some (JString (url_format env e')) /\
     host e' = Some (externalHost cfg) /\
     protocol e' = Some (externalProtocol cfg) /\
     sameButHostProtocol (url_parse env (_wsEndpoint browser)) e').
Proof.
  unfold rewriteSession, parseField. intros Hrun.
  destruct (session !! "webSocketDebuggerUrl") as [[ws| | |]|] eqn:Hws;
    try discriminate Hrun.
  destruct (session !! "devtoolsFrontendUrl") as [[front| | |]|] eqn:Hfront;
    try discriminate Hrun.
  injection Hrun as <-.
  split; [|split; [|split; [|split; [|split]]]].
  - intros k Hk. unfold rewrittenKeys in Hk. simpl in Hk.
    rewrite !lookup_insert_ne; [reflexivity|..]; intros <-; apply Hk; tauto.
  - exists ws, front. split; [reflexivity|]. split; [reflexivity|]. split.
    + eexists. split; [now simplify_map_eq|].
      split; [reflexivity|]. split; [reflexivity|]. repeat split.
    + eexists. split; [now simplify_map_eq|].
      split; [reflexivity|]. split; [reflexivity|]. repeat split.
  - now simplify_map_eq.
  - now simplify_map_eq.
  - now simplify_map_eq.
  - eexists. split; [now simplify_map_eq|].
    split; [reflexivity|]. split; [reflexivity|]. repeat split.
Qed.

Lemma rewriteSession_frame_witness :
  rewriteSession Sample.cfg (Sample.env Sample.nothingFails)
    (Sample.browserAt "9222" "b1") "9222" (Sample.target "A" "")
    = Normal Sample.rewritten /\
  Sample.rewritten !! "title" = Sample.target "A" "" !! "title" /\
  Sample.rewritten !! "id" = Sample.target "A" "" !! "id" /\
  Sample.rewritten !! "url" = Sample.target "A" "" !! "url" /\
  Sample.rewritten !! "port" = Some (JString "9222").
Proof.
  assert (Hws : Sample.target "A" "" !! "webSocketDebuggerUrl" =
                Some (JString "ws://127.0.0.1:9222/devtools/page/A"))
    by (vm_compute; reflexivity).
  assert (Hfront : Sample.target "A" "" !! "devtoolsFrontendUrl" =
                   Some (JString "/devtools/inspector.html?ws=127.0.0.1:9222/devtools/page/A"))
    by (vm_compute; reflexivity).
  assert (E : rewriteSession Sample.cfg (Sample.env Sample.nothingFails)
                (Sample.browserAt "9222" "b1") "9222" (Sample.target "A" "")
              = Normal Sample.rewritten).
  { unfold rewriteSession, parseField. rewrite Hws, Hfront.
    unfold Sample.rewritten.
    repeat (f_equal; try (vm_compute; reflexivity)). }
  destruct (rewriteSession_frame _ _ _ _ _ _ E) as (Hframe & _ & _ & Hport & _).
  assert (Hk : forall k, (if bool_decide (k ∈ rewrittenKeys) then False else True) ->
                         ~ In k rewrittenKeys).
  { intros k Hd Hin. apply list_elem_of_In in Hin.
    now rewrite bool_decide_eq_true_2 in Hd. }
  split; [exact E|].
  split; [apply Hframe, Hk; vm_compute; exact I|].
  split; [apply Hframe, Hk; vm_compute; exact I|].
  split; [apply Hframe, Hk; vm_compute; exact I|exact Hport].
Defined.


(** * Further properties *)

(** ** networkBlock *)

Lemma split_without_sep (c : ascii) (a : string) :
  ~ In c (list_ascii_of_string a) -> Js.split c a = [a].
Proof.
  induction a as [|x a IH]; simpl; intros Hc; [reflexivity|].
  destruct (Ascii.eqb_spec x c) as [->|Hne]; [tauto|].
  rewrite IH by tauto. reflexivity.
Qed.

Lemma split_at_sep (c : ascii) (a b : string) :
  ~ In c (list_ascii_of_string a) ->
  Js.split c (a +:+ String c b) = a :: Js.split c b.
Proof.
  induction a as [|x a IH]; simpl; intros Hc.
  - now rewrite Ascii.eqb_refl.
  - destruct (Ascii.eqb_spec x c) as [->|Hne]; [tauto|].
    rewrite IH by tauto. reflexivity.
Qed.

Lemma split_length (c : ascii) (s : string) :
  length (Js.split c s) = S (count_occ ascii_dec (list_ascii_of_string s) c).
Proof.
  induction s as [|x s IH]; simpl; [reflexivity|].
  destruct (Ascii.eqb_spec x c) as [->|Hne].
  - destruct (ascii_dec c c); [|contradiction]. simpl. now rewrite IH.
  - destruct (ascii_dec x c); [contradiction|].
    destruct (Js.split c s) eqn:E; simpl in *; [discriminate IH|exact IH].
Qed.

(** X1: for a URL of the shape [scheme//host/rest] or [scheme//host], where
    neither the scheme part nor the host part holds a slash, the request
    filter aborts the request exactly when the host part, taken verbatim
    (with any port or user information in it), is in the block list. *)
Theorem networkBlock_by_host (blacklist : list string) (scheme host rest : string) :
  ~ In "/"%char (list_ascii_of_string scheme) ->
  ~ In "/"%char (list_ascii_of_string host) ->
  let verdict :=
    if bool_decide (host ∈ blacklist) then RequestAbort else RequestContinue in
  networkBlock blacklist (scheme +:+ "//" +:+ host +:+ "/" +:+ rest) = verdict /\
  networkBlock blacklist (scheme +:+ "//" +:+ host) = verdict.
Proof.
  intros Hs Hh. cbv zeta. unfold networkBlock, requestDomain. cbv zeta.
  change (scheme +:+ "//" +:+ host +:+ "/" +:+ rest)
    with (scheme +:+ String "/" ("" +:+ String "/" (host +:+ String "/" rest))).
  change (scheme +:+ "//" +:+ host)
    with (scheme +:+ String "/" ("" +:+ String "/" host)).
  rewrite !split_at_sep by (simpl; tauto).
  rewrite (split_without_sep "/" host Hh).
  pose proof (split_not_nil "/" rest) as Hrest.
  destruct (Js.split "/" rest) as [|t ts]; [contradiction|].
  split; reflexivity.
Qed.

Lemma networkBlock_by_host_witness :
  networkBlock ["ads.example.com"] "https://ads.example.com/banner.js" = RequestAbort /\
  networkBlock ["ads.example.com"] "https://ads.example.com:8443/banner.js"
    = RequestContinue.
Proof.
  split.
  - apply (networkBlock_by_host ["ads.example.com"] "https:" "ads.example.com"
             "banner.js"); simpl; intuition discriminate.
  - apply (networkBlock_by_host ["ads.example.com"] "https:" "ads.example.com:8443"
             "banner.js"); simpl; intuition discriminate.
Defined.

(** X2: a URL with fewer than two slashes has no domain fragment, and the
    request filter lets it continue whatever the block list holds. *)
Theorem networkBlock_without_domain (blacklist : list string) (url : string) :
  (count_occ ascii_dec (list_ascii_of_string url) "/"%char < 2)%nat ->
  networkBlock blacklist url = RequestContinue.
Proof.
  intros Hc. unfold networkBlock, requestDomain. cbv zeta.
  rewrite split_length.
  destruct (Nat.ltb_spec 2 (S (count_occ ascii_dec (list_ascii_of_string url) "/"%char)));
    [lia|reflexivity].
Qed.

Lemma networkBlock_without_domain_witness :
  networkBlock ["text"; "html,x"; "data:text"] "data:text/html,x" = RequestContinue.
Proof.
  apply networkBlock_without_domain. vm_compute. lia.
Defined.

(** ** Teardown *)

Lemma filter_sublist_of {A} (f : A -> bool) (l : list A) :
  sublist (List.filter f l) l.
Proof.
  induction l as [|a l IH]; simpl; [constructor|].
  destruct (f a); now constructor.
Qed.

Lemma set_isOpen_closed (b : IBrowser) : _isOpen b = false -> set_isOpen false b = b.
Proof. destruct b. simpl. now intros ->. Qed.

Lemma sameEndpoint_after_mark (w : World) (browser : BrowserRef) (b : IBrowser)
    (ws : string) (r : BrowserRef) :
  browsers w !! browser = Some b ->
  sameEndpoint (set_browsers (insert browser (set_isOpen false b)) w) ws r =
  sameEndpoint w ws r.
Proof.
  intros Hb. unfold sameEndpoint. simpl.
  destruct (decide (browser = r)) as [->|Hne].
  - now rewrite lookup_insert_eq, Hb.
  - now rewrite lookup_insert_ne.
Qed.

Lemma withoutEndpoint_after_mark (w : World) (browser : BrowserRef) (b : IBrowser) :
  browsers w !! browser = Some b ->
  withoutEndpoint (set_browsers (insert browser (set_isOpen false b)) w) b =
  List.filter (fun r => negb (sameEndpoint w (_wsEndpoint b) r)) (runningBrowsers w).
Proof.
  intros Hb. unfold withoutEndpoint. simpl.
  apply List.filter_ext. intros r. now rewrite sameEndpoint_after_mark.
Qed.

Lemma closeBrowser_nextRef (env : Env) (browser : BrowserRef) (w : World) :
  nextRef (closeBrowser env browser w).2 = nextRef w.
Proof.
  unfold closeBrowser.
  destruct (browsers w !! browser) as [b|]; [|reflexivity].
  destruct (_isOpen b); [|reflexivity]. simpl.
  unfold unawaited, bind, try_catch, when, debug, emit, perform, modify, ret, seen.
  simpl.
  destruct (_keepaliveTimeout b);
    destruct (Js.truthy_opt (_browserlessDataDir b)); simpl.
  all: repeat match goal with
       | |- context [env_throws ?v ?h ?e] => destruct (env_throws v h e); simpl
       end.
  all: reflexivity.
Qed.

Lemma closeBrowser_quiet (env : Env) (browser : BrowserRef) (w : World)
    (b : IBrowser) :
  browsers w !! browser = Some b -> _isOpen b = true -> quiet env ->
  exists w1,
    closeBrowser env browser w = (Normal tt, w1) /\
    browsers w1 = <[browser := set_isOpen false b]> (browsers w) /\
    runningBrowsers w1 =
      List.filter (fun r => negb (sameEndpoint w (_wsEndpoint b) r))
        (runningBrowsers w) /\
    childExitListeners w1 = childExitListeners w /\
    hostExitListeners w1 = [] /\
    history w1 = history w ++ teardownStart b ++
                 [BrowserClose browser; RemoveAllListeners "exit"].
Proof.
  intros Hb Ho Hq.
  destruct (closeBrowser_open env browser w b Hb Ho)
    as (w1 & Hrun & Hbs & Hcl & _ & _ & Hout & Hquiet).
  specialize (Hquiet (quiet_cleanupNeverThrows env Hq)). exists w1.
  split; [exact Hrun|]. split; [exact Hbs|].
  destruct Hout as [_ Hh _ _|Hh _ _|_ Hr Hhost].
  - rewrite Hh in Hquiet. do 2 apply app_inv_head in Hquiet. discriminate Hquiet.
  - rewrite Hh in Hquiet. do 2 apply app_inv_head in Hquiet. discriminate Hquiet.
  - rewrite Hr, (withoutEndpoint_after_mark w browser b Hb). repeat split; assumption.
Qed.

(** What a teardown leaves as it was. *)
Lemma closeBrowser_frame (env : Env) (browser : BrowserRef) (w : World) :
  let run := closeBrowser env browser w in
  run.1 = Normal tt /\
  browsers run.2 !! browser = set_isOpen false <$> browsers w !! browser /\
  (forall r, r <> browser -> browsers run.2 !! r = browsers w !! r) /\
  sublist (runningBrowsers run.2) (runningBrowsers w) /\
  childExitListeners run.2 = childExitListeners w /\
  targetListeners run.2 = targetListeners w /\
  nextRef run.2 = nextRef w.
Proof.
  cbv zeta.
  split; [|split; [|split; [|split; [|split; [|split]]]]];
    try apply closeBrowser_nextRef.
  all: destruct (browsers w !! browser) as [b|] eqn:Hb;
    [destruct (_isOpen b) eqn:Ho|].
  all: try (rewrite (closeBrowser_closed env browser w b Hb Ho); simpl;
            rewrite ?Hb; simpl; rewrite ?set_isOpen_closed by exact Ho;
            solve [reflexivity|auto]).
  all: try (unfold closeBrowser; rewrite Hb; simpl; rewrite ?Hb;
            solve [reflexivity|auto]).
  all: destruct (closeBrowser_open env browser w b Hb Ho)
         as (w1 & Hrun & Hbs & Hcl & Htl & _ & Hout & _);
       rewrite Hrun; simpl; try assumption; try reflexivity.
  - rewrite Hbs. apply lookup_insert_eq.
  - intros r Hr. rewrite Hbs. now apply lookup_insert_ne.
  - destruct Hout as [_ _ Hr _|_ Hr _|_ Hr _]; rewrite Hr;
      [reflexivity|apply filter_sublist_of..].
Qed.

(** X3: [closeBrowser] always completes normally, whatever raises inside
    it.  In the heap it changes nothing but the open mark of the instance it
    is given; the registry afterwards is a sub-sequence of the registry
    before (nothing is added or reordered), and the listeners on browser
    processes, the target listeners and the reference counter are as they
    were. *)
Theorem closeBrowser_always_completes (env : Env) (browser : BrowserRef) (w : World) :
  let run := closeBrowser env browser w in
  run.1 = Normal tt /\
  browsers run.2 !! browser = set_isOpen false <$> browsers w !! browser /\
  (forall r, r <> browser -> browsers run.2 !! r = browsers w !! r) /\
  sublist (runningBrowsers run.2) (runningBrowsers w) /\
  childExitListeners run.2 = childExitListeners w /\
  targetListeners run.2 = targetListeners w /\
  nextRef run.2 = nextRef w.
Proof. exact (closeBrowser_frame env browser w). Qed.


(** X4: what a failing removal of the data directory does to a teardown
    depends on how it fails.  When the call throws, the teardown stops
    there: the instance is already marked closed, but it is still in the
    registry, its connection was not closed and the host listeners were not
    removed; since the mark makes every later [closeBrowser] on it return at
    once, no later teardown of this instance takes it out of the registry.
    When the call returns and its promise is rejected later, the teardown
    does not notice: if closing the connection does not throw, it runs to
    its end as if nothing had failed, and the rejection stays unhandled. *)
Theorem closeBrowser_removal_fails (env env' : Env) (browser : BrowserRef)
    (w : World) (b : IBrowser) (dir : string) :
  browsers w !! browser = Some b ->
  _isOpen b = true ->
  _browserlessDataDir b = Some dir ->
  dir <> "" ->
  let w1 := (closeBrowser env browser w).2 in
  ((forall h, env_throws env h (Rimraf dir) = true) ->
   isOpenAt w1 browser = false /\
   runningBrowsers w1 = runningBrowsers w /\
   hostExitListeners w1 = hostExitListeners w /\
   unhandledRejections w1 = unhandledRejections w /\
   history w1 = history w ++ teardownStart b ++
                [Debug "Browser close emitted an error"] /\
   ~ In (BrowserClose browser) (teardownStart b) /\
   closeBrowser env' browser w1 = (Normal tt, w1)) /\
  ((forall h, env_throws env h (Rimraf dir) = false) ->
   (forall h, env_throws env h (Rejection (Rimraf dir)) = true) ->
   (forall h, env_throws env h (BrowserClose browser) = false) ->
   isOpenAt w1 browser = false /\
   runningBrowsers w1 =
     List.filter (fun r => negb (sameEndpoint w (_wsEndpoint b) r))
       (runningBrowsers w) /\
   ~ In browser (runningBrowsers w1) /\
   hostExitListeners w1 = [] /\
   In (ThrownBy (Rimraf dir)) (unhandledRejections w1) /\
   history w1 = history w ++ teardownStart b ++
                [BrowserClose browser; RemoveAllListeners "exit"]).
Proof.
  intros Hb Ho Hd Hne. cbv zeta.
  assert (Htruthy : Js.truthy_opt (_browserlessDataDir b) = true).
  { rewrite Hd. unfold Js.truthy_opt, Js.truthy.
    now destruct (String.eqb_spec dir ""). }
  split.
  - intros Hthrow.
    assert (Hrun : exists w1,
              closeBrowser env browser w = (Normal tt, w1) /\
              browsers w1 = <[browser := set_isOpen false b]> (browsers w) /\
              runningBrowsers w1 = runningBrowsers w /\
              hostExitListeners w1 = hostExitListeners w /\
              unhandledRejections w1 = unhandledRejections w /\
              history w1 = history w ++ teardownStart b ++
                           [Debug "Browser close emitted an error"]).
    { unfold closeBrowser. rewrite Hb, Ho. simpl.
      unfold unawaited, bind, try_catch, when, debug, emit, perform, modify,
        ret, seen. simpl.
      unfold teardownStart, timerEffects, dirEffects.
      rewrite Htruthy, Hd. simpl.
      destruct (_keepaliveTimeout b); simpl; rewrite Hthrow; simpl;
        eexists; (split; [reflexivity|]); simpl;
        repeat (split; [reflexivity|]); rewrite <- ?app_assoc; reflexivity. }
    destruct Hrun as (w1 & -> & Hbs & Hr & Hl & Hu & Hh). simpl.
    assert (Hb1 : browsers w1 !! browser = Some (set_isOpen false b))
      by (rewrite Hbs; apply lookup_insert_eq).
    split; [unfold isOpenAt; now rewrite Hb1|].
    split; [exact Hr|]. split; [exact Hl|]. split; [exact Hu|].
    split; [exact Hh|]. split.
    + unfold teardownStart, timerEffects, dirEffects.
      destruct (_keepaliveTimeout b), (Js.truthy_opt (_browserlessDataDir b));
        simpl; intuition discriminate.
    + apply (closeBrowser_closed env' browser w1 _ Hb1). reflexivity.
  - intros Hreturns Hrejected Hclose.
    assert (Hrun : exists w1,
              closeBrowser env browser w = (Normal tt, w1) /\
              browsers w1 = <[browser := set_isOpen false b]> (browsers w) /\
              runningBrowsers w1 =
                withoutEndpoint
                  (set_browsers (insert browser (set_isOpen false b)) w) b /\
              hostExitListeners w1 = [] /\
              In (ThrownBy (Rimraf dir)) (unhandledRejections w1) /\
              history w1 = history w ++ teardownStart b ++
                           [BrowserClose browser; RemoveAllListeners "exit"]).
    { unfold closeBrowser. rewrite Hb, Ho. simpl.
      unfold unawaited, bind, try_catch, when, debug, emit, perform, modify,
        ret, seen. simpl.
      unfold teardownStart, timerEffects, dirEffects, withoutEndpoint.
      rewrite Htruthy, Hd. simpl.
      destruct (_keepaliveTimeout b); simpl;
        rewrite Hreturns, Hrejected; simpl; rewrite Hclose; simpl;
        match goal with
        | |- context [env_throws ?v ?h ?e] => destruct (env_throws v h e); simpl
        end;
        eexists; (split; [reflexivity|]); simpl;
        (split; [reflexivity|]); (split; [reflexivity|]); (split; [reflexivity|]);
        (split; [rewrite !in_app_iff; simpl; tauto|]);
        rewrite <- ?app_assoc; reflexivity. }
    destruct Hrun as (w1 & -> & Hbs & Hr & Hl & Hu & Hh). simpl.
    split; [unfold isOpenAt; now rewrite Hbs, lookup_insert_eq|].
    split; [now rewrite Hr, (withoutEndpoint_after_mark w browser b Hb)|].
    split; [rewrite Hr; apply closed_instance_left_registry|].
    split; [exact Hl|]. split; [exact Hu|exact Hh].
Qed.

Lemma closeBrowser_removal_fails_witness :
  let thrown := (closeBrowser (Sample.env Scenario.rimrafFails) 0 Sample.launched).2 in
  let rejected :=
    (closeBrowser (Sample.env Scenario.rimrafRejected) 0 Sample.launched).2 in
  runningBrowsers Sample.launched = [0] /\
  (isOpenAt thrown 0 = false /\
   runningBrowsers thrown = runningBrowsers Sample.launched /\
   closeBrowser (Sample.env Sample.nothingFails) 0 thrown = (Normal tt, thrown)) /\
  (isOpenAt rejected 0 = false /\
   ~ In 0 (runningBrowsers rejected) /\
   In (ThrownBy (Rimraf "/tmp/browserless-data-dir-1"))
      (unhandledRejections rejected)).
Proof.
  assert (Hb : browsers Sample.launched !! 0 =
               Some (Sample.instance true "/tmp/browserless-data-dir-1"))
    by (vm_compute; reflexivity).
  assert (Hreg : runningBrowsers Sample.launched = [0])
    by (vm_compute; reflexivity).
  destruct (closeBrowser_removal_fails (Sample.env Scenario.rimrafFails)
              (Sample.env Sample.nothingFails) 0 Sample.launched _
              "/tmp/browserless-data-dir-1" Hb eq_refl eq_refl
              ltac:(discriminate)) as (Hthrown & _).
  destruct (closeBrowser_removal_fails (Sample.env Scenario.rimrafRejected)
              (Sample.env Sample.nothingFails) 0 Sample.launched _
              "/tmp/browserless-data-dir-1" Hb eq_refl eq_refl
              ltac:(discriminate)) as (_ & Hrejected).
  destruct (Hthrown (fun h => eq_refl)) as (Hclosed & Hkept & _ & _ & _ & _ & Hagain).
  destruct (Hrejected (fun h => eq_refl) (fun h => eq_refl) (fun h => eq_refl))
    as (Hclosed' & _ & Hgone & _ & Hleft & _).
  exact (conj Hreg (conj (conj Hclosed (conj Hkept Hagain))
                         (conj Hclosed' (conj Hgone Hleft)))).
Defined.

(** X5: under quiet conditions, closing an instance takes out of the
    registry every instance whose endpoint equals its own, in place and
    keeping the order of the others; an instance that shares the endpoint is
    dropped from the registry too, although it is not torn down and stays
    marked open. *)
Theorem closeBrowser_drops_by_endpoint (env : Env) (browser other : BrowserRef)
    (w : World) (b b' : IBrowser) :
  quiet env ->
  browsers w !! browser = Some b ->
  _isOpen b = true ->
  other <> browser ->
  browsers w !! other = Some b' ->
  _isOpen b' = true ->
  let w1 := (closeBrowser env browser w).2 in
  runningBrowsers w1 =
    List.filter (fun r => negb (sameEndpoint w (_wsEndpoint b) r))
      (runningBrowsers w) /\
  ~ In browser (runningBrowsers w1) /\
  (_wsEndpoint b' = _wsEndpoint b ->
   ~ In other (runningBrowsers w1) /\ isOpenAt w1 other = true) /\
  (_wsEndpoint b' <> _wsEndpoint b ->
   (In other (runningBrowsers w1) <-> In other (runningBrowsers w))).
Proof.
  intros Hq Hb Ho Hne Hb' Ho'. cbv zeta.
  destruct (closeBrowser_quiet env browser w b Hb Ho Hq)
    as (w1 & -> & Hbs & Hr & _). simpl.
  split; [exact Hr|]. rewrite Hr.
  split; [|split].
  - intros Hin. apply List.filter_In in Hin as [_ Hk].
    unfold sameEndpoint in Hk. rewrite Hb, String.eqb_refl in Hk. discriminate Hk.
  - intros Hsame. split.
    + intros Hin. apply List.filter_In in Hin as [_ Hk].
      unfold sameEndpoint in Hk. rewrite Hb', Hsame, String.eqb_refl in Hk.
      discriminate Hk.
    + unfold isOpenAt. rewrite Hbs, lookup_insert_ne by congruence.
      now rewrite Hb'.
  - intros Hdiff. rewrite List.filter_In. unfold sameEndpoint. rewrite Hb'.
    destruct (String.eqb_spec (_wsEndpoint b') (_wsEndpoint b)); [contradiction|].
    simpl. tauto.
Qed.

Lemma closeBrowser_drops_by_endpoint_witness :
  let w1 := (closeBrowser (Sample.env Sample.nothingFails) 0 Scenario.world3).2 in
  runningBrowsers Scenario.world3 = [0; 1; 2] /\
  ~ In 1 (runningBrowsers w1) /\ isOpenAt w1 1 = true /\
  In 2 (runningBrowsers w1).
Proof.
  assert (Hq : quiet (Sample.env Sample.nothingFails))
    by (intros h e; reflexivity).
  assert (H0 : browsers Scenario.world3 !! 0 = Some (Sample.browserAt "9222" "b1"))
    by (vm_compute; reflexivity).
  assert (H1 : browsers Scenario.world3 !! 1 = Some (Sample.browserAt "9222" "b1"))
    by (vm_compute; reflexivity).
  assert (H2 : browsers Scenario.world3 !! 2 = Some (Sample.browserAt "9333" "b2"))
    by (vm_compute; reflexivity).
  destruct (closeBrowser_drops_by_endpoint (Sample.env Sample.nothingFails) 0 1
              Scenario.world3 _ _ Hq H0 eq_refl ltac:(discriminate) H1 eq_refl)
    as (_ & _ & Hshared & _).
  destruct (closeBrowser_drops_by_endpoint (Sample.env Sample.nothingFails) 0 2
              Scenario.world3 _ _ Hq H0 eq_refl ltac:(discriminate) H2 eq_refl)
    as (_ & _ & _ & Hother).
  destruct (Hshared eq_refl) as (Hgone & Hopen).
  split; [reflexivity|]. split; [exact Hgone|]. split; [exact Hopen|].
  apply Hother; [vm_compute; discriminate|].
  simpl. tauto.
Defined.

(** ** kill and killAll *)

Lemma find_none_all {A} (f : A -> bool) (l : list A) :
  (forall x, In x l -> f x = false) -> List.find f l = None.
Proof.
  induction l as [|a l IH]; simpl; intros H; [reflexivity|].
  rewrite (H a) by now left. apply IH. intros x Hx. apply H. now right.
Qed.

(** No registered instance carries [id]. *)
Lemma kill_none (env : Env) (id : string) (w : World) :
  (forall r, In r (runningBrowsers w) -> hasId w id r = false) ->
  kill env id w = (Normal false, w).
Proof.
  intros Hnone. unfold kill, bind, get. simpl.
  now rewrite (find_none_all _ _ Hnone).
Qed.

(** X6: [kill] with an identifier that no registered instance carries
    changes nothing, calls nothing and gives the null result. *)
Theorem kill_unknown (env : Env) (id : string) (w : World) :
  (forall r, In r (runningBrowsers w) -> hasId w id r = false) ->
  kill env id w = (Normal false, w).
Proof. exact (kill_none env id w). Qed.


Lemma kill_unknown_witness :
  kill (Sample.env Sample.nothingFails) "b7" Sample.launched
    = (Normal false, Sample.launched).
Proof.
  apply kill_unknown.
  replace (runningBrowsers Sample.launched) with [0] by (vm_compute; reflexivity).
  intros r [<-|[]]. vm_compute. reflexivity.
Defined.

(** X7: under quiet conditions, [kill] with the identifier of a registered
    open instance tears down the first registered instance carrying it: the
    result is not null, that instance is marked closed and is no longer
    registered, no other object in the heap changes, and the registered
    instances at other endpoints stay registered in their order. *)
Theorem kill_registered (env : Env) (id : string) (w : World)
    (browser : BrowserRef) (b : IBrowser) :
  quiet env ->
  List.find (hasId w id) (runningBrowsers w) = Some browser ->
  browsers w !! browser = Some b ->
  _isOpen b = true ->
  let run := kill env id w in
  run.1 = Normal true /\
  _id b = id /\
  isOpenAt run.2 browser = false /\
  ~ In browser (runningBrowsers run.2) /\
  runningBrowsers run.2 =
    List.filter (fun r => negb (sameEndpoint w (_wsEndpoint b) r))
      (runningBrowsers w) /\
  (forall r, r <> browser -> browsers run.2 !! r = browsers w !! r).
Proof.
  intros Hq Hfind Hb Ho. cbv zeta.
  unfold kill, bind, get. simpl. rewrite Hfind.
  destruct (closeBrowser_quiet env browser w b Hb Ho Hq)
    as (w1 & -> & Hbs & Hr & _). simpl.
  split; [reflexivity|]. split.
  - apply List.find_some in Hfind as [_ Hid].
    unfold hasId in Hid. rewrite Hb in Hid. now apply String.eqb_eq.
  - split; [unfold isOpenAt; now rewrite Hbs, lookup_insert_eq|].
    split; [|split; [exact Hr|]].
    + rewrite Hr. intros Hin. apply List.filter_In in Hin as [_ Hk].
      unfold sameEndpoint in Hk. rewrite Hb, String.eqb_refl in Hk.
      discriminate Hk.
    + intros r Hne. rewrite Hbs. now apply lookup_insert_ne.
Qed.

Lemma kill_registered_witness :
  let run := kill (Sample.env Sample.nothingFails) "b1" Sample.launched in
  run.1 = Normal true /\ isOpenAt run.2 0 = false /\ ~ In 0 (runningBrowsers run.2).
Proof.
  assert (Hq : quiet (Sample.env Sample.nothingFails))
    by (intros h e; reflexivity).
  assert (Hb : browsers Sample.launched !! 0 =
               Some (Sample.instance true "/tmp/browserless-data-dir-1"))
    by (vm_compute; reflexivity).
  assert (Hf : List.find (hasId Sample.launched "b1")
                 (runningBrowsers Sample.launched) = Some 0)
    by (vm_compute; reflexivity).
  destruct (kill_registered (Sample.env Sample.nothingFails) "b1" Sample.launched
              0 _ Hq Hf Hb eq_refl) as (H1 & _ & H2 & H3 & _).
  exact (conj H1 (conj H2 H3)).
Defined.

Lemma forEach_closeBrowser (env : Env) (l : list BrowserRef) (w : World) :
  exists w',
    forEach l (closeBrowser env) w = (Normal tt, w') /\
    (forall r, In r l -> isOpenAt w' r = false) /\
    (forall r, isOpenAt w r = false -> isOpenAt w' r = false) /\
    childExitListeners w' = childExitListeners w.
Proof.
  revert w. induction l as [|a l IH]; intros w; simpl.
  - exists w. repeat split; auto. intros r [].
  - unfold bind.
    destruct (closeBrowser_frame env a w)
      as (Hn & Ha & Hother & _ & Hcl & _).
    destruct (closeBrowser env a w) as [c w1]. simpl in *. subst c.
    assert (Hclosed : isOpenAt w1 a = false).
    { unfold isOpenAt. rewrite Ha. now destruct (browsers w !! a). }
    assert (Hkeep : forall r, isOpenAt w r = false -> isOpenAt w1 r = false).
    { intros r Hr. destruct (decide (r = a)) as [->|Hne]; [exact Hclosed|].
      unfold isOpenAt in *. now rewrite Hother. }
    destruct (IH w1) as (w' & -> & Hall & Hmono & Hcl').
    exists w'. split; [reflexivity|]. split; [|split].
    + intros r [<-|Hin]; [now apply Hmono|now apply Hall].
    + intros r Hr. now apply Hmono, Hkeep.
    + congruence.
Qed.

(** X8: [killAll] always completes normally, whatever raises during the
    teardowns; afterwards the registry is empty, every instance that was
    registered is marked closed, and no instance that was closed before has
    been reopened. *)
Theorem killAll_empties_registry (env : Env) (w : World) :
  let run := killAll env w in
  run.1 = Normal tt /\
  runningBrowsers run.2 = [] /\
  getBrowsersRunning run.2 = 0 /\
  (forall r, In r (runningBrowsers w) -> isOpenAt run.2 r = false) /\
  (forall r, isOpenAt w r = false -> isOpenAt run.2 r = false).
Proof.
  cbv zeta. unfold killAll, bind, get. simpl.
  destruct (forEach_closeBrowser env (runningBrowsers w) w)
    as (w' & -> & Hall & Hmono & _).
  unfold modify, getBrowsersRunning. simpl. repeat split; auto.
Qed.

(** ** Exit of the owned process *)

(** The exit of a process with one listening open instance. *)
Lemma processExit_run (env : Env) (pid : ProcessId) (w : World)
    (browser : BrowserRef) (b : IBrowser) :
  quiet env ->
  childExitListeners w !! pid = Some [browser] ->
  browsers w !! browser = Some b ->
  _isOpen b = true ->
  let run := processExit env pid w in
  run.1 = Normal tt /\
  isOpenAt run.2 browser = false /\
  ~ In browser (runningBrowsers run.2) /\
  childExitListeners run.2 !! pid = None /\
  hostExitListeners run.2 = [] /\
  unhandledRejections run.2 = unhandledRejections w /\
  history run.2 =
    history w ++ [Debug "Browser process exited, cleaning up"] ++
    teardownStart b ++ [BrowserClose browser; RemoveAllListeners "exit"].
Proof.
  intros Hq Hl Hb Ho. cbv zeta.
  unfold processExit, bind, get, modify. simpl. rewrite Hl. simpl.
  unfold bind, debug, emit, modify, detached. simpl.
  match goal with
  | |- context [closeBrowser env browser ?w0] =>
      destruct (closeBrowser_open env browser w0 b Hb Ho)
        as (w1 & Hrun & _ & _ & _ & Hun & _);
      destruct (closeBrowser_quiet env browser w0 b Hb Ho Hq)
        as (w1' & Hrun' & Hbs & Hr & Hcl & Hhost & Hh)
  end.
  rewrite Hrun in Hrun'. injection Hrun' as <-. rewrite Hrun. simpl.
  split; [reflexivity|].
  split; [unfold isOpenAt; now rewrite Hbs, lookup_insert_eq|].
  split; [|split; [|split; [|split]]].
  - rewrite Hr. intros Hin. apply List.filter_In in Hin as [_ Hk].
    unfold sameEndpoint in Hk. simpl in Hk.
    rewrite Hb, String.eqb_refl in Hk. discriminate Hk.
  - rewrite Hcl. simpl. apply lookup_delete_eq.
  - exact Hhost.
  - exact (Hun Hq).
  - rewrite Hh. simpl. now rewrite <- app_assoc.
Qed.

(** X9: under quiet conditions, when the process of an open instance
    exits and that instance is the one listening on it, the exit runs the
    whole teardown: the instance is marked closed and leaves the registry,
    its connection is closed, the host listeners are removed, and the
    one-shot listener of the process is used up. *)
Theorem processExit_tears_down (env : Env) (pid : ProcessId) (w : World)
    (browser : BrowserRef) (b : IBrowser) :
  quiet env ->
  childExitListeners w !! pid = Some [browser] ->
  browsers w !! browser = Some b ->
  _isOpen b = true ->
  let run := processExit env pid w in
  run.1 = Normal tt /\
  isOpenAt run.2 browser = false /\
  ~ In browser (runningBrowsers run.2) /\
  childExitListeners run.2 !! pid = None /\
  hostExitListeners run.2 = [] /\
  unhandledRejections run.2 = unhandledRejections w /\
  history run.2 =
    history w ++ [Debug "Browser process exited, cleaning up"] ++
    teardownStart b ++ [BrowserClose browser; RemoveAllListeners "exit"].
Proof. exact (processExit_run env pid w browser b). Qed.


Lemma processExit_tears_down_witness :
  let run := processExit (Sample.env Sample.nothingFails) 4242 Sample.launched in
  run.1 = Normal tt /\ isOpenAt run.2 0 = false /\
  ~ In 0 (runningBrowsers run.2) /\ childExitListeners run.2 !! 4242 = None.
Proof.
  assert (Hq : quiet (Sample.env Sample.nothingFails))
    by (intros h e; reflexivity).
  assert (Hb : browsers Sample.launched !! 0 =
               Some (Sample.instance true "/tmp/browserless-data-dir-1"))
    by (vm_compute; reflexivity).
  assert (Hl : childExitListeners Sample.launched !! 4242 = Some [0])
    by (vm_compute; reflexivity).
  destruct (processExit_tears_down (Sample.env Sample.nothingFails) 4242
              Sample.launched 0 _ Hq Hl Hb eq_refl) as (H1 & H2 & H3 & H4 & _).
  exact (conj H1 (conj H2 (conj H3 H4))).
Defined.

(** ** Request parameters *)

Lemma prefix_append (p k x : string) :
  String.prefix p k = true -> String.prefix p (k +:+ x) = true.
Proof.
  revert p. induction k as [|c k IH]; intros [|a p]; simpl;
    try discriminate; try reflexivity.
  - now destruct x.
  - destruct (ascii_dec a c); [apply IH|discriminate].
Qed.

Lemma queryArgs_origin (query : ParsedUrlQuery) (a : string) :
  In a (queryArgs query) ->
  exists k v,
    In (k, v) query /\ Js.startsWith k "--" = true /\
    (a = k \/ a = k +:+ "=" +:+ qToString v).
Proof.
  unfold queryArgs. intros Hin.
  apply in_map_iff in Hin as ([k v] & <- & Hin).
  apply list_elem_of_In, list_elem_of_filter in Hin as [Hk Hin].
  apply list_elem_of_In in Hin. simpl in Hk.
  exists k, v. split; [exact Hin|]. split; [exact Hk|].
  destruct (qTruthy v); [now right|left].
  clear. induction k as [|c k IH]; [reflexivity|].
  change (String c k +:+ "") with (String c (k +:+ "")). now rewrite IH.
Qed.

Lemma queryArgs_nil (query : ParsedUrlQuery) :
  (forall k v, In (k, v) query -> Js.startsWith k "--" = false) ->
  queryArgs query = [].
Proof.
  intros Hnone. unfold queryArgs.
  rewrite (elem_of_nil_inv (filter _ query)); [reflexivity|].
  intros [k v] Hin. apply list_elem_of_filter in Hin as [Hk Hin].
  apply list_elem_of_In in Hin. simpl in Hk.
  rewrite (Hnone k v Hin) in Hk. discriminate Hk.
Qed.

(** X10: the process arguments of a request are taken from its query keys
    that start with [--]: without such a key they are the default launch
    arguments; with at least one, they replace the defaults as a whole, in
    the order of the keys, each argument being a [--] key alone or the key
    followed by [=] and its value. *)
Theorem request_args_from_query (cfg : Config)
    (parseInt lodashParseInt : string -> option Z) (req : IHTTPRequest) :
  let o := convertUrlParamsToLaunchOpts cfg parseInt lodashParseInt req in
  ((forall k v, In (k, v) (req_query req) -> Js.startsWith k "--" = false) ->
   args o = Some (DEFAULT_LAUNCH_ARGS cfg)) /\
  ((exists k v, In (k, v) (req_query req) /\ Js.startsWith k "--" = true) ->
   exists l,
     args o = Some l /\ l <> [] /\
     length l =
       length (filter (fun kv : string * QVal => Js.startsWith kv.1 "--" = true)
                 (req_query req)) /\
     forall a, In a l ->
       Js.startsWith a "--" = true /\
       exists k v,
         In (k, v) (req_query req) /\ Js.startsWith k "--" = true /\
         (a = k \/ a = k +:+ "=" +:+ qToString v)).
Proof.
  cbv zeta. unfold convertUrlParamsToLaunchOpts. simpl. split.
  - intros Hnone. now rewrite (queryArgs_nil _ Hnone).
  - intros (k & v & Hin & Hk).
    assert (Hne : queryArgs (req_query req) <> []).
    { unfold queryArgs. intros Hnil. apply map_eq_nil in Hnil.
      assert (Hmem : (k, v) ∈ filter
                (fun kv : string * QVal => Js.startsWith kv.1 "--" = true)
                (req_query req)).
      { apply list_elem_of_filter. split; [exact Hk|now apply list_elem_of_In]. }
      rewrite Hnil in Hmem. now apply not_elem_of_nil in Hmem. }
    exists (queryArgs (req_query req)).
    split; [now destruct (queryArgs (req_query req))|].
    split; [exact Hne|]. split; [unfold queryArgs; apply length_map|].
    intros a Ha. destruct (queryArgs_origin _ _ Ha) as (k' & v' & Hin' & Hk' & Hform).
    split; [|now exists k', v'].
    destruct Hform as [->| ->]; [exact Hk'|now apply prefix_append].
Qed.

Lemma request_args_from_query_witness :
  args (convertUrlParamsToLaunchOpts Sample.cfg Sample.parseInt Sample.parseInt
          Scenario.reqNoArgs) = Some ["--disable-gpu"] /\
  exists l,
    args (convertUrlParamsToLaunchOpts Sample.cfg Sample.parseInt Sample.parseInt
            Scenario.reqArgs) = Some l /\
    l = ["--window-size=800,600"; "--hide-scrollbars"].
Proof.
  destruct (request_args_from_query Sample.cfg Sample.parseInt Sample.parseInt
              Scenario.reqNoArgs) as (Hdefault & _).
  destruct (request_args_from_query Sample.cfg Sample.parseInt Sample.parseInt
              Scenario.reqArgs) as (_ & Hreplaced).
  split.
  - apply Hdefault. simpl. intros k v H.
    repeat (destruct H as [[= <- <-]|H]; [reflexivity|]). destruct H.
  - destruct Hreplaced as (l & Hl & _).
    + exists "--window-size", (QStr "800,600"). split; [now left|reflexivity].
    + exists l. split; [exact Hl|].
      vm_compute in Hl. now injection Hl as <-.
Defined.

(** X11: a request without a [headless] parameter and without [--] keys is
    always judged fit for a prebooted browser, whatever its other
    parameters ask for (ad blocking, a tracking id, a profile directory,
    ...); a request with [headless=false] is never judged fit when the
    default is headless. *)
Theorem request_preboot_fitness (cfg : Config)
    (parseInt lodashParseInt : string -> option Z) (req : IHTTPRequest) :
  let o := convertUrlParamsToLaunchOpts cfg parseInt lodashParseInt req in
  (qlookup (req_query req) "headless" = None ->
   (forall k v, In (k, v) (req_query req) -> Js.startsWith k "--" = false) ->
   canUsePrebootedChrome cfg o = true) /\
  (qlookup (req_query req) "headless" = Some (QStr "false") ->
   DEFAULT_HEADLESS cfg = true ->
   canUsePrebootedChrome cfg o = false).
Proof.
  cbv zeta. split.
  - intros Hh Hnone.
    unfold canUsePrebootedChrome, convertUrlParamsToLaunchOpts. simpl.
    rewrite Hh, (queryArgs_nil _ Hnone). simpl.
    rewrite bool_decide_eq_true_2 by reflexivity. simpl.
    now rewrite Nat.eqb_refl.
  - intros Hh Hd.
    unfold canUsePrebootedChrome, convertUrlParamsToLaunchOpts. simpl.
    rewrite Hh, Hd. reflexivity.
Qed.

Lemma request_preboot_fitness_witness :
  userDataDir (convertUrlParamsToLaunchOpts Sample.cfg Sample.parseInt
                 Sample.parseInt Scenario.reqNoArgs) = Some "/data/profile" /\
  canUsePrebootedChrome Sample.cfg
    (convertUrlParamsToLaunchOpts Sample.cfg Sample.parseInt Sample.parseInt
       Scenario.reqNoArgs) = true /\
  canUsePrebootedChrome Sample.cfg
    (convertUrlParamsToLaunchOpts Sample.cfg Sample.parseInt Sample.parseInt
       Sample.reqFlags) = false.
Proof.
  destruct (request_preboot_fitness Sample.cfg Sample.parseInt Sample.parseInt
              Scenario.reqNoArgs) as (Hfit & _).
  destruct (request_preboot_fitness Sample.cfg Sample.parseInt Sample.parseInt
              Sample.reqFlags) as (_ & Hunfit).
  split; [reflexivity|]. split.
  - apply Hfit; [reflexivity|]. simpl. intros k v H.
    repeat (destruct H as [[= <- <-]|H]; [reflexivity|]). destruct H.
  - apply Hunfit; reflexivity.
Defined.

(** ** Launch arguments *)

Lemma hasUserDataDir_mentioned (opts : ILaunchOptions) (port_ : N) (arg : string) :
  In arg (default [] (args opts)) ->
  Js.includes arg "--user-data-dir=" = true ->
  hasUserDataDir (initialArgs opts port_) = true.
Proof.
  intros Hin Hinc. unfold hasUserDataDir, initialArgs.
  apply existsb_exists. exists arg. split; [|exact Hinc].
  apply in_or_app. right. apply in_or_app. now left.
Qed.

(** X12: whatever the options, the engine and the port, the launch
    arguments begin with the four baseline arguments, in their order, and
    hold the remote-debugging-port argument for the allocated port. *)
Theorem launch_args_baseline (cfg : Config) (opts : ILaunchOptions) (port_ : N)
    (generated : string) :
  BROWSERLESS_ARGS `prefix_of` la_args (buildLaunchArgs cfg opts port_ generated) /\
  In ("--remote-debugging-port=" +:+ pretty port_)
     (la_args (buildLaunchArgs cfg opts port_ generated)).
Proof.
  assert (Hport : isPlaywrightKept ("--remote-debugging-port=" +:+ pretty port_) = true)
    by reflexivity.
  unfold buildLaunchArgs. cbv zeta. simpl la_args.
  destruct (playwright opts), (isHeadless opts (initialArgs opts port_)),
    (browserlessDataDir opts (initialArgs opts port_) generated) as [dir|].
  all: split;
    [ unfold initialArgs; rewrite <- ?app_assoc, ?List.filter_app;
      change (List.filter isPlaywrightKept BROWSERLESS_ARGS) with BROWSERLESS_ARGS;
      try rewrite <- (app_nil_r BROWSERLESS_ARGS) at 1;
      now eexists
    | try (apply List.filter_In; split; [|exact Hport]);
      unfold initialArgs; rewrite ?in_app_iff; simpl;
      rewrite ?in_app_iff; simpl; tauto ].
Qed.

(** X13: with the default engine, an explicit argument that merely contains
    the text [--user-data-dir=] anywhere in it counts as naming a profile
    directory: no data-directory argument is appended, neither for the
    [userDataDir] option nor for a generated directory, no directory is
    stored on the instance, and the instance is marked as not using a
    temporary one. *)
Theorem mentioned_dataDir_suppresses (cfg : Config) (opts : ILaunchOptions)
    (port_ : N) (generated arg : string) :
  playwright opts = false ->
  In arg (default [] (args opts)) ->
  Js.includes arg "--user-data-dir=" = true ->
  la_args (buildLaunchArgs cfg opts port_ generated) =
    initialArgs opts port_ ++
    (if isHeadless opts (initialArgs opts port_)
     then ["--remote-debugging-pipe"] else []) /\
  browserlessDataDir opts (initialArgs opts port_) generated = None /\
  isUsingTempDataDir opts (initialArgs opts port_) = false.
Proof.
  intros Hp Hin Hinc.
  pose proof (hasUserDataDir_mentioned opts port_ arg Hin Hinc) as Hhas.
  unfold buildLaunchArgs, browserlessDataDir, isUsingTempDataDir.
  rewrite Hp, Hhas. simpl.
  split; [|split; reflexivity].
  destruct (isHeadless _ _); [reflexivity|now rewrite app_nil_r].
Qed.

Lemma mentioned_dataDir_suppresses_witness :
  la_args (buildLaunchArgs Sample.cfg Scenario.optsMention 9222 "/tmp/generated") =
    ["--no-sandbox"; "--enable-logging"; "--v1=1"; "--disable-dev-shm-usage";
     "--proxy-bypass-list=--user-data-dir=/x"; "--remote-debugging-port=9222"] /\
  browserlessDataDir Scenario.optsMention (initialArgs Scenario.optsMention 9222)
    "/tmp/generated" = None.
Proof.
  destruct (mentioned_dataDir_suppresses Sample.cfg Scenario.optsMention 9222
              "/tmp/generated" "--proxy-bypass-list=--user-data-dir=/x"
              eq_refl ltac:(simpl; tauto) eq_refl) as (Hargs & Hdir & _).
  split; [rewrite Hargs; vm_compute; reflexivity|exact Hdir].
Defined.

(** ** Instance setup *)

(** The conditions left by [steps] for [grows P] when [P] holds of the
    setup calls. *)
Ltac grows_setup HP :=
  lazymatch goal with
  | |- forall _ _, grows _ _ _ => intros ? ?; apply grows_same; reflexivity
  | |- grows _ ?w (set_history _ ?w) => apply grows_one; apply HP; reflexivity
  | |- grows _ _ _ => apply grows_same; reflexivity
  end.

Lemma setupPage_setup_effects (cfg : Config) (env : Env) (P : Effect -> Prop)
    (page : PageRef) (pause block : bool) (tid : option string)
    (size : option IWindowSize) :
  (forall e, isSetupEffect e = true -> P e) ->
  preserves (grows P) (setupPage cfg env page pause block tid size).
Proof.
  intros HP. unfold setupPage.
  steps; try grows_setup HP.
  destruct size; steps; grows_setup HP.
Qed.

Lemma setupBrowser_setup_effects (cfg : Config) (env : Env) (P : Effect -> Prop)
    (a : SetupBrowserArgs) :
  (forall e, isSetupEffect e = true -> P e) ->
  preserves (grows P) (setupBrowser cfg env a).
Proof.
  intros HP. unfold setupBrowser.
  steps; try grows_setup HP.
  destruct (pathname _); steps; try grows_setup HP.
  now apply setupPage_setup_effects.
Qed.

Lemma split_around_sep (c : ascii) (a b : string) :
  Js.split c (a +:+ String c b) = Js.split c a ++ Js.split c b.
Proof.
  induction a as [|x a IH].
  - change ("" +:+ String c b) with (String c b). simpl.
    now rewrite Ascii.eqb_refl.
  - change (String x a +:+ String c b) with (String x (a +:+ String c b)).
    simpl. rewrite IH. pose proof (split_not_nil c a) as Hne.
    destruct (Ascii.eqb x c); [reflexivity|].
    destruct (Js.split c a) as [|t ts]; [congruence|reflexivity].
Qed.

Lemma last_split_after (c : ascii) (a b : string) :
  last (Js.split c (a +:+ String c b)) = last (Js.split c b).
Proof.
  rewrite split_around_sep, last_app.
  pose proof (split_not_nil c b) as Hne.
  destruct (Js.split c b) as [|t ts] using rev_ind; [congruence|].
  now rewrite last_snoc.
Qed.

Lemma setupBrowser_run (cfg : Config) (env : Env) (a : SetupBrowserArgs)
    (w : World) (pathname_ : string) :
  pathname (url_parse env (sb_browserWSEndpoint a)) = Some pathname_ ->
  (forall h, env_throws env h (BrowserHook (sb_browser a)) = false) ->
  (forall h, env_throws env h (BrowserPages (sb_browser a)) = false) ->
  let h := history w ++ [Debug "Chrome PID"] in
  let hooked :=
    env_browserHook env h
      (storedInstance env a h (default "" (Js.pop (Js.split "/" pathname_)))) in
  exists w1,
    setupBrowser cfg env a w = (Normal (sb_browser a), w1) /\
    browsers w1 = <[sb_browser a := hooked]> (browsers w) /\
    runningBrowsers w1 = runningBrowsers w ++ [sb_browser a] /\
    childExitListeners w1 =
      <[_browserProcess hooked :=
          default [] (childExitListeners w !! _browserProcess hooked)
          ++ [sb_browser a]]> (childExitListeners w) /\
    targetListeners w1 = targetListeners w ++ [(sb_browser a, sb_windowSize a)] /\
    hostExitListeners w1 = hostExitListeners w /\
    nextRef w1 = nextRef w.
Proof.
  intros Hpath Hhook Hpages. cbv zeta. unfold setupBrowser.
  unfold bind, debug, emit, modify, get, seen, perform, readBrowser. simpl.
  rewrite Hpath. simpl. rewrite Hhook. simpl.
  rewrite lookup_alter_eq, lookup_insert_eq. simpl.
  rewrite Hpages. simpl.
  match goal with
  | |- context [forEach ?l (fun page => detached (@?f page)) ?w0] =>
      destruct (forEach_detached l f w0) as (w' & -> & Hun)
  end.
  { intros page. steps; [apply untouched_unhandled|apply setupPage_untouched]. }
  unfold ret. simpl.
  destruct Hun as (Hbs & Hreg & Hcl & Hhost & Htl & Hnext). simpl in *.
  eexists. split; [reflexivity|]. simpl.
  rewrite Hbs, Hreg, Hcl, Hhost, Htl, Hnext.
  split; [|repeat split].
  apply map_eq. intros r. destruct (decide (r = sb_browser a)) as [->|Hne].
  - now rewrite lookup_alter_eq, !lookup_insert_eq.
  - now rewrite lookup_alter_ne, !lookup_insert_ne by congruence.
Qed.

(** X14: a [setupBrowser] in which neither the instance hook nor the page
    enumeration raises hands the hook an instance that is open, has no
    keepalive timer and carries the endpoint, the data directory, the
    temporary-directory mark and the process it was given, with the last
    segment of the endpoint's path as identifier, and stores the instance
    as the hook leaves it.  It appends the instance to the end of the
    registry, installs one exit listener on the process that the stored
    instance names and one target listener, and changes no other object of
    the heap. *)
Theorem setupBrowser_registers (cfg : Config) (env : Env) (a : SetupBrowserArgs)
    (w : World) (dir id : string) :
  pathname (url_parse env (sb_browserWSEndpoint a)) = Some (dir +:+ "/" +:+ id) ->
  ~ In "/"%char (list_ascii_of_string id) ->
  (forall h, env_throws env h (BrowserHook (sb_browser a)) = false) ->
  (forall h, env_throws env h (BrowserPages (sb_browser a)) = false) ->
  let run := setupBrowser cfg env a w in
  exists built,
    (_isOpen built = true /\ _id built = id /\ _keepaliveTimeout built = None /\
     _wsEndpoint built = sb_browserWSEndpoint a /\
     _browserlessDataDir built = sb_browserlessDataDir a /\
     _isUsingTempDataDir built = sb_isUsingTempDataDir a /\
     _browserProcess built = sb_process a) /\
    let hooked := env_browserHook env (history w ++ [Debug "Chrome PID"]) built in
    run.1 = Normal (sb_browser a) /\
    browsers run.2 !! sb_browser a = Some hooked /\
    (forall r, r <> sb_browser a -> browsers run.2 !! r = browsers w !! r) /\
    runningBrowsers run.2 = runningBrowsers w ++ [sb_browser a] /\
    childExitListeners run.2 !! _browserProcess hooked =
      Some (default [] (childExitListeners w !! _browserProcess hooked)
            ++ [sb_browser a]) /\
    targetListeners run.2 = targetListeners w ++ [(sb_browser a, sb_windowSize a)].
Proof.
  intros Hpath Hid Hhook Hpages. cbv zeta.
  destruct (setupBrowser_run cfg env a w _ Hpath Hhook Hpages)
    as (w1 & -> & Hbs & Hreg & Hcl & Htl & _). simpl.
  exists (storedInstance env a (history w ++ [Debug "Chrome PID"])
            (default "" (Js.pop (Js.split "/" (dir +:+ "/" +:+ id))))).
  split; [|split; [reflexivity|split; [|split; [|split; [|split]]]]].
  - simpl. split; [reflexivity|]. split; [|repeat split].
    unfold Js.pop.
    change (dir +:+ "/" +:+ id) with (dir +:+ String "/" id).
    now rewrite last_split_after, (split_without_sep "/" id Hid).
  - rewrite Hbs. apply lookup_insert_eq.
  - intros r Hne. rewrite Hbs. now apply lookup_insert_ne.
  - exact Hreg.
  - rewrite Hcl. apply lookup_insert_eq.
  - exact Htl.
Qed.

Lemma setupBrowser_registers_witness :
  let run := setupBrowser Sample.cfg (Sample.env Sample.nothingFails)
               Sample.setupArgs Sample.world0 in
  run.1 = Normal 0 /\ runningBrowsers run.2 = [0] /\
  childExitListeners run.2 !! 4242 = Some [0] /\
  exists b, browsers run.2 !! 0 = Some b /\ _id b = "b1" /\ _isOpen b = true.
Proof.
  destruct (setupBrowser_registers Sample.cfg (Sample.env Sample.nothingFails)
              Sample.setupArgs Sample.world0 "/devtools/browser" "b1"
              eq_refl ltac:(simpl; intuition discriminate)
              (fun h => eq_refl) (fun h => eq_refl))
    as (built & (Hopen & Hid & _ & _ & _ & _ & Hproc) & H1 & Hb & _ & H2 & H3 & _).
  simpl in Hb, H3. rewrite Hproc in H3.
  split; [exact H1|]. split; [exact H2|]. split; [exact H3|].
  exists built. split; [exact Hb|]. split; [exact Hid|exact Hopen].
Defined.

(** X15: an instance set up on a process that nothing else listens on is
    torn down when that process exits: under quiet conditions, with a hook
    that leaves the instance open and on its process, after [setupBrowser]
    the instance is registered and open, and after the exit of the process
    it is marked closed, it is out of the registry again, and the listener
    is used up. *)
Theorem setup_then_exit (cfg : Config) (env : Env) (a : SetupBrowserArgs)
    (w : World) (pathname_ : string) :
  pathname (url_parse env (sb_browserWSEndpoint a)) = Some pathname_ ->
  quiet env ->
  (forall h b, _isOpen (env_browserHook env h b) = _isOpen b) ->
  (forall h b, _browserProcess (env_browserHook env h b) = _browserProcess b) ->
  childExitListeners w !! sb_process a = None ->
  let w1 := (setupBrowser cfg env a w).2 in
  let run := processExit env (sb_process a) w1 in
  In (sb_browser a) (runningBrowsers w1) /\
  isOpenAt w1 (sb_browser a) = true /\
  run.1 = Normal tt /\
  isOpenAt run.2 (sb_browser a) = false /\
  ~ In (sb_browser a) (runningBrowsers run.2) /\
  childExitListeners run.2 !! sb_process a = None.
Proof.
  intros Hpath Hq Hopen Hproc Hfree. cbv zeta.
  destruct (setupBrowser_run cfg env a w _ Hpath (fun h => Hq h _) (fun h => Hq h _))
    as (w1 & -> & Hbs & Hreg & Hcl & _). simpl.
  rewrite Hproc in Hcl. simpl in Hcl. rewrite Hfree in Hcl. simpl in Hcl.
  match type of Hbs with
  | browsers w1 = <[_ := ?hooked]> _ =>
      assert (Hb : browsers w1 !! sb_browser a = Some hooked)
        by (rewrite Hbs; apply lookup_insert_eq);
      assert (Ho : _isOpen hooked = true) by (now rewrite Hopen)
  end.
  assert (Hl : childExitListeners w1 !! sb_process a = Some [sb_browser a])
    by (rewrite Hcl; apply lookup_insert_eq).
  destruct (processExit_run env (sb_process a) w1 (sb_browser a) _
              Hq Hl Hb Ho) as (H1 & H2 & H3 & H4 & _).
  split; [rewrite Hreg; apply in_or_app; right; now left|].
  split; [unfold isOpenAt; now rewrite Hb|].
  repeat split; assumption.
Qed.

Lemma setup_then_exit_witness :
  let env := Sample.env Sample.nothingFails in
  let w1 := (setupBrowser Sample.cfg env Sample.setupArgs Sample.world0).2 in
  In 0 (runningBrowsers w1) /\
  isOpenAt (processExit env 4242 w1).2 0 = false /\
  ~ In 0 (runningBrowsers (processExit env 4242 w1).2).
Proof.
  destruct (setup_then_exit Sample.cfg (Sample.env Sample.nothingFails)
              Sample.setupArgs Sample.world0 "/devtools/browser/b1" eq_refl
              (fun h e => eq_refl) (fun h b => eq_refl) (fun h b => eq_refl)
              eq_refl)
    as (H1 & _ & _ & H2 & H3 & _).
  exact (conj H1 (conj H2 H3)).
Defined.

(** ** launchChrome *)

(** X16: when the caller names a profile directory, through the
    [userDataDir] option or through an explicit argument containing
    [--user-data-dir=], [launchChrome] never asks for a generated
    directory. *)
Theorem launchChrome_generates_no_dir (cfg : Config) (env : Env)
    (opts : ILaunchOptions) (isPreboot : bool) :
  Js.truthy_opt (userDataDir opts) = true \/
  (exists arg, In arg (default [] (args opts)) /\
               Js.includes arg "--user-data-dir=" = true) ->
  preserves (grows (fun e => e <> GetUserDataDir))
    (launchChrome cfg env opts isPreboot).
Proof.
  intros Hnamed.
  assert (Hc : forall port_,
            hasUserDataDir (initialArgs opts port_) ||
            Js.truthy_opt (userDataDir opts) = true).
  { intros port_. destruct Hnamed as [->|(arg & Hin & Hinc)].
    - apply orb_true_r.
    - now rewrite (hasUserDataDir_mentioned opts port_ arg Hin Hinc). }
  assert (HP : forall e, isSetupEffect e = true -> e <> GetUserDataDir)
    by (intros e He ->; discriminate He).
  unfold launchChrome.
  steps; try (apply grows_one; discriminate); try (apply grows_same; reflexivity).
  - rewrite Hc. steps.
  - destruct (env_fetchVersion _ _ _); steps;
      try (apply grows_one; discriminate); try (apply grows_same; reflexivity).
    + destruct (isPuppeteer _); steps;
        try (apply grows_one; discriminate); try (apply grows_same; reflexivity).
    + now apply setupBrowser_setup_effects.
Qed.

Lemma launchChrome_generates_no_dir_witness :
  grows (fun e => e <> GetUserDataDir) Sample.world0
    (launchChrome Sample.cfg (Sample.env Sample.nothingFails)
       Sample.optsUserDir false Sample.world0).2 /\
  In GetUserDataDir
    (history (launchChrome Sample.cfg (Sample.env Sample.nothingFails)
                Sample.opts0 false Sample.world0).2).
Proof.
  split.
  - apply (launchChrome_generates_no_dir Sample.cfg (Sample.env Sample.nothingFails)
             Sample.optsUserDir false). left. reflexivity.
  - vm_compute. tauto.
Defined.



Lemma bind_run {A B} (m : M A) (k : A -> M B) (w : World) (a : A) (w' : World) :
  m w = (Normal a, w') -> bind m k w = k a w'.
Proof. intros H. unfold bind. now rewrite H. Qed.

(** X18: with the default engine, when nothing raises and the version
    endpoint answers with an endpoint whose URL has a path, [launchChrome]
    returns the browser it started (a newly allocated object) and registers
    exactly that instance, at the end of the registry.  The instance that it
    hands to the instance hook, and stores as the hook leaves it, is open and
    carries the endpoint that was answered and the given preboot mark; it is
    marked as using a temporary directory exactly when neither the
    arguments nor the options name one, and then a directory is stored on
    it; with an explicit data-directory argument none is stored. *)
Theorem launchChrome_registers_one (cfg : Config) (env : Env)
    (opts : ILaunchOptions) (isPreboot : bool) (w : World)
    (endpoint pathname_ : string) :
  quiet env ->
  playwright opts = false ->
  (forall h url, env_fetchVersion env h url = Some endpoint) ->
  pathname (url_parse env endpoint) = Some pathname_ ->
  let run := launchChrome cfg env opts isPreboot w in
  let a0 := initialArgs opts (env_getPort env (history w)) in
  run.1 = Normal (nextRef w) /\
  nextRef run.2 = S (nextRef w) /\
  runningBrowsers run.2 = runningBrowsers w ++ [nextRef w] /\
  getBrowsersRunning run.2 = S (getBrowsersRunning w) /\
  exists built h,
    browsers run.2 !! nextRef w = Some (env_browserHook env h built) /\
    _isOpen built = true /\
    _wsEndpoint built = endpoint /\
    _prebooted built = isPreboot /\
    _isUsingTempDataDir built = isUsingTempDataDir opts a0 /\
    (isUsingTempDataDir opts a0 = true ->
     exists dir, _browserlessDataDir built = Some dir) /\
    (hasUserDataDir a0 = true -> _browserlessDataDir built = None).
Proof.
  intros Hq Hp Hver Hpath. cbv zeta. unfold launchChrome. cbv zeta.
  set (a0 := initialArgs opts (env_getPort env (history w))).
  assert (Hgen : forall w0, exists generated w0',
            (if hasUserDataDir a0 || Js.truthy_opt (userDataDir opts)
             then ret ""
             else let* h := seen in perform env GetUserDataDir;;
                  ret (env_getUserDataDir env h)) w0 = (Normal generated, w0') /\
            untouched w0 w0').
  { intros w0. destruct (hasUserDataDir a0 || Js.truthy_opt (userDataDir opts)).
    - exists "", w0. split; [reflexivity|apply step_refl].
    - unfold bind, seen, perform, ret. simpl. rewrite Hq.
      eexists _, _. split; [reflexivity|apply untouched_history]. }
  rewrite (bind_run _ _ w (history w) w) by reflexivity.
  erewrite bind_run by (unfold perform; rewrite Hq; reflexivity).
  destruct (Hgen (set_history (fun h => h ++ [GetPort]) w))
    as (generated & w1 & Hrun1 & Hu1).
  rewrite (bind_run _ _ _ _ _ Hrun1).
  erewrite bind_run by reflexivity.
  erewrite bind_run by reflexivity.
  erewrite bind_run by (unfold perform; rewrite Hq; reflexivity).
  erewrite bind_run by reflexivity.
  erewrite bind_run by reflexivity.
  erewrite bind_run by reflexivity.
  rewrite Hver, Hp.
  erewrite bind_run by reflexivity.
  match goal with
  | |- context [setupBrowser cfg env ?a ?w2] =>
      destruct (setupBrowser_run cfg env a w2 pathname_ Hpath
                  (fun h => Hq h _) (fun h => Hq h _))
        as (w3 & -> & Hbs & Hreg & _ & _ & _ & Hnext)
  end.
  simpl in Hbs, Hreg, Hnext |- *.
  destruct Hu1 as (Hb1 & Hr1 & _ & _ & _ & Hn1). simpl in Hb1, Hr1, Hn1.
  split; [now rewrite Hn1|]. split; [now rewrite Hnext, Hn1|].
  split; [now rewrite Hreg, Hr1, Hn1|].
  split; [unfold getBrowsersRunning; rewrite Hreg, Hr1, length_app; simpl; lia|].
  eexists _, _. split; [rewrite Hbs, Hn1; apply lookup_insert_eq|].
  lazy beta iota delta [storedInstance _isOpen _wsEndpoint _prebooted
    _isUsingTempDataDir _browserlessDataDir sb_browserWSEndpoint
    sb_isUsingTempDataDir sb_browserlessDataDir sb_prebooted].
  subst a0. repeat split.
  - unfold browserlessDataDir, isUsingTempDataDir.
    destruct (hasUserDataDir _), (Js.truthy_opt (userDataDir opts));
      simpl; intros Htemp; try discriminate Htemp. now eexists.
  - intros Hhas. unfold browserlessDataDir.
    match goal with
    | |- context [hasUserDataDir ?x] =>
        change (hasUserDataDir x = true) in Hhas; now rewrite Hhas
    end.
Qed.

Lemma launchChrome_registers_one_witness :
  let run := launchChrome Sample.cfg (Sample.env Sample.nothingFails)
               Sample.opts0 false Sample.world0 in
  run.1 = Normal 0 /\ runningBrowsers run.2 = [0] /\ getBrowsersRunning run.2 = 1.
Proof.
  destruct (launchChrome_registers_one Sample.cfg (Sample.env Sample.nothingFails)
              Sample.opts0 false Sample.world0
              "ws://127.0.0.1:9222/devtools/browser/b1" "/devtools/browser/b1"
              (fun h e => eq_refl) eq_refl (fun h url => eq_refl) eq_refl)
    as (H1 & _ & H2 & H3 & _).
  exact (conj H1 (conj H2 H3)).
Defined.

(** ** Page setup *)

Lemma when_false (m : M unit) : when false m = ret tt.
Proof. reflexivity. Qed.



(** X20: page setup makes its optional calls only when asked to: without
    ad blocking it never touches request interception; without
    pause-on-connect, or with the debug viewer among the disabled features,
    it never sends a debugger command; with automatic download handling
    disabled it never sets the download behaviour. *)
Theorem setupPage_optional_calls (cfg : Config) (env : Env) (page : PageRef)
    (pause block : bool) (tid : option string) (size : option IWindowSize) :
  (block = false ->
   preserves (grows (fun e => isInterception e = false))
     (setupPage cfg env page pause block tid size)) /\
  (pause = false \/ Features_DEBUG_VIEWER cfg ∈ DISABLED_FEATURES cfg ->
   preserves (grows (fun e => isDebuggerCommand e = false))
     (setupPage cfg env page pause block tid size)) /\
  (DISABLE_AUTO_SET_DOWNLOAD_BEHAVIOR cfg = true ->
   preserves (grows (fun e => forall p dir,
                       e <> ClientSend p "Page.setDownloadBehavior" dir))
     (setupPage cfg env page pause block tid size)).
Proof.
  split; [|split].
  - intros ->. unfold setupPage. rewrite when_false.
    steps; try (apply grows_one; reflexivity).
    destruct size; steps; apply grows_one; reflexivity.
  - intros Hoff.
    assert (Hc : pause && negb (bool_decide
                   (Features_DEBUG_VIEWER cfg ∈ DISABLED_FEATURES cfg)) = false).
    { destruct Hoff as [->|Hin]; [reflexivity|].
      rewrite bool_decide_eq_true_2 by exact Hin. apply andb_false_r. }
    unfold setupPage. rewrite Hc, when_false.
    steps; try (apply grows_one; reflexivity).
    destruct size; steps; apply grows_one; reflexivity.
  - intros Hoff. unfold setupPage. rewrite Hoff. simpl negb. rewrite when_false.
    steps; try (apply grows_one; intros p dir; discriminate).
    destruct size; steps; apply grows_one; intros p dir; discriminate.
Qed.

Lemma setupPage_optional_calls_witness :
  grows (fun e => isInterception e = false) Sample.world0
    (setupPage Sample.cfg (Sample.env Sample.nothingFails) 7 false false None None
       Sample.world0).2 /\
  grows (fun e => isDebuggerCommand e = false) Sample.world0
    (setupPage Sample.cfg (Sample.env Sample.nothingFails) 7 false false None None
       Sample.world0).2.
Proof.
  destruct (setupPage_optional_calls Sample.cfg (Sample.env Sample.nothingFails)
              7 false false None None) as (Hblock & Hpause & _).
  split; [apply (Hblock eq_refl)|apply Hpause; now left].
Defined.

(** X21: the ['targetcreated'] listener never fails and never changes the
    heap, the registry or the listeners, whatever raises inside it; for a
    target without a page, or with a page that is already closed, it sets
    nothing up. *)
Theorem targetcreated_contained (cfg : Config) (env : Env) (browser : BrowserRef)
    (size : option IWindowSize) (page : option PageRef) (closed : bool)
    (w : World) :
  let run := targetcreated cfg env browser size page closed w in
  run.1 = Normal tt /\
  untouched w run.2 /\
  (page = None \/ closed = true ->
   unhandledRejections run.2 = unhandledRejections w /\
   grows (fun e => e = TargetPage page \/ e = Debug "Error setting up new browser")
     w run.2).
Proof.
  cbv zeta. split; [|split].
  - unfold targetcreated, try_catch, bind, perform, debug, emit, modify.
    destruct (env_throws env (history w) (TargetPage page)); simpl; [reflexivity|].
    destruct page as [p|]; [|reflexivity].
    destruct closed; simpl; [reflexivity|].
    unfold bind, readBrowser. simpl.
    destruct (browsers w !! browser); simpl; [|reflexivity].
    match goal with
    | |- context [detached ?m ?w0] =>
        pose proof (detached_normal m w0) as Hn; destruct (detached m w0) as [c w1]
    end.
    simpl in Hn. now subst c.
  - assert (Hp : preserves untouched (targetcreated cfg env browser size page closed)).
    { unfold targetcreated.
      steps; try apply untouched_history.
      destruct page; steps.
      - apply untouched_unhandled.
      - apply setupPage_untouched. }
    apply Hp.
  - intros Hnone.
    assert (Hrun : targetcreated cfg env browser size page closed w =
                   if env_throws env (history w) (TargetPage page)
                   then (Normal tt,
                         set_history (fun h => h ++ [Debug "Error setting up new browser"])
                           (set_history (fun h => h ++ [TargetPage page]) w))
                   else (Normal tt, set_history (fun h => h ++ [TargetPage page]) w)).
    { unfold targetcreated, try_catch, bind, perform, debug, emit, modify.
      destruct (env_throws env (history w) (TargetPage page)); simpl; [reflexivity|].
      destruct Hnone as [->| ->]; [reflexivity|]. now destruct page. }
    rewrite Hrun.
    destruct (env_throws env (history w) (TargetPage page)); simpl;
      (split; [reflexivity|]).
    + exists [TargetPage page; Debug "Error setting up new browser"].
      split; [simpl; now rewrite <- app_assoc|]. repeat constructor; tauto.
    + exists [TargetPage page]. split; [reflexivity|]. repeat constructor; tauto.
Qed.

Lemma targetcreated_contained_witness :
  let run := targetcreated Sample.cfg (Sample.env Sample.nothingFails) 0 None
               (Some 7) true Sample.launched in
  run.1 = Normal tt /\ unhandledRejections run.2 = unhandledRejections Sample.launched.
Proof.
  destruct (targetcreated_contained Sample.cfg (Sample.env Sample.nothingFails) 0
              None (Some 7) true Sample.launched) as (H1 & _ & H2).
  destruct (H2 (or_intror eq_refl)) as (H3 & _).
  exact (conj H1 H3).
Defined.

(** ** Session listing *)

Lemma forEach_fetches (l : list IBrowser) (w : World) :
  exists w',
    forEach l (fun browser =>
      when (Js.truthy_opt (port (_parsed browser)))
        (emit (FetchJson (targetsUrl (default "" (port (_parsed browser))))))) w
    = (Normal tt, w') /\
    untouched w w' /\
    unhandledRejections w' = unhandledRejections w /\
    history w' =
      history w ++
      map (fun b => FetchJson (targetsUrl (default "" (port (_parsed b)))))
        (List.filter (fun b => Js.truthy_opt (port (_parsed b))) l).
Proof.
  revert w. induction l as [|b l IH]; intros w; simpl.
  - exists w. split; [reflexivity|]. split; [apply step_refl|].
    split; [reflexivity|now rewrite app_nil_r].
  - unfold bind.
    destruct (Js.truthy_opt (port (_parsed b))); simpl.
    + destruct (IH (set_history
                      (fun h => h ++ [FetchJson (targetsUrl (default "" (port (_parsed b))))])
                      w)) as (w' & -> & Hu & Hr & Hh).
      exists w'. split; [reflexivity|]. split; [|split].
      * eapply step_trans; [apply untouched_history|exact Hu].
      * exact Hr.
      * rewrite Hh. simpl. now rewrite <- app_assoc.
    + destruct (IH w) as (w' & -> & Hu & Hr & Hh).
      exists w'. repeat split; try apply Hu; assumption.
Qed.

(** X22: the listing only reads: it leaves the heap, the registry and the
    listeners as they are, and what it adds to the history is exactly one
    fetch of the target list per registered instance that has a port, in
    registry order, whether or not the listing is rejected in the end. *)
Theorem getDebuggingPages_read_only (cfg : Config) (env : Env) (w : World) :
  let run := getDebuggingPages cfg env w in
  untouched w run.2 /\
  unhandledRejections run.2 = unhandledRejections w /\
  history run.2 =
    history w ++
    map (fun b => FetchJson (targetsUrl (default "" (port (_parsed b)))))
      (List.filter (fun b => Js.truthy_opt (port (_parsed b))) (registered w)).
Proof.
  cbv zeta. unfold getDebuggingPages. unfold bind at 1. unfold get. simpl.
  unfold bind.
  destruct (forEach_fetches (registered w) w) as (w' & -> & Hu & Hr & Hh).
  destruct (promiseAll _ _); simpl; repeat split; try apply Hu; assumption.
Qed.

Lemma collect_map {A B} (f : A -> Completion B) (l : list A) (r : list B) :
  collect (map f l) = Normal r -> Forall2 (fun a b => f a = Normal b) l r.
Proof.
  intros H. apply collect_Normal in H.
  revert r H. induction l as [|a l IH]; intros r H; inversion H; subst;
    constructor; auto.
Qed.

Lemma rewriteSession_owner (cfg : Config) (env : Env) (b : IBrowser)
    (port_ : string) (session out : IJSONList) :
  rewriteSession cfg env b port_ session = Normal out ->
  out !! "browserId" = Some (JString (_id b)) /\
  out !! "port" = Some (JString port_) /\
  out !! "trackingId" = Some (jsOfOption (_trackingId b)) /\
  exists url, out !! "devtoolsFrontendUrl" = Some (JString url).
Proof.
  unfold rewriteSession, parseField. intros Hrun.
  destruct (session !! "webSocketDebuggerUrl") as [[ws| | |]|];
    try discriminate Hrun.
  destruct (session !! "devtoolsFrontendUrl") as [[front| | |]|];
    try discriminate Hrun.
  injection Hrun as <-.
  split; [now simplify_map_eq|]. split; [now simplify_map_eq|].
  split; [now simplify_map_eq|]. eexists. now simplify_map_eq.
Qed.

Lemma listing_structure (cfg : Config) (env : Env) (w : World)
    (pages : list ISession) :
  (getDebuggingPages cfg env w).1 = Normal pages ->
  exists per,
    pages = concat per /\
    Forall2 (fun b outs =>
               exists port_ sessions,
                 port (_parsed b) = Some port_ /\
                 env_fetchList env (history w) (targetsUrl port_) = Some sessions /\
                 Forall2 (fun s out => rewriteSession cfg env b port_ s = Normal out)
                   sessions outs)
      (registered w) per.
Proof.
  intros Hrun. apply getDebuggingPages_resolved in Hrun as (per & E & ->).
  exists per. split; [reflexivity|].
  apply collect_map in E.
  eapply Forall2_impl; [exact E|]. clear. intros b outs Hb. simpl in Hb.
  unfold browserSessions in Hb.
  destruct (port (_parsed b)) as [port_|] eqn:Hport; simpl in Hb;
    [|discriminate Hb].
  destruct (Js.truthy port_); simpl in Hb; [|discriminate Hb].
  destruct (env_fetchList env (history w) (targetsUrl port_)) as [sessions|] eqn:Hf;
    [|discriminate Hb].
  exists port_, sessions. split; [reflexivity|]. split; [exact Hf|].
  now apply collect_map.
Qed.

(** X23: a listing that resolves holds exactly one session per fetched
    target: its length is the total number of targets that the registered
    instances reported, none lost and none doubled. *)
Theorem listing_counts_targets (cfg : Config) (env : Env) (w : World)
    (pages : list ISession) :
  (getDebuggingPages cfg env w).1 = Normal pages ->
  exists fetched,
    Forall2 (fun b sessions =>
               env_fetchList env (history w)
                 (targetsUrl (default "" (port (_parsed b)))) = Some sessions)
      (registered w) fetched /\
    length pages = length (concat fetched).
Proof.
  intros Hrun. destruct (listing_structure cfg env w pages Hrun) as (per & -> & Hper).
  clear Hrun. induction Hper as [|b outs bs per (port_ & sessions & Hp & Hf & Hrw) _ IH].
  - exists []. split; [constructor|reflexivity].
  - destruct IH as (fetched & Hall & Hlen).
    exists (sessions :: fetched). split.
    + constructor; [|exact Hall]. now rewrite Hp.
    + simpl. rewrite !length_app, Hlen. f_equal.
      symmetry. eapply Forall2_length. exact Hrw.
Qed.

Lemma sample_listing :
  (getDebuggingPages Sample.cfg (Sample.env Sample.nothingFails)
     (set_runningBrowsers (fun _ => [0]) Sample.world2)).1
  = Normal [Sample.rewritten].
Proof.
  apply getDebuggingPages_resolved. exists [[Sample.rewritten]].
  split; [|reflexivity].
  replace (registered (set_runningBrowsers (fun _ => [0]) Sample.world2))
    with [Sample.browserAt "9222" "b1"] by (vm_compute; reflexivity).
  assert (Hws : Sample.target "A" "" !! "webSocketDebuggerUrl" =
                Some (JString "ws://127.0.0.1:9222/devtools/page/A"))
    by (vm_compute; reflexivity).
  assert (Hfront : Sample.target "A" "" !! "devtoolsFrontendUrl" =
                   Some (JString "/devtools/inspector.html?ws=127.0.0.1:9222/devtools/page/A"))
    by (vm_compute; reflexivity).
  assert (E : rewriteSession Sample.cfg (Sample.env Sample.nothingFails)
                (Sample.browserAt "9222" "b1") "9222" (Sample.target "A" "")
              = Normal Sample.rewritten).
  { unfold rewriteSession, parseField. rewrite Hws, Hfront.
    unfold Sample.rewritten.
    repeat (f_equal; try (vm_compute; reflexivity)). }
  assert (Hb : browserSessions Sample.cfg (Sample.env Sample.nothingFails) []
                 (Sample.browserAt "9222" "b1") = Normal [Sample.rewritten]).
  { unfold browserSessions.
    replace (port (_parsed (Sample.browserAt "9222" "b1"))) with (Some "9222")
      by (vm_compute; reflexivity).
    change (collect [rewriteSession Sample.cfg (Sample.env Sample.nothingFails)
                       (Sample.browserAt "9222" "b1") "9222" (Sample.target "A" "")]
            = Normal [Sample.rewritten]).
    simpl. now rewrite E. }
  change (history (set_runningBrowsers (fun _ => [0]) Sample.world2)) with (@nil Effect).
  simpl map. simpl collect. now rewrite Hb.
Qed.

Lemma listing_counts_targets_witness :
  exists fetched,
    Forall2 (fun b sessions =>
               env_fetchList (Sample.env Sample.nothingFails) []
                 (targetsUrl (default "" (port (_parsed b)))) = Some sessions)
      (registered (set_runningBrowsers (fun _ => [0]) Sample.world2)) fetched /\
    length [Sample.rewritten] = length (concat fetched).
Proof.
  exact (listing_counts_targets Sample.cfg (Sample.env Sample.nothingFails)
           (set_runningBrowsers (fun _ => [0]) Sample.world2) [Sample.rewritten]
           sample_listing).
Defined.

(** X24: every session of a resolved listing is attributed to a registered
    instance: its [browserId], [port] and [trackingId] are the identifier,
    the debugging port and the tracking id of one registered instance. *)
Theorem listing_sessions_have_owner (cfg : Config) (env : Env) (w : World)
    (pages : list ISession) (p : ISession) :
  (getDebuggingPages cfg env w).1 = Normal pages ->
  In p pages ->
  exists b,
    In b (registered w) /\
    p !! "browserId" = Some (JString (_id b)) /\
    p !! "port" = JString <$> port (_parsed b) /\
    p !! "trackingId" = Some (jsOfOption (_trackingId b)).
Proof.
  intros Hrun Hin.
  destruct (listing_structure cfg env w pages Hrun) as (per & -> & Hper).
  clear Hrun. induction Hper as [|b outs bs per (port_ & sessions & Hp & _ & Hrw) _ IH].
  - destruct Hin.
  - simpl in Hin. apply in_app_or in Hin as [Hin|Hin].
    + exists b. split; [now left|].
      apply list_elem_of_In, list_elem_of_lookup_1 in Hin as (i & Hi).
      destruct (Forall2_lookup_r _ _ _ _ _ Hrw Hi) as (s & _ & Hs).
      destruct (rewriteSession_owner _ _ _ _ _ _ Hs) as (H1 & H2 & H3 & _).
      rewrite Hp. auto.
    + destruct (IH Hin) as (b' & Hb' & Hrest).
      exists b'. split; [now right|exact Hrest].
Qed.

Lemma listing_sessions_have_owner_witness :
  exists b,
    In b (registered (set_runningBrowsers (fun _ => [0]) Sample.world2)) /\
    Sample.rewritten !! "browserId" = Some (JString (_id b)) /\
    Sample.rewritten !! "port" = JString <$> port (_parsed b) /\
    Sample.rewritten !! "trackingId" = Some (jsOfOption (_trackingId b)).
Proof.
  exact (listing_sessions_have_owner Sample.cfg (Sample.env Sample.nothingFails)
           (set_runningBrowsers (fun _ => [0]) Sample.world2) [Sample.rewritten]
           Sample.rewritten sample_listing (or_introl eq_refl)).
Defined.

(** ** Session lookup *)

Lemma lookup_follows_listing (cfg : Config) (env : Env) (w : World) (k pathname_ : string) :
  (let* pages := getDebuggingPages cfg env in
   ret (List.find (fieldIncludes k pathname_) pages)) w =
  match (getDebuggingPages cfg env w).1 with
  | Normal pages =>
      (Normal (List.find (fieldIncludes k pathname_) pages),
       (getDebuggingPages cfg env w).2)
  | Abrupt x => (Abrupt x, (getDebuggingPages cfg env w).2)
  end.
Proof.
  unfold bind. now destruct (getDebuggingPages cfg env w) as [[pages|x] w'].
Qed.

(** X25: the two session lookups depend on every registered instance: as
    soon as one registered instance has no port or its target list cannot
    be fetched, both lookups are rejected for every path, also for paths of
    sessions that belong to other instances. *)
Theorem session_lookup_fails_with_listing (cfg : Config) (env : Env) (w : World)
    (b : IBrowser) (pathname_ : string) :
  In b (registered w) ->
  Js.truthy_opt (port (_parsed b)) = false \/
  env_fetchList env (history w) (targetsUrl (default "" (port (_parsed b)))) = None ->
  exists x,
    (findSessionForPageUrl cfg env pathname_ w).1 = Abrupt x /\
    (findSessionForBrowserUrl cfg env pathname_ w).1 = Abrupt x.
Proof.
  intros Hin Hbad.
  assert (Hb : exists y, browserSessions cfg env (history w) b = Abrupt y).
  { unfold browserSessions. destruct Hbad as [->|Hf]; simpl; [now eexists|].
    destruct (Js.truthy_opt (port (_parsed b))); simpl; [|now eexists].
    rewrite Hf. now eexists. }
  destruct Hb as (y & Hy).
  destruct (getDebuggingPages_rejected cfg env w b y Hin Hy)
    as (_ & x & _ & _ & Hrun).
  exists x. unfold findSessionForPageUrl, findSessionForBrowserUrl.
  rewrite !lookup_follows_listing, Hrun. split; reflexivity.
Qed.

Lemma session_lookup_fails_with_listing_witness :
  exists x,
    (findSessionForPageUrl Sample.cfg (Sample.env Sample.nothingFails)
       "/devtools/page/A" Sample.world2).1 = Abrupt x /\
    (findSessionForBrowserUrl Sample.cfg (Sample.env Sample.nothingFails)
       "/devtools/page/A" Sample.world2).1 = Abrupt x.
Proof.
  apply (session_lookup_fails_with_listing Sample.cfg
           (Sample.env Sample.nothingFails) Sample.world2
           (Sample.browserAt "9333" "b2")).
  - replace (registered Sample.world2)
      with [Sample.browserAt "9222" "b1"; Sample.browserAt "9333" "b2"]
      by (vm_compute; reflexivity).
    right. left. reflexivity.
  - right. vm_compute. reflexivity.
Defined.

Lemma includes_empty (s : string) : Js.includes s "" = true.
Proof. now destruct s. Qed.

Lemma find_first {A : Type} (f : A -> bool) (l : list A) (x : A) :
  List.find f l = Some x ->
  exists before after,
    l = before ++ x :: after /\ f x = true /\
    forall y, In y before -> f y = false.
Proof.
  induction l as [|a l IH]; simpl; [discriminate|].
  destruct (f a) eqn:Ha.
  - intros [= ->]. exists [], l. repeat split; [assumption|]. intros y [].
  - intros Hfind. destruct (IH Hfind) as (before & after & -> & Hx & Hnone).
    exists (a :: before), after. repeat split; [assumption|].
    intros y [<-|Hin]; [assumption|now apply Hnone].
Qed.

(** X26: on a listing that resolves, the lookup by page path gives the
    first listed session whose devtools-frontend URL contains the path: a
    session that is found is a listed one, its URL contains the path and no
    session listed before it does; when none is found no listed session
    contains it.  The empty path is contained in every URL, so it finds the
    first listed session. *)
Theorem findSessionForPageUrl_outcomes (cfg : Config) (env : Env) (w : World)
    (pages : list ISession) (pathname_ : string) :
  (getDebuggingPages cfg env w).1 = Normal pages ->
  (forall s,
     (findSessionForPageUrl cfg env pathname_ w).1 = Normal (Some s) ->
     exists before after url,
       pages = before ++ s :: after /\
       s !! "devtoolsFrontendUrl" = Some (JString url) /\
       Js.includes url pathname_ = true /\
       forall s' url',
         In s' before -> s' !! "devtoolsFrontendUrl" = Some (JString url') ->
         Js.includes url' pathname_ = false) /\
  ((findSessionForPageUrl cfg env pathname_ w).1 = Normal None ->
   forall s url, In s pages -> s !! "devtoolsFrontendUrl" = Some (JString url) ->
                 Js.includes url pathname_ = false) /\
  (findSessionForPageUrl cfg env "" w).1 = Normal (head pages).
Proof.
  intros Hrun. unfold findSessionForPageUrl.
  rewrite !lookup_follows_listing, Hrun. simpl.
  split; [|split].
  - intros s [= Hfind].
    apply find_first in Hfind as (before & after & Hpages & Hk & Hnone).
    unfold fieldIncludes in Hk.
    destruct (s !! "devtoolsFrontendUrl") as [[url| | |]|] eqn:Hs; try discriminate Hk.
    exists before, after, url. repeat split; try assumption.
    intros s' url' Hin Hurl. specialize (Hnone s' Hin).
    unfold fieldIncludes in Hnone. now rewrite Hurl in Hnone.
  - intros [= Hfind] s url Hin Hurl.
    pose proof (List.find_none _ _ Hfind s Hin) as Hk.
    unfold fieldIncludes in Hk. now rewrite Hurl in Hk.
  - f_equal. destruct pages as [|p pages]; [reflexivity|]. simpl.
    destruct (listing_structure cfg env w (p :: pages) Hrun) as (per & Hcat & Hper).
    assert (Hp : exists url, p !! "devtoolsFrontendUrl" = Some (JString url)).
    { clear Hrun. revert Hcat.
      induction Hper as [|b outs bs per' (port_ & sessions & _ & _ & Hrw) _ IH];
        simpl; intros Hcat; [discriminate Hcat|].
      destruct Hrw as [|s out ss outs Hs _].
      - now apply IH.
      - simpl in Hcat. injection Hcat as <- _.
        now destruct (rewriteSession_owner _ _ _ _ _ _ Hs) as (_ & _ & _ & Hurl). }
    destruct Hp as (url & Hurl). unfold fieldIncludes.
    now rewrite Hurl, includes_empty.
Qed.

Lemma findSessionForPageUrl_outcomes_witness :
  (findSessionForPageUrl Sample.cfg (Sample.env Sample.nothingFails) ""
     (set_runningBrowsers (fun _ => [0]) Sample.world2)).1
  = Normal (Some Sample.rewritten).
Proof.
  destruct (findSessionForPageUrl_outcomes Sample.cfg
              (Sample.env Sample.nothingFails)
              (set_runningBrowsers (fun _ => [0]) Sample.world2)
              [Sample.rewritten] "" sample_listing) as (_ & _ & Hfirst).
  exact Hfirst.
Defined.

(** ** After killAll *)

(** X27: after [killAll] nothing is listed any more: the listing resolves
    to the empty list without a single fetch, both session lookups find
    nothing, and [kill] finds no instance for any identifier. *)
Theorem killAll_then_nothing_listed (cfg : Config) (env env' : Env) (w : World)
    (pathname_ id : string) :
  let w' := (killAll env w).2 in
  getDebuggingPages cfg env' w' = (Normal [], w') /\
  findSessionForPageUrl cfg env' pathname_ w' = (Normal None, w') /\
  findSessionForBrowserUrl cfg env' pathname_ w' = (Normal None, w') /\
  kill env' id w' = (Normal false, w').
Proof.
  cbv zeta.
  assert (Hreg : runningBrowsers (killAll env w).2 = []).
  { unfold killAll, bind, get. simpl.
    destruct (forEach_closeBrowser env (runningBrowsers w) w) as (w1 & -> & _).
    reflexivity. }
  set (w' := (killAll env w).2) in *.
  assert (Hlist : getDebuggingPages cfg env' w' = (Normal [], w')).
  { unfold getDebuggingPages, bind, get, registered. simpl. now rewrite Hreg. }
  split; [exact Hlist|].
  unfold findSessionForPageUrl, findSessionForBrowserUrl.
  rewrite !lookup_follows_listing, Hlist. simpl.
  split; [reflexivity|]. split; [reflexivity|].
  apply kill_none. rewrite Hreg. intros r [].
Qed.
